(** * GstRerunSink: a shallow embedding of the render, extraction and
      session code of [gstrerunsink.cpp], and the properties checked on it.

    The element is modelled as a state monad over the private structure of
    the element together with a trace of the calls made on its external
    collaborators (the rerun recording stream, the GStreamer buffer mapping
    and the NvBufSurface mapping).  Debug logging ([GST_*_OBJECT]) has no
    effect on the element and is left out. *)

From Stdlib Require Import ZArith List String Bool Lia.
From Stdlib Require Import Strings.Byte.
Import ListNotations.

Local Open Scope string_scope.
Local Open Scope list_scope.
Local Open Scope Z_scope.


(** ** GLib and GStreamer values *)

(** [g_strcmp0]: compares two strings that may be NULL; NULL sorts before
    every string and equals only NULL. *)
Definition g_strcmp0 (str1 str2 : option string) : Z :=
  match str1, str2 with
  | None, None => 0
  | None, Some _ => -1
  | Some _, None => 1
  | Some a, Some b =>
      match String.compare a b with
      | Eq => 0
      | Lt => -1
      | Gt => 1
      end
  end.

(** Conversions to the signed machine integers the code stores values in. *)
Definition to_gint (x : Z) : Z := (x + 2 ^ 31) mod 2 ^ 32 - 2 ^ 31.
Definition to_int64 (x : Z) : Z := (x + 2 ^ 63) mod 2 ^ 64 - 2 ^ 63.

(** Conversion to the [uint32_t] that [rerun::WidthHeight] takes. *)
Definition to_uint32 (x : Z) : Z := x mod 2 ^ 32.

Inductive GstFlowReturn : Set :=
| GST_FLOW_OK
| GST_FLOW_NOT_NEGOTIATED
| GST_FLOW_ERROR.

(** The numeric values of the flow codes in gstpad.h. *)
Definition flow_code (r : GstFlowReturn) : Z :=
  match r with
  | GST_FLOW_OK => 0
  | GST_FLOW_NOT_NEGOTIATED => -4
  | GST_FLOW_ERROR => -5
  end.

Definition GstFlowReturn_eqb (a b : GstFlowReturn) : bool :=
  flow_code a =? flow_code b.

(** The pixel formats of [GstVideoFormat] the element names, and every
    other enumerator by its numeric value. *)
Inductive GstVideoFormat : Set :=
| GST_VIDEO_FORMAT_RGB
| GST_VIDEO_FORMAT_RGBA
| GST_VIDEO_FORMAT_GRAY8
| GST_VIDEO_FORMAT_NV12
| GST_VIDEO_FORMAT_I420
| GST_VIDEO_FORMAT_other (enumerator : Z).

Definition GstVideoFormat_eqb (a b : GstVideoFormat) : bool :=
  match a, b with
  | GST_VIDEO_FORMAT_RGB, GST_VIDEO_FORMAT_RGB
  | GST_VIDEO_FORMAT_RGBA, GST_VIDEO_FORMAT_RGBA
  | GST_VIDEO_FORMAT_GRAY8, GST_VIDEO_FORMAT_GRAY8
  | GST_VIDEO_FORMAT_NV12, GST_VIDEO_FORMAT_NV12
  | GST_VIDEO_FORMAT_I420, GST_VIDEO_FORMAT_I420 => true
  | GST_VIDEO_FORMAT_other x, GST_VIDEO_FORMAT_other y => x =? y
  | _, _ => false
  end.

(** [GstVideoInfo]: the fields the element reads. *)
Record GstVideoInfo : Set := {
  finfo_format : GstVideoFormat;
  GST_VIDEO_INFO_WIDTH : Z;
  GST_VIDEO_INFO_HEIGHT : Z
}.

(** A caps structure: a media-type name and typed fields. *)
Inductive GValue : Set :=
| G_TYPE_INT (v : Z)
| G_TYPE_STRING (s : string).

Record GstStructure : Set := {
  structure_name : string;
  structure_fields : list (string * GValue)
}.

Definition GstCaps : Set := list GstStructure.

(** [gst_caps_get_structure]: NULL (here [None]) past the last structure. *)
Definition gst_caps_get_structure (caps : GstCaps) (index : nat)
  : option GstStructure :=
  nth_error caps index.

(** [gst_structure_get_name]: NULL on a NULL structure. *)
Definition gst_structure_get_name (structure : option GstStructure)
  : option string :=
  option_map structure_name structure.

Fixpoint structure_lookup (fields : list (string * GValue)) (fieldname : string)
  : option GValue :=
  match fields with
  | [] => None
  | (k, v) :: rest =>
      if String.eqb k fieldname then Some v else structure_lookup rest fieldname
  end.

(** [gst_structure_get_int (structure, fieldname, &value)]: writes the field
    to [value] when it exists and holds an int, and leaves [value] as it was
    otherwise.  The function gives the content of [value] after the call. *)
Definition gst_structure_get_int (structure : option GstStructure)
    (fieldname : string) (value : Z) : Z :=
  match structure with
  | None => value
  | Some s =>
      match structure_lookup (structure_fields s) fieldname with
      | Some (G_TYPE_INT v) => v
      | _ => value
      end
  end.

(** ** NvBufSurface (device-resident surfaces) *)

(** The first surface of an [NvBufSurface] batch: the fields the element
    reads, the planes as the CPU sees them once mapped (NULL is [None]), and
    the return codes of the two NvBufSurface calls on it. *)
Record NvBufSurface : Set := {
  NvBufSurfaceMap_code : Z;
  NvBufSurfaceSyncForCpu_code : Z;
  surface_width : Z;
  surface_height : Z;
  planeParams_pitch0 : Z;
  planeParams_pitch1 : Z;
  planeParams_psize0 : Z;
  planeParams_psize1 : Z;
  mappedAddr_addr0 : option (list byte);
  mappedAddr_addr1 : option (list byte)
}.

(** ** Buffers *)

Record GstAllocator : Set := { allocator_name : option string }.
Record GstMemory : Set := { memory_allocator : option GstAllocator }.

(** What [gst_buffer_map] hands out: the [map.size] bytes at [map.data],
    and, for a device buffer, the surface descriptor [map.data] points to. *)
Record GstMapInfo : Set := {
  map_data : list byte;
  map_surface : option NvBufSurface
}.

Record GstBuffer : Set := {
  buffer_memory0 : option GstMemory;   (* gst_buffer_peek_memory (buffer, 0) *)
  buffer_map : option GstMapInfo;      (* None: gst_buffer_map fails *)
  GST_BUFFER_DTS : Z                   (* guint64 *)
}.

(** ** The rerun side *)

Inductive VideoCodec : Set := H264 | H265.

Inductive ImageFormat : Set :=
| ColorModel_RGB
| ColorModel_RGBA
| ColorModel_L
| PixelFormat_NV12
| PixelFormat_Y_U_V12_LimitedRange.

(** [rerun::archetypes::Image]: the default-constructed (empty) image, or
    the buffer, resolution and format given to its constructor. *)
Inductive Image : Set :=
| Image_default
| Image_from (bytes : list byte) (width height : Z) (format : ImageFormat).

Definition image_bytes (image : Image) : list byte :=
  match image with
  | Image_default => []
  | Image_from bytes _ _ _ => bytes
  end.

(** What is logged.  The codec of a codec descriptor is [None] when the
    local variable it is read from was never assigned. *)
Inductive Archetype : Set :=
| VideoStream_with_codec (codec : option VideoCodec)
| VideoStream_with_sample (sample : list byte)
| Image_archetype (image : Image).

Record RecordingStream : Set := { stream_id : string }.

Inductive Route : Set := EncodedRoute | DeviceRoute | HostRoute.

(** Calls on the collaborators, in program order.  [Extractor_called] is a
    ghost event that marks the call of an extractor from the render
    function. *)
Inductive Event : Set :=
| RecordingStream_new (rec_id : string)
| RecordingStream_delete
| RecordingStream_save (path : string)
| RecordingStream_connect_grpc (address : string)
| RecordingStream_spawn
| RecordingStream_log (entity_path : string) (a : Archetype)
| RecordingStream_log_static (entity_path : string) (a : Archetype)
| RecordingStream_set_time_timestamp (timeline : string) (nanos : Z)
| cudaFree
| gst_buffer_map_ok
| gst_buffer_unmap
| NvBufSurfaceMap_ok
| NvBufSurfaceSyncForCpu_ok
| NvBufSurfaceUnMap
| Extractor_called (r : Route).

(** The outcome of opening a target, decided by the rerun library. *)
Record RerunEnv : Set := {
  save_is_err : string -> bool;
  connect_grpc_is_err : string -> bool;
  spawn_is_err : bool
}.

(** ** The element *)

Definition DEFAULT_GRPC_ADDRESS : string := "127.0.0.1:9876".

Record GstRerunSinkPrivate : Set := {
  rec_stream : option RecordingStream;
  rerun_initialized : bool;
  recording_id : option string;
  image_path : option string;
  video_path : option string;
  spawn_viewer : bool;
  output_file : option string;
  grpc_address : option string;
  codec_sent : bool
}.

Record Sink : Set := {
  priv : GstRerunSinkPrivate;
  calls : list Event
}.

(** The state monad the element's functions run in. *)
Definition M (A : Type) : Type := Sink -> A * Sink.

Definition ret {A : Type} (a : A) : M A := fun s => (a, s).

Definition bind {A B : Type} (m : M A) (k : A -> M B) : M B :=
  fun s => let (a, s') := m s in k a s'.

Notation "x <- m ;; k" := (bind m (fun x => k))
  (at level 61, m at next level, right associativity).
Notation "m ;;; k" := (bind m (fun _ => k))
  (at level 61, right associativity).

Definition get_priv : M GstRerunSinkPrivate := fun s => (priv s, s).

Definition emit (e : Event) : M unit :=
  fun s => (tt, {| priv := priv s; calls := calls s ++ [e] |}).

Definition modify_priv (f : GstRerunSinkPrivate -> GstRerunSinkPrivate) : M unit :=
  fun s => (tt, {| priv := f (priv s); calls := calls s |}).

Definition set_rec_stream (v : option RecordingStream) (p : GstRerunSinkPrivate) :=
  {| rec_stream := v; rerun_initialized := rerun_initialized p;
     recording_id := recording_id p; image_path := image_path p;
     video_path := video_path p; spawn_viewer := spawn_viewer p;
     output_file := output_file p; grpc_address := grpc_address p;
     codec_sent := codec_sent p |}.

Definition set_rerun_initialized (v : bool) (p : GstRerunSinkPrivate) :=
  {| rec_stream := rec_stream p; rerun_initialized := v;
     recording_id := recording_id p; image_path := image_path p;
     video_path := video_path p; spawn_viewer := spawn_viewer p;
     output_file := output_file p; grpc_address := grpc_address p;
     codec_sent := codec_sent p |}.

Definition set_codec_sent (v : bool) (p : GstRerunSinkPrivate) :=
  {| rec_stream := rec_stream p; rerun_initialized := rerun_initialized p;
     recording_id := recording_id p; image_path := image_path p;
     video_path := video_path p; spawn_viewer := spawn_viewer p;
     output_file := output_file p; grpc_address := grpc_address p;
     codec_sent := v |}.

(** [is_encoded_format] *)
Definition is_encoded_format (caps : option GstCaps) : bool :=
  match caps with
  | None => false
  | Some caps =>
      match gst_caps_get_structure caps 0 with
      | None => false
      | Some structure =>
          let name := gst_structure_get_name (Some structure) in
          (g_strcmp0 name (Some "video/x-h264") =? 0)
          || (g_strcmp0 name (Some "video/x-h265") =? 0)
      end
  end.

(** A NULL test on a pointer, and the string behind a [gchar*] that was
    tested to be non-NULL. *)
Definition is_null {A : Type} (ptr : option A) : bool :=
  match ptr with
  | None => true
  | Some _ => false
  end.

Definition c_str (ptr : option string) : string :=
  match ptr with
  | None => ""
  | Some s => s
  end.

(** [process_encoded_video].  The guard on the session and the video path
    comes first; the caps are read only behind it. *)
Definition process_encoded_video (buffer : GstBuffer) (caps : GstCaps)
  : M GstFlowReturn :=
  p <- get_priv ;;
  if negb (rerun_initialized p) || is_null (rec_stream p) || is_null (video_path p)
  then ret GST_FLOW_OK
  else
    let structure := gst_caps_get_structure caps 0 in
    let format_name := gst_structure_get_name structure in
    let width := gst_structure_get_int structure "width" 0 in
    if width =? 0 then ret GST_FLOW_ERROR else
    let height := gst_structure_get_int structure "height" 0 in
    if height =? 0 then ret GST_FLOW_ERROR else
    let codec :=
      if g_strcmp0 format_name (Some "video/x-h264") =? 0 then Some H264
      else if g_strcmp0 format_name (Some "video/x-h265") =? 0 then Some H265
      else None in
    (if negb (codec_sent p) then
       emit (RecordingStream_log_static (c_str (video_path p))
               (VideoStream_with_codec codec)) ;;;
       modify_priv (set_codec_sent true)
     else ret tt) ;;;
    match buffer_map buffer with
    | None => ret GST_FLOW_ERROR
    | Some map =>
        emit gst_buffer_map_ok ;;;
        emit (RecordingStream_set_time_timestamp "time"
                (to_int64 (GST_BUFFER_DTS buffer))) ;;;
        emit (RecordingStream_log (c_str (video_path p))
                (VideoStream_with_sample (map_data map))) ;;;
        emit gst_buffer_unmap ;;;
        ret GST_FLOW_OK
    end.

(** [is_nvmm_memory] (compiled with HAVE_NVMM_SUPPORT) *)
Definition is_nvmm_memory (buffer : GstBuffer) : bool :=
  match buffer_memory0 buffer with
  | None => false
  | Some memory =>
      match memory_allocator memory with
      | None => false
      | Some allocator =>
          let allocator_name := allocator_name allocator in
          (g_strcmp0 allocator_name (Some "nvfiltermemoryallocator0") =? 0)
          || (g_strcmp0 allocator_name (Some "nvdsmemoryallocator0") =? 0)
      end
  end.

(** The bytes [ptr + off, ptr + off + len) of a mapped plane.  A read that
    leaves the plane is undefined in the source; the model cuts it at the end
    of the plane, and the properties on the extracted bytes are stated for
    planes that hold every row. *)
Definition plane_range (ptr : list byte) (off len : Z) : list byte :=
  firstn (Z.to_nat len) (skipn (Z.to_nat off) ptr).

(** The loop [for (int i = i0; ...; ++i) raw_data.insert (raw_data.end (),
    ptr + i * pitch, ptr + i * pitch + width)], with [iters] iterations
    left. *)
Fixpoint copy_rows (raw_data ptr : list byte) (pitch width i : Z) (iters : nat)
  : list byte :=
  match iters with
  | O => raw_data
  | S iters' =>
      copy_rows (raw_data ++ plane_range ptr (i * pitch) width)
        ptr pitch width (i + 1) iters'
  end.

(** The two copy loops of [process_nvmm_buffer] on the mapped planes. *)
Definition nvmm_raw_data (surface : NvBufSurface) (cpu_y_ptr cpu_uv_ptr : list byte)
  : list byte :=
  let width := to_gint (surface_width surface) in
  let height := to_gint (surface_height surface) in
  let y_pitch := to_gint (planeParams_pitch0 surface) in
  let uv_pitch := to_gint (planeParams_pitch1 surface) in
  let raw_data := copy_rows [] cpu_y_ptr y_pitch width 0 (Z.to_nat height) in
  copy_rows raw_data cpu_uv_ptr uv_pitch width 0 (Z.to_nat (Z.quot height 2)).

(** [process_nvmm_buffer] (compiled with HAVE_NVMM_SUPPORT).  [image] is the
    reference parameter: its value at the call, and in the result its value
    at the return. *)
Definition process_nvmm_buffer (buffer : GstBuffer) (info : GstVideoInfo)
    (image : Image) : M (GstFlowReturn * Image) :=
  match buffer_map buffer with
  | None => ret (GST_FLOW_ERROR, image)
  | Some map =>
      emit gst_buffer_map_ok ;;;
      match map_surface map with
      | None => emit gst_buffer_unmap ;;; ret (GST_FLOW_ERROR, image)
      | Some surface =>
          if negb (NvBufSurfaceMap_code surface =? 0) then
            emit gst_buffer_unmap ;;; ret (GST_FLOW_ERROR, image)
          else
            emit NvBufSurfaceMap_ok ;;;
            if negb (NvBufSurfaceSyncForCpu_code surface =? 0) then
              emit NvBufSurfaceUnMap ;;; emit gst_buffer_unmap ;;;
              ret (GST_FLOW_ERROR, image)
            else
              emit NvBufSurfaceSyncForCpu_ok ;;;
              match mappedAddr_addr0 surface with
              | None =>
                  emit NvBufSurfaceUnMap ;;; emit gst_buffer_unmap ;;;
                  ret (GST_FLOW_ERROR, image)
              | Some cpu_y_ptr =>
                  match mappedAddr_addr1 surface with
                  | None =>
                      emit NvBufSurfaceUnMap ;;; emit gst_buffer_unmap ;;;
                      ret (GST_FLOW_ERROR, image)
                  | Some cpu_uv_ptr =>
                      let width := to_gint (surface_width surface) in
                      let height := to_gint (surface_height surface) in
                      let raw_data := nvmm_raw_data surface cpu_y_ptr cpu_uv_ptr in
                      if GstVideoFormat_eqb (finfo_format info) GST_VIDEO_FORMAT_NV12
                      then
                        emit NvBufSurfaceUnMap ;;; emit gst_buffer_unmap ;;;
                        ret (GST_FLOW_OK,
                             Image_from raw_data (to_uint32 width)
                               (to_uint32 height) PixelFormat_NV12)
                      else
                        emit NvBufSurfaceUnMap ;;; emit gst_buffer_unmap ;;;
                        ret (GST_FLOW_NOT_NEGOTIATED, image)
                  end
              end
      end
  end.

(** [create_image_from_format] *)
Definition create_image_from_format (raw_data : list byte)
    (format : GstVideoFormat) (width height : Z) : Image :=
  match format with
  | GST_VIDEO_FORMAT_RGB => Image_from raw_data width height ColorModel_RGB
  | GST_VIDEO_FORMAT_RGBA => Image_from raw_data width height ColorModel_RGBA
  | GST_VIDEO_FORMAT_GRAY8 => Image_from raw_data width height ColorModel_L
  | GST_VIDEO_FORMAT_NV12 => Image_from raw_data width height PixelFormat_NV12
  | GST_VIDEO_FORMAT_I420 =>
      Image_from raw_data width height PixelFormat_Y_U_V12_LimitedRange
  | GST_VIDEO_FORMAT_other _ => Image_default
  end.

(** [process_regular_buffer]: [raw_data] is the whole mapped view,
    [map.data] to [map.data + map.size]. *)
Definition process_regular_buffer (buffer : GstBuffer) (info : GstVideoInfo)
    (image : Image) : M (GstFlowReturn * Image) :=
  match buffer_map buffer with
  | None => ret (GST_FLOW_ERROR, image)
  | Some map =>
      emit gst_buffer_map_ok ;;;
      let raw_data := map_data map in
      let width := GST_VIDEO_INFO_WIDTH info in
      let height := GST_VIDEO_INFO_HEIGHT info in
      let image := create_image_from_format raw_data (finfo_format info) width height in
      emit gst_buffer_unmap ;;;
      if negb (GstVideoFormat_eqb (finfo_format info) GST_VIDEO_FORMAT_RGB)
         && negb (GstVideoFormat_eqb (finfo_format info) GST_VIDEO_FORMAT_RGBA)
         && negb (GstVideoFormat_eqb (finfo_format info) GST_VIDEO_FORMAT_GRAY8)
         && negb (GstVideoFormat_eqb (finfo_format info) GST_VIDEO_FORMAT_NV12)
         && negb (GstVideoFormat_eqb (finfo_format info) GST_VIDEO_FORMAT_I420)
      then ret (GST_FLOW_NOT_NEGOTIATED, image)
      else ret (GST_FLOW_OK, image)
  end.

Section Element.

(** Whether the element is compiled with HAVE_NVMM_SUPPORT. *)
Variable HAVE_NVMM_SUPPORT : bool.

(** [gst_video_info_from_caps] of the GStreamer video library: the parsed
    video info, or [None] when the caps do not describe raw video. *)
Variable gst_video_info_from_caps : GstCaps -> option GstVideoInfo.

(** [gst_rerun_sink_render]; [caps] is what [gst_pad_get_current_caps]
    returns for the sink pad. *)
Definition gst_rerun_sink_render (caps : option GstCaps) (buffer : GstBuffer)
  : M GstFlowReturn :=
  match caps with
  | None => ret GST_FLOW_ERROR
  | Some the_caps =>
      if is_encoded_format caps then
        emit (Extractor_called EncodedRoute) ;;;
        process_encoded_video buffer the_caps
      else
        match gst_video_info_from_caps the_caps with
        | None => ret GST_FLOW_ERROR
        | Some info =>
            let image := Image_default in
            r <- (if HAVE_NVMM_SUPPORT && is_nvmm_memory buffer then
                    emit (Extractor_called DeviceRoute) ;;;
                    process_nvmm_buffer buffer info image
                  else
                    emit (Extractor_called HostRoute) ;;;
                    process_regular_buffer buffer info image) ;;
            if negb (GstFlowReturn_eqb (fst r) GST_FLOW_OK) then ret (fst r)
            else
              p <- get_priv ;;
              if rerun_initialized p && negb (is_null (rec_stream p))
                 && negb (is_null (image_path p))
              then
                emit (RecordingStream_log (c_str (image_path p))
                        (Image_archetype (snd r))) ;;;
                ret GST_FLOW_OK
              else ret GST_FLOW_OK
        end
  end.

(** [gst_rerun_sink_init] *)
Definition gst_rerun_sink_init : GstRerunSinkPrivate :=
  {| rec_stream := None; rerun_initialized := false;
     recording_id := None; image_path := None; video_path := None;
     spawn_viewer := true; output_file := None;
     grpc_address := Some DEFAULT_GRPC_ADDRESS;
     codec_sent := false |}.

(** A property identifier with the value of its type. *)
Inductive Property : Set :=
| PROP_RECORDING_ID (value : option string)
| PROP_IMAGE_PATH (value : option string)
| PROP_VIDEO_PATH (value : option string)
| PROP_SPAWN_VIEWER (value : bool)
| PROP_OUTPUT_FILE (value : option string)
| PROP_GRPC_ADDRESS (value : option string).

(** [gst_rerun_sink_set_property] *)
Definition gst_rerun_sink_set_property (prop : Property) : M unit :=
  modify_priv (fun p =>
    {| rec_stream := rec_stream p;
       rerun_initialized := rerun_initialized p;
       recording_id :=
         match prop with PROP_RECORDING_ID v => v | _ => recording_id p end;
       image_path :=
         match prop with PROP_IMAGE_PATH v => v | _ => image_path p end;
       video_path :=
         match prop with PROP_VIDEO_PATH v => v | _ => video_path p end;
       spawn_viewer :=
         match prop with PROP_SPAWN_VIEWER v => v | _ => spawn_viewer p end;
       output_file :=
         match prop with PROP_OUTPUT_FILE v => v | _ => output_file p end;
       grpc_address :=
         match prop with PROP_GRPC_ADDRESS v => v | _ => grpc_address p end;
       codec_sent := codec_sent p |}).

(** The selection and opening of the output target in
    [gst_rerun_sink_start]; [false] where the source returns FALSE from
    inside a branch. *)
Definition open_target (env : RerunEnv) (p : GstRerunSinkPrivate)
    (has_output_file has_custom_grpc : bool) : M bool :=
  if has_output_file then
    emit (RecordingStream_save (c_str (output_file p))) ;;;
    if save_is_err env (c_str (output_file p)) then
      emit RecordingStream_delete ;;;
      modify_priv (set_rec_stream None) ;;;
      ret false
    else ret true
  else if has_custom_grpc then
    emit (RecordingStream_connect_grpc (c_str (grpc_address p))) ;;;
    if connect_grpc_is_err env (c_str (grpc_address p)) then
      emit RecordingStream_delete ;;;
      modify_priv (set_rec_stream None) ;;;
      ret false
    else ret true
  else if spawn_viewer p then
    emit RecordingStream_spawn ;;;
    if spawn_is_err env then ret false
    else ret true
  else ret true.

(** [gst_rerun_sink_start] *)
Definition gst_rerun_sink_start (env : RerunEnv) : M bool :=
  p <- get_priv ;;
  if negb (rerun_initialized p) then
    let rec_id :=
      match recording_id p with
      | Some id => id
      | None => "gst-rerun"
      end in
    emit (RecordingStream_new rec_id) ;;;
    modify_priv (set_rec_stream (Some {| stream_id := rec_id |})) ;;;
    let has_output_file := negb (is_null (output_file p)) in
    let has_custom_grpc :=
      negb (is_null (grpc_address p))
      && negb (g_strcmp0 (grpc_address p) (Some DEFAULT_GRPC_ADDRESS) =? 0) in
    let options_count :=
      (if has_output_file then 1 else 0) + (if has_custom_grpc then 1 else 0) in
    if options_count >? 1 then
      emit RecordingStream_delete ;;;
      modify_priv (set_rec_stream None) ;;;
      ret false
    else
      opened <- open_target env p has_output_file has_custom_grpc ;;
      if opened then
        (if HAVE_NVMM_SUPPORT then emit cudaFree else ret tt) ;;;
        modify_priv (set_codec_sent false) ;;;
        modify_priv (set_rerun_initialized true) ;;;
        ret true
      else ret false
  else ret true.

(** [gst_rerun_sink_stop] *)
Definition gst_rerun_sink_stop : M bool :=
  p <- get_priv ;;
  if negb (is_null (rec_stream p)) then
    emit RecordingStream_delete ;;;
    modify_priv (set_rec_stream None) ;;;
    modify_priv (set_rerun_initialized false) ;;;
    modify_priv (set_codec_sent false) ;;;
    ret true
  else ret true.

End Element.

(** ** The rest of the element *)

(** The value of a property identifier in the enum of the element
    ([PROP_0] is 0). *)
Definition prop_id (prop : Property) : Z :=
  match prop with
  | PROP_RECORDING_ID _ => 1
  | PROP_IMAGE_PATH _ => 2
  | PROP_SPAWN_VIEWER _ => 3
  | PROP_OUTPUT_FILE _ => 4
  | PROP_GRPC_ADDRESS _ => 5
  | PROP_VIDEO_PATH _ => 6
  end.

(** [gst_rerun_sink_get_property]: the value written to [value], or [None]
    where the default branch leaves [value] alone. *)
Definition gst_rerun_sink_get_property (id : Z) : M (option Property) :=
  p <- get_priv ;;
  ret (if id =? 1 then Some (PROP_RECORDING_ID (recording_id p))
       else if id =? 2 then Some (PROP_IMAGE_PATH (image_path p))
       else if id =? 6 then Some (PROP_VIDEO_PATH (video_path p))
       else if id =? 3 then Some (PROP_SPAWN_VIEWER (spawn_viewer p))
       else if id =? 4 then Some (PROP_OUTPUT_FILE (output_file p))
       else if id =? 5 then Some (PROP_GRPC_ADDRESS (grpc_address p))
       else None).

(** [gst_rerun_sink_dispose]: [g_clear_pointer] frees the string and sets
    the field to NULL.  The call of the parent class is left out. *)
Definition gst_rerun_sink_dispose : M unit :=
  modify_priv (fun p =>
    {| rec_stream := rec_stream p;
       rerun_initialized := rerun_initialized p;
       recording_id := None;
       image_path := None;
       video_path := video_path p;
       spawn_viewer := spawn_viewer p;
       output_file := None;
       grpc_address := None;
       codec_sent := codec_sent p |}).

(** ** The example program (examples/simple_pipeline.cpp) *)

(** The argument parsing at the head of [main]: the exit code of an early
    return, or the mode the program goes on with. *)
Inductive ParsedArgs : Set :=
| Exit (code : Z)
| Run (mode : string).

Definition main_parse_args (argv : list string) : ParsedArgs :=
  match argv with
  | _ :: arg1 :: _ =>
      let mode := arg1 in
      if String.eqb mode "-h" || String.eqb mode "--help" then Exit 0
      else if negb (String.eqb mode "spawn") && negb (String.eqb mode "disk")
              && negb (String.eqb mode "grpc")
      then Exit 1
      else Run mode
  | _ => Run "spawn"
  end.

(** The [g_object_set] calls of [main] on the sink, one
    [gst_rerun_sink_set_property] per property in the order given. *)
Definition main_configure_sink (mode : string) : M unit :=
  if String.eqb mode "spawn" then
    gst_rerun_sink_set_property (PROP_RECORDING_ID (Some "example-pipeline-spawn")) ;;;
    gst_rerun_sink_set_property (PROP_IMAGE_PATH (Some "camera/test_pattern"))
  else if String.eqb mode "disk" then
    gst_rerun_sink_set_property (PROP_RECORDING_ID (Some "example-pipeline-disk")) ;;;
    gst_rerun_sink_set_property (PROP_IMAGE_PATH (Some "camera/test_pattern")) ;;;
    gst_rerun_sink_set_property (PROP_OUTPUT_FILE (Some "example.rrd"))
  else if String.eqb mode "grpc" then
    gst_rerun_sink_set_property (PROP_RECORDING_ID (Some "example-pipeline-grpc")) ;;;
    gst_rerun_sink_set_property (PROP_IMAGE_PATH (Some "camera/test_pattern")) ;;;
    gst_rerun_sink_set_property (PROP_GRPC_ADDRESS (Some "127.0.0.1:9090"))
  else ret tt.

(** ** Vocabulary of the properties *)

(** Size in bytes of a tightly packed image, as the specification gives it
    for the supported raw formats. *)
Definition expected_size (format : GstVideoFormat) (width height : Z) : Z :=
  match format with
  | GST_VIDEO_FORMAT_RGB => width * height * 3
  | GST_VIDEO_FORMAT_RGBA => width * height * 4
  | GST_VIDEO_FORMAT_GRAY8 => width * height
  | GST_VIDEO_FORMAT_NV12 | GST_VIDEO_FORMAT_I420 => width * height * 3 / 2
  | GST_VIDEO_FORMAT_other _ => 0
  end.

Definition supported_format (format : GstVideoFormat) : bool :=
  match format with
  | GST_VIDEO_FORMAT_other _ => false
  | _ => true
  end.

(** Counting the events of a kind in a trace. *)
Definition count (kind : Event -> bool) (trace : list Event) : nat :=
  List.length (filter kind trace).

Definition is_codec_descriptor (e : Event) : bool :=
  match e with
  | RecordingStream_log_static _ (VideoStream_with_codec _) => true
  | _ => false
  end.

Definition is_unassigned_codec_read (e : Event) : bool :=
  match e with
  | RecordingStream_log_static _ (VideoStream_with_codec None) => true
  | _ => false
  end.

Definition is_sample (e : Event) : bool :=
  match e with
  | RecordingStream_log _ (VideoStream_with_sample _) => true
  | _ => false
  end.

Definition is_image_write (e : Event) : bool :=
  match e with
  | RecordingStream_log _ (Image_archetype _) => true
  | _ => false
  end.

Definition is_target_open (e : Event) : bool :=
  match e with
  | RecordingStream_save _ | RecordingStream_connect_grpc _
  | RecordingStream_spawn => true
  | _ => false
  end.

Definition is_delete (e : Event) : bool :=
  match e with
  | RecordingStream_delete => true
  | _ => false
  end.

(** The extractors called, in order. *)
Fixpoint extractor_calls (trace : list Event) : list Route :=
  match trace with
  | [] => []
  | Extractor_called r :: rest => r :: extractor_calls rest
  | _ :: rest => extractor_calls rest
  end.

(** The session guard of [process_encoded_video], and whether a call gets
    past the dimension checks to the codec-descriptor emission. *)
Definition encoded_guard (p : GstRerunSinkPrivate) : bool :=
  negb (rerun_initialized p) || is_null (rec_stream p) || is_null (video_path p).

Definition caps_width (caps : GstCaps) : Z :=
  gst_structure_get_int (gst_caps_get_structure caps 0) "width" 0.

Definition caps_height (caps : GstCaps) : Z :=
  gst_structure_get_int (gst_caps_get_structure caps 0) "height" 0.

Definition reaches_emission (p : GstRerunSinkPrivate) (caps : GstCaps) : bool :=
  negb (encoded_guard p) && negb (caps_width caps =? 0)
  && negb (caps_height caps =? 0).

Definition mappable (buffer : GstBuffer) : bool := negb (is_null (buffer_map buffer)).

(** Two private structures with the same session guard inputs. *)
Definition same_session (p q : GstRerunSinkPrivate) : Prop :=
  rerun_initialized p = rerun_initialized q
  /\ rec_stream p = rec_stream q
  /\ video_path p = video_path q.

(** The encoded route over the buffers of one session, in arrival order. *)
Fixpoint encoded_session (frames : list (GstBuffer * GstCaps))
  : M (list GstFlowReturn) :=
  match frames with
  | [] => ret []
  | (buffer, caps) :: rest =>
      r <- process_encoded_video buffer caps ;;
      rs <- encoded_session rest ;;
      ret (r :: rs)
  end.

(** The call sequences [process_nvmm_buffer] can make: nothing when the
    buffer does not map; the buffer mapped and released; the surface mapped
    and released inside; the same with the surface synchronised. *)
Definition nvmm_traces : list (list Event) :=
  [ [];
    [gst_buffer_map_ok; gst_buffer_unmap];
    [gst_buffer_map_ok; NvBufSurfaceMap_ok; NvBufSurfaceUnMap; gst_buffer_unmap];
    [gst_buffer_map_ok; NvBufSurfaceMap_ok; NvBufSurfaceSyncForCpu_ok;
     NvBufSurfaceUnMap; gst_buffer_unmap] ].

(** Scoped mappings: the mappings held after a trace, starting from the
    mappings [held] (most recent first); [None] when a mapping is released
    that is not the most recent one held. *)
Inductive Mapping : Set := BufferMapping | SurfaceMapping.

Fixpoint held_after (held : list Mapping) (trace : list Event)
  : option (list Mapping) :=
  match trace with
  | [] => Some held
  | gst_buffer_map_ok :: rest => held_after (BufferMapping :: held) rest
  | NvBufSurfaceMap_ok :: rest => held_after (SurfaceMapping :: held) rest
  | NvBufSurfaceUnMap :: rest =>
      match held with
      | SurfaceMapping :: held' => held_after held' rest
      | _ => None
      end
  | gst_buffer_unmap :: rest =>
      match held with
      | BufferMapping :: held' => held_after held' rest
      | _ => None
      end
  | _ :: rest => held_after held rest
  end.

(** A pitched plane: rows of pixel bytes, each followed by its padding. *)
Definition PlaneRows : Set := list (list byte * list byte).

Definition padded_plane (rows : PlaneRows) : list byte :=
  flat_map (fun rp => fst rp ++ snd rp) rows.

Definition logical_plane (rows : PlaneRows) : list byte :=
  flat_map fst rows.

(** [nrows] rows of [width] bytes, each padded to [pitch] bytes. *)
Definition plane_layout (width pitch nrows : Z) (rows : PlaneRows) : bool :=
  (Z.of_nat (List.length rows) =? nrows)
  && forallb (fun rp => (Z.of_nat (List.length (fst rp)) =? width)
                        && (Z.of_nat (List.length (snd rp)) =? pitch - width)) rows.

Definition gint_range (x : Z) : bool := (0 <=? x) && (x <? 2 ^ 31).

(** The surface with the given dimensions, pitches and plane bytes, which
    maps and synchronises without error, and the video info of an NV12
    frame. *)
Definition surface_of (width height y_pitch uv_pitch : Z)
    (y_plane uv_plane : list byte) : NvBufSurface :=
  {| NvBufSurfaceMap_code := 0;
     NvBufSurfaceSyncForCpu_code := 0;
     surface_width := width;
     surface_height := height;
     planeParams_pitch0 := y_pitch;
     planeParams_pitch1 := uv_pitch;
     planeParams_psize0 := Z.of_nat (List.length y_plane);
     planeParams_psize1 := Z.of_nat (List.length uv_plane);
     mappedAddr_addr0 := Some y_plane;
     mappedAddr_addr1 := Some uv_plane |}.

Definition nv12_info (width height : Z) : GstVideoInfo :=
  {| finfo_format := GST_VIDEO_FORMAT_NV12;
     GST_VIDEO_INFO_WIDTH := width;
     GST_VIDEO_INFO_HEIGHT := height |}.

(** How GstBaseSink drives the element: [start] on a stopped element only,
    [stop] and [render] on a started one only, properties at any time. *)
Inductive Op : Set :=
| Op_set_property (prop : Property)
| Op_start (env : RerunEnv)
| Op_stop
| Op_render (caps : option GstCaps) (buffer : GstBuffer).

Section Lifecycle.

Variable HAVE_NVMM_SUPPORT : bool.
Variable gst_video_info_from_caps : GstCaps -> option GstVideoInfo.

Fixpoint run_ops (started : bool) (ops : list Op) (s : Sink)
  : option (bool * Sink) :=
  match ops with
  | [] => Some (started, s)
  | Op_set_property prop :: rest =>
      run_ops started rest (snd (gst_rerun_sink_set_property prop s))
  | Op_start env :: rest =>
      if started then None
      else
        let r := gst_rerun_sink_start HAVE_NVMM_SUPPORT env s in
        run_ops (fst r) rest (snd r)
  | Op_stop :: rest =>
      if started then run_ops false rest (snd (gst_rerun_sink_stop s))
      else None
  | Op_render caps buffer :: rest =>
      if started then
        run_ops true rest
          (snd (gst_rerun_sink_render HAVE_NVMM_SUPPORT
                  gst_video_info_from_caps caps buffer s))
      else None
  end.

End Lifecycle.

(** What holds of the private structure between two calls of GstBaseSink:
    a started element is active with a stream, a stopped one is inactive. *)
Definition session_inv (started : bool) (s : Sink) : Prop :=
  if started
  then rerun_initialized (priv s) = true /\ rec_stream (priv s) <> None
  else rerun_initialized (priv s) = false.

(** ** Vocabulary of the further properties *)

Definition is_new (e : Event) : bool :=
  match e with
  | RecordingStream_new _ => true
  | _ => false
  end.

Definition is_spawn (e : Event) : bool :=
  match e with
  | RecordingStream_spawn => true
  | _ => false
  end.

(** Whether the configuration names a disk target, and a network target. *)
Definition has_output_file (p : GstRerunSinkPrivate) : bool :=
  negb (is_null (output_file p)).

Definition has_custom_grpc (p : GstRerunSinkPrivate) : bool :=
  negb (is_null (grpc_address p))
  && negb (g_strcmp0 (grpc_address p) (Some DEFAULT_GRPC_ADDRESS) =? 0).

(** The recording id a start gives to the stream. *)
Definition rec_id_of (p : GstRerunSinkPrivate) : string :=
  match recording_id p with
  | Some id => id
  | None => "gst-rerun"
  end.

(** Two private structures with the same properties. *)
Definition same_config (p q : GstRerunSinkPrivate) : Prop :=
  recording_id p = recording_id q
  /\ image_path p = image_path q
  /\ video_path p = video_path q
  /\ spawn_viewer p = spawn_viewer q
  /\ output_file p = output_file q
  /\ grpc_address p = grpc_address q.

(** The images written, the samples written and the timestamps set, in
    order. *)
Fixpoint image_writes (trace : list Event) : list (string * Image) :=
  match trace with
  | [] => []
  | RecordingStream_log path (Image_archetype image) :: rest =>
      (path, image) :: image_writes rest
  | _ :: rest => image_writes rest
  end.

Fixpoint sample_writes (trace : list Event) : list (string * list byte) :=
  match trace with
  | [] => []
  | RecordingStream_log path (VideoStream_with_sample sample) :: rest =>
      (path, sample) :: sample_writes rest
  | _ :: rest => sample_writes rest
  end.

Fixpoint timestamps (trace : list Event) : list Z :=
  match trace with
  | [] => []
  | RecordingStream_set_time_timestamp _ nanos :: rest => nanos :: timestamps rest
  | _ :: rest => timestamps rest
  end.

(** The calls of a trace without the ghost markers, and the timestamps
    set together with their timelines. *)
Definition is_marker (e : Event) : bool :=
  match e with
  | Extractor_called _ => true
  | _ => false
  end.

Definition real_calls (trace : list Event) : list Event :=
  filter (fun e => negb (is_marker e)) trace.

Fixpoint time_settings (trace : list Event) : list (string * Z) :=
  match trace with
  | [] => []
  | RecordingStream_set_time_timestamp timeline nanos :: rest =>
      (timeline, nanos) :: time_settings rest
  | _ :: rest => time_settings rest
  end.

(** The bytes a buffer maps to (none when it does not map). *)
Definition buffer_data (buffer : GstBuffer) : list byte :=
  match buffer_map buffer with
  | Some map => map_data map
  | None => []
  end.

(** Whether [rows] rows of [width] bytes at a pitch of [pitch] bytes lie
    inside a plane of [size] bytes. *)
Definition rows_in_plane (rows pitch width size : nat) : bool :=
  ((rows =? 0) || ((rows - 1) * pitch + width <=? size))%nat.

(** Whether the device route gets as far as copying the planes: the buffer
    maps to a surface that maps and synchronises with both plane pointers
    set. *)
Definition nvmm_ready (buffer : GstBuffer) : bool :=
  match buffer_map buffer with
  | Some map =>
      match map_surface map with
      | Some surface =>
          (NvBufSurfaceMap_code surface =? 0)
          && (NvBufSurfaceSyncForCpu_code surface =? 0)
          && negb (is_null (mappedAddr_addr0 surface))
          && negb (is_null (mappedAddr_addr1 surface))
      | None => false
      end
  | None => false
  end.

(** The session test of the render function before it writes an image. *)
Definition image_guard (p : GstRerunSinkPrivate) : bool :=
  rerun_initialized p && negb (is_null (rec_stream p))
  && negb (is_null (image_path p)).

(** Decode timestamps that fit the signed 64-bit count of nanoseconds. *)
Definition dts_in_range (buffer : GstBuffer) : bool :=
  (0 <=? GST_BUFFER_DTS buffer) && (GST_BUFFER_DTS buffer <? 2 ^ 63).

(** The session has a stream exactly when it is active, and every stream
    created is either deleted or the one held. *)
Definition stream_balance (s : Sink) : Prop :=
  is_null (rec_stream (priv s)) = negb (rerun_initialized (priv s))
  /\ count is_new (calls s)
     = (count is_delete (calls s)
        + (if rerun_initialized (priv s) then 1 else 0))%nat.

Fixpoint spawn_never_fails (ops : list Op) : bool :=
  match ops with
  | [] => true
  | Op_start env :: rest => negb (spawn_is_err env) && spawn_never_fails rest
  | _ :: rest => spawn_never_fails rest
  end.

Section RenderSession.

Variable HAVE_NVMM_SUPPORT : bool.
Variable gst_video_info_from_caps : GstCaps -> option GstVideoInfo.

(** The render function over the buffers of a stream with fixed caps. *)
Fixpoint render_session (caps : option GstCaps) (buffers : list GstBuffer)
  : M (list GstFlowReturn) :=
  match buffers with
  | [] => ret []
  | buffer :: rest =>
      r <- gst_rerun_sink_render HAVE_NVMM_SUPPORT gst_video_info_from_caps
             caps buffer ;;
      rs <- render_session caps rest ;;
      ret (r :: rs)
  end.

End RenderSession.

(** ** Sample inputs *)

Definition sink_of (p : GstRerunSinkPrivate) : Sink := {| priv := p; calls := [] |}.

(** An active session with the given video path. *)
Definition active_priv (vpath : option string) : GstRerunSinkPrivate :=
  {| rec_stream := Some {| stream_id := "gst-rerun" |};
     rerun_initialized := true;
     recording_id := None; image_path := Some "camera/image";
     video_path := vpath;
     spawn_viewer := true; output_file := None;
     grpc_address := Some DEFAULT_GRPC_ADDRESS;
     codec_sent := false |}.

Definition encoded_caps (name : string) (dims : list (string * GValue)) : GstCaps :=
  [ {| structure_name := name;
       structure_fields := ("stream-format", G_TYPE_STRING "byte-stream") :: dims |} ].

Definition dims_640x480 : list (string * GValue) :=
  [ ("width", G_TYPE_INT 640); ("height", G_TYPE_INT 480) ].

Definition sysmem : option GstMemory :=
  Some {| memory_allocator := Some {| allocator_name := Some "allocatorsysmem0" |} |}.

Definition host_buffer (bytes : list byte) : GstBuffer :=
  {| buffer_memory0 := sysmem;
     buffer_map := Some {| map_data := bytes; map_surface := None |};
     GST_BUFFER_DTS := 0 |}.

Definition unmappable_buffer : GstBuffer :=
  {| buffer_memory0 := sysmem; buffer_map := None; GST_BUFFER_DTS := 0 |}.

(** The element after construction and [video-path=camera/video]. *)
Definition configured_sink : Sink :=
  snd (gst_rerun_sink_set_property (PROP_VIDEO_PATH (Some "camera/video"))
         (sink_of gst_rerun_sink_init)).

Definition env_ok : RerunEnv :=
  {| save_is_err := fun _ => false;
     connect_grpc_is_err := fun _ => false;
     spawn_is_err := false |}.

Definition h264_frame (bytes : list byte) : GstBuffer * GstCaps :=
  (host_buffer bytes, encoded_caps "video/x-h264" dims_640x480).

(** Raw caps, and a parser for them standing for
    [gst_video_info_from_caps]: the format name, width and height of the
    first structure. *)
Definition raw_caps (format : string) (width height : Z) : GstCaps :=
  [ {| structure_name := "video/x-raw";
       structure_fields := [ ("format", G_TYPE_STRING format);
                             ("width", G_TYPE_INT width);
                             ("height", G_TYPE_INT height) ] |} ].

Definition format_of_name (name : string) : GstVideoFormat :=
  if String.eqb name "RGB" then GST_VIDEO_FORMAT_RGB
  else if String.eqb name "RGBA" then GST_VIDEO_FORMAT_RGBA
  else if String.eqb name "GRAY8" then GST_VIDEO_FORMAT_GRAY8
  else if String.eqb name "NV12" then GST_VIDEO_FORMAT_NV12
  else if String.eqb name "I420" then GST_VIDEO_FORMAT_I420
  else GST_VIDEO_FORMAT_other 4.

Definition sample_video_info_from_caps (caps : GstCaps) : option GstVideoInfo :=
  match caps with
  | structure :: _ =>
      if String.eqb (structure_name structure) "video/x-raw" then
        match structure_lookup (structure_fields structure) "format" with
        | Some (G_TYPE_STRING name) =>
            Some {| finfo_format := format_of_name name;
                    GST_VIDEO_INFO_WIDTH := caps_width caps;
                    GST_VIDEO_INFO_HEIGHT := caps_height caps |}
        | _ => None
        end
      else None
  | [] => None
  end.

Definition nvmm_memory : option GstMemory :=
  Some {| memory_allocator := Some {| allocator_name := Some "nvdsmemoryallocator0" |} |}.

(** A 2x2 NV12 surface with a pitch of 4 bytes on both planes. *)
Definition luma_2x2 : PlaneRows :=
  [ (["011"%byte; "012"%byte], ["000"%byte; "000"%byte]);
    (["021"%byte; "022"%byte], ["000"%byte; "000"%byte]) ].

Definition chroma_2x2 : PlaneRows :=
  [ (["081"%byte; "082"%byte], ["255"%byte; "255"%byte]) ].

Definition device_buffer (surface : NvBufSurface) : GstBuffer :=
  {| buffer_memory0 := nvmm_memory;
     buffer_map := Some {| map_data := []; map_surface := Some surface |};
     GST_BUFFER_DTS := 0 |}.

Definition surface_2x2 : NvBufSurface :=
  surface_of 2 2 4 4 (padded_plane luma_2x2) (padded_plane chroma_2x2).

Definition yuy2_info : GstVideoInfo :=
  {| finfo_format := GST_VIDEO_FORMAT_other 4;
     GST_VIDEO_INFO_WIDTH := 640;
     GST_VIDEO_INFO_HEIGHT := 480 |}.

(** An RGB frame of 1x2 pixels as GStreamer lays it out: each 3-byte row
    is followed by one padding byte, the stride being rounded up to 4. *)
Definition rgb_1x2_stride4 : list byte :=
  ["010"%byte; "020"%byte; "030"%byte; "000"%byte;
   "040"%byte; "050"%byte; "060"%byte; "000"%byte].

Definition rgb_1x2_info : GstVideoInfo :=
  {| finfo_format := GST_VIDEO_FORMAT_RGB;
     GST_VIDEO_INFO_WIDTH := 1;
     GST_VIDEO_INFO_HEIGHT := 2 |}.

(** The element configured with both [output-file] and a custom
    [grpc-address]. *)
Definition conflicting_sink : Sink :=
  snd (gst_rerun_sink_set_property (PROP_GRPC_ADDRESS (Some "10.0.0.7:9876"))
         (snd (gst_rerun_sink_set_property (PROP_OUTPUT_FILE (Some "out.rrd"))
                 (sink_of gst_rerun_sink_init)))).

Definition env_spawn_fails : RerunEnv :=
  {| save_is_err := fun _ => false;
     connect_grpc_is_err := fun _ => false;
     spawn_is_err := true |}.

(** A 2x1 NV12 surface: one luma row, and no chroma row since 1 / 2 = 0. *)
Definition luma_2x1 : PlaneRows :=
  [ (["011"%byte; "012"%byte], ["000"%byte; "000"%byte]) ].

Definition surface_2x1 : NvBufSurface :=
  surface_of 2 1 4 4 (padded_plane luma_2x1) [].

(** Surfaces on which a step of the device route fails. *)
Definition surface_failing (map_code sync_code : Z)
    (y_plane uv_plane : option (list byte)) : NvBufSurface :=
  {| NvBufSurfaceMap_code := map_code;
     NvBufSurfaceSyncForCpu_code := sync_code;
     surface_width := 2;
     surface_height := 2;
     planeParams_pitch0 := 4;
     planeParams_pitch1 := 4;
     planeParams_psize0 := 8;
     planeParams_psize1 := 4;
     mappedAddr_addr0 := y_plane;
     mappedAddr_addr1 := uv_plane |}.

(** An H.264 frame with the given decode timestamp. *)
Definition h264_frame_at (dts : Z) (bytes : list byte) : GstBuffer * GstCaps :=
  ({| buffer_memory0 := sysmem;
      buffer_map := Some {| map_data := bytes; map_surface := None |};
      GST_BUFFER_DTS := dts |},
   encoded_caps "video/x-h264" dims_640x480).

Definition h264_frame_unmappable : GstBuffer * GstCaps :=
  (unmappable_buffer, encoded_caps "video/x-h264" dims_640x480).

(** ** Proof support *)

Ltac run_m :=
  cbv beta iota zeta delta [bind ret emit modify_priv get_priv].

Ltac split_paths :=
  repeat match goal with
    | |- context [if ?c then _ else _] => destruct c eqn:?
    | |- context [match ?o with Some _ => _ | None => _ end] => destruct o eqn:?
    end.

Ltac unfold_encoded :=
  unfold process_encoded_video, reaches_emission, encoded_guard, caps_width,
    caps_height, mappable;
  run_m.

Ltac unfold_start :=
  unfold gst_rerun_sink_start, open_target; run_m.

Lemma count_app (kind : Event -> bool) (t1 t2 : list Event) :
  count kind (t1 ++ t2) = (count kind t1 + count kind t2)%nat.
Proof.
  unfold count. rewrite filter_app, List.length_app. reflexivity.
Qed.

Ltac count_events :=
  rewrite ?count_app; unfold count; simpl.

Lemma extractor_calls_app (t1 t2 : list Event) :
  extractor_calls (t1 ++ t2) = extractor_calls t1 ++ extractor_calls t2.
Proof.
  induction t1 as [|e t1 IH]; simpl; [reflexivity|].
  destruct e; simpl; rewrite ?IH; reflexivity.
Qed.

Lemma string_compare_refl (a : string) : String.compare a a = Eq.
Proof.
  pose proof (String.compare_antisym a a) as H.
  destruct (String.compare a a); simpl in H; congruence.
Qed.

Lemma g_strcmp0_eq (a b : string) :
  (g_strcmp0 (Some a) (Some b) =? 0) = true <-> a = b.
Proof.
  unfold g_strcmp0.
  destruct (String.compare a b) eqn:E; simpl.
  - apply String.compare_eq_iff in E. split; auto.
  - split; [discriminate|]. intros ->.
    rewrite string_compare_refl in E. discriminate.
  - split; [discriminate|]. intros ->.
    rewrite string_compare_refl in E. discriminate.
Qed.

Lemma bind_run {A B : Type} (m : M A) (k : A -> M B) (s : Sink) :
  bind m k s = k (fst (m s)) (snd (m s)).
Proof.
  unfold bind. destruct (m s). reflexivity.
Qed.

(** ** The encoded route *)

(** C1 (as amended).  The guard on the session and the video path comes
    before any validation: with no video path configured (or the session not
    initialised, or no recording stream) [process_encoded_video] returns
    GST_FLOW_OK whatever the caps hold, calls nothing and changes nothing; the
    width and height checks run only behind the guard, where a missing or
    zero dimension gives GST_FLOW_ERROR with nothing forwarded. *)
Theorem encoded_guard_precedes_validation (buffer : GstBuffer) (caps : GstCaps)
    (s : Sink) :
  (video_path (priv s) = None ->
   process_encoded_video buffer caps s = (GST_FLOW_OK, s))
  /\ (encoded_guard (priv s) = true ->
      process_encoded_video buffer caps s = (GST_FLOW_OK, s))
  /\ (encoded_guard (priv s) = false ->
      caps_width caps = 0 \/ caps_height caps = 0 ->
      process_encoded_video buffer caps s = (GST_FLOW_ERROR, s)).
Proof.
  assert (Hguard : encoded_guard (priv s) = true ->
                   process_encoded_video buffer caps s = (GST_FLOW_OK, s)).
  { intros Hg. unfold process_encoded_video. run_m.
    unfold encoded_guard in Hg. rewrite Hg. reflexivity. }
  split; [|split].
  - intros Hpath. apply Hguard. unfold encoded_guard.
    rewrite Hpath. simpl. apply orb_true_r.
  - exact Hguard.
  - intros Hg Hdim. unfold process_encoded_video. run_m.
    unfold encoded_guard in Hg. rewrite Hg.
    unfold caps_width, caps_height in Hdim.
    destruct Hdim as [Hw|Hh].
    + rewrite Hw. reflexivity.
    + rewrite Hh. simpl.
      destruct (_ =? 0); reflexivity.
Qed.

Lemma encoded_guard_precedes_validation_witness :
  process_encoded_video unmappable_buffer (encoded_caps "video/x-h264" [])
    (sink_of (active_priv None))
  = (GST_FLOW_OK, sink_of (active_priv None))
  /\ process_encoded_video unmappable_buffer (encoded_caps "video/x-h264" [])
       (sink_of (active_priv (Some "camera/video")))
     = (GST_FLOW_ERROR, sink_of (active_priv (Some "camera/video"))).
Proof.
  split.
  - apply (proj1 (encoded_guard_precedes_validation unmappable_buffer
                    (encoded_caps "video/x-h264" []) (sink_of (active_priv None)))).
    reflexivity.
  - apply (proj2 (proj2 (encoded_guard_precedes_validation unmappable_buffer
                           (encoded_caps "video/x-h264" [])
                           (sink_of (active_priv (Some "camera/video")))))).
    + reflexivity.
    + left. reflexivity.
Defined.

(** C1, as the specification words it, fails: for the same H.264 caps
    without dimensions the call fails validation when the video path is set
    and returns GST_FLOW_OK, without validating, when it is not. *)
Lemma encoded_validation_depends_on_path :
  is_encoded_format (Some (encoded_caps "video/x-h264" [])) = true
  /\ caps_width (encoded_caps "video/x-h264" []) = 0
  /\ fst (process_encoded_video (host_buffer []) (encoded_caps "video/x-h264" [])
            (sink_of (active_priv (Some "camera/video")))) = GST_FLOW_ERROR
  /\ fst (process_encoded_video (host_buffer []) (encoded_caps "video/x-h264" [])
            (sink_of (active_priv None))) = GST_FLOW_OK.
Proof.
  repeat split; reflexivity.
Qed.

(** What one encoded-route call does to the session: the configuration is
    left alone and [codec_sent] is raised exactly by a call that reaches the
    emission point. *)
Lemma process_encoded_video_priv (buffer : GstBuffer) (caps : GstCaps) (s : Sink) :
  let s' := snd (process_encoded_video buffer caps s) in
  rerun_initialized (priv s') = rerun_initialized (priv s)
  /\ rec_stream (priv s') = rec_stream (priv s)
  /\ video_path (priv s') = video_path (priv s)
  /\ codec_sent (priv s') = codec_sent (priv s) || reaches_emission (priv s) caps.
Proof.
  unfold_encoded. split_paths; simpl;
    repeat split; try reflexivity;
    destruct (codec_sent (priv s)); simpl in *; congruence.
Qed.

Lemma process_encoded_video_codec_count (buffer : GstBuffer) (caps : GstCaps)
    (s : Sink) :
  count is_codec_descriptor (calls (snd (process_encoded_video buffer caps s)))
  = (count is_codec_descriptor (calls s)
     + (if reaches_emission (priv s) caps && negb (codec_sent (priv s))
        then 1 else 0))%nat.
Proof.
  unfold_encoded. split_paths; simpl in *; count_events;
    try lia; try discriminate.
Qed.

Lemma process_encoded_video_sample_count (buffer : GstBuffer) (caps : GstCaps)
    (s : Sink) :
  count is_sample (calls (snd (process_encoded_video buffer caps s)))
  = (count is_sample (calls s)
     + (if reaches_emission (priv s) caps && mappable buffer then 1 else 0))%nat.
Proof.
  unfold_encoded. split_paths; simpl in *; count_events;
    try lia; try discriminate.
Qed.

Lemma reaches_emission_ext (p q : GstRerunSinkPrivate) (caps : GstCaps) :
  rerun_initialized p = rerun_initialized q ->
  rec_stream p = rec_stream q ->
  video_path p = video_path q ->
  reaches_emission p caps = reaches_emission q caps.
Proof.
  intros H1 H2 H3. unfold reaches_emission, encoded_guard.
  rewrite H1, H2, H3. reflexivity.
Qed.

Lemma encoded_session_cons (buffer : GstBuffer) (caps : GstCaps)
    (rest : list (GstBuffer * GstCaps)) (s : Sink) :
  snd (encoded_session ((buffer, caps) :: rest) s)
  = snd (encoded_session rest (snd (process_encoded_video buffer caps s))).
Proof.
  simpl. rewrite bind_run, bind_run. reflexivity.
Qed.

Lemma encoded_session_app (pre post : list (GstBuffer * GstCaps)) (s : Sink) :
  snd (encoded_session (pre ++ post) s)
  = snd (encoded_session post (snd (encoded_session pre s))).
Proof.
  revert s. induction pre as [|[buffer caps] pre IH]; intros s.
  - reflexivity.
  - rewrite <- app_comm_cons, !encoded_session_cons. apply IH.
Qed.

Lemma encoded_session_codec_count (frames : list (GstBuffer * GstCaps)) :
  forall (s : Sink) (p0 : GstRerunSinkPrivate),
    same_session (priv s) p0 ->
    count is_codec_descriptor (calls (snd (encoded_session frames s)))
    = (count is_codec_descriptor (calls s)
       + (if negb (codec_sent (priv s))
             && existsb (fun f => reaches_emission p0 (snd f)) frames
          then 1 else 0))%nat.
Proof.
  induction frames as [|[buffer caps] rest IH]; intros s p0 (Hi & Hr & Hv).
  - simpl. rewrite andb_false_r. lia.
  - rewrite encoded_session_cons.
    destruct (process_encoded_video_priv buffer caps s) as (Ei & Er & Ev & Ec).
    rewrite (IH _ p0) by (unfold same_session; rewrite Ei, Er, Ev; auto).
    rewrite process_encoded_video_codec_count, Ec.
    rewrite (reaches_emission_ext (priv s) p0 caps Hi Hr Hv). simpl.
    destruct (codec_sent (priv s)), (reaches_emission p0 caps); simpl;
      lia.
Qed.

Lemma encoded_session_sample_count (frames : list (GstBuffer * GstCaps)) :
  forall (s : Sink) (p0 : GstRerunSinkPrivate),
    same_session (priv s) p0 ->
    count is_sample (calls (snd (encoded_session frames s)))
    = (count is_sample (calls s)
       + List.length (filter (fun f => reaches_emission p0 (snd f) && mappable (fst f))
                        frames))%nat.
Proof.
  induction frames as [|[buffer caps] rest IH]; intros s p0 (Hi & Hr & Hv).
  - simpl. lia.
  - rewrite encoded_session_cons.
    destruct (process_encoded_video_priv buffer caps s) as (Ei & Er & Ev & Ec).
    rewrite (IH _ p0) by (unfold same_session; rewrite Ei, Er, Ev; auto).
    rewrite process_encoded_video_sample_count.
    rewrite (reaches_emission_ext (priv s) p0 caps Hi Hr Hv). simpl.
    destruct (reaches_emission p0 caps && mappable buffer); simpl; lia.
Qed.

Lemma encoded_session_codec_sent (frames : list (GstBuffer * GstCaps)) :
  forall (s : Sink) (p0 : GstRerunSinkPrivate),
    same_session (priv s) p0 ->
    same_session (priv (snd (encoded_session frames s))) p0
    /\ codec_sent (priv (snd (encoded_session frames s)))
       = codec_sent (priv s)
         || existsb (fun f => reaches_emission p0 (snd f)) frames.
Proof.
  induction frames as [|[buffer caps] rest IH]; intros s p0 (Hi & Hr & Hv).
  - simpl. rewrite orb_false_r. unfold same_session. auto.
  - rewrite encoded_session_cons.
    destruct (process_encoded_video_priv buffer caps s) as (Ei & Er & Ev & Ec).
    destruct (IH (snd (process_encoded_video buffer caps s)) p0) as (Hs & Hc).
    { unfold same_session. rewrite Ei, Er, Ev. auto. }
    split; [exact Hs|].
    rewrite Hc, Ec. simpl.
    rewrite (reaches_emission_ext (priv s) p0 caps Hi Hr Hv).
    rewrite orb_assoc. reflexivity.
Qed.

(** ** Session start and stop *)

(** A start that succeeds from a session that is not active makes it active
    with the codec flag down and a recording stream in place. *)
Lemma start_transition (HAVE_NVMM_SUPPORT : bool) (env : RerunEnv) (s : Sink) :
  rerun_initialized (priv s) = false ->
  fst (gst_rerun_sink_start HAVE_NVMM_SUPPORT env s) = true ->
  let s' := snd (gst_rerun_sink_start HAVE_NVMM_SUPPORT env s) in
  rerun_initialized (priv s') = true
  /\ codec_sent (priv s') = false
  /\ rec_stream (priv s') <> None
  /\ video_path (priv s') = video_path (priv s).
Proof.
  intros Hinit. unfold_start. rewrite Hinit. simpl.
  split_paths; simpl; intros; try discriminate;
    repeat split; try reflexivity; discriminate.
Qed.

(** A start that fails leaves the session inactive. *)
Lemma start_failure_inactive (HAVE_NVMM_SUPPORT : bool) (env : RerunEnv) (s : Sink) :
  rerun_initialized (priv s) = false ->
  fst (gst_rerun_sink_start HAVE_NVMM_SUPPORT env s) = false ->
  rerun_initialized (priv (snd (gst_rerun_sink_start HAVE_NVMM_SUPPORT env s))) = false.
Proof.
  intros Hinit. unfold_start. rewrite Hinit. simpl.
  split_paths; simpl; intros; try discriminate; assumption.
Qed.

Lemma stop_resets (s : Sink) :
  rec_stream (priv s) <> None ->
  let s' := snd (gst_rerun_sink_stop s) in
  rerun_initialized (priv s') = false
  /\ codec_sent (priv s') = false
  /\ rec_stream (priv s') = None.
Proof.
  intros Hrec. unfold gst_rerun_sink_stop. run_m.
  destruct (rec_stream (priv s)); [|contradiction].
  simpl. auto.
Qed.

Lemma process_encoded_video_flow (buffer : GstBuffer) (caps : GstCaps)
    (s : Sink) :
  fst (process_encoded_video buffer caps s)
  = if encoded_guard (priv s) then GST_FLOW_OK
    else if reaches_emission (priv s) caps
         then if mappable buffer then GST_FLOW_OK else GST_FLOW_ERROR
         else GST_FLOW_ERROR.
Proof.
  unfold_encoded.
  destruct (negb (rerun_initialized (priv s)) || is_null (rec_stream (priv s))
            || is_null (video_path (priv s))); [reflexivity|].
  cbn [negb andb].
  destruct (_ =? 0); [reflexivity|].
  destruct (_ =? 0); [reflexivity|].
  cbn [negb andb].
  destruct (negb (codec_sent (priv s))); destruct (buffer_map buffer);
    reflexivity.
Qed.

(** C5 (as amended).  In a session, which begins when a start makes the
    element active, the codec flag is down at the transition, the codec
    descriptor is emitted exactly once, by the first encoded-route call that
    reaches the emission point, and each call that reaches it emits one
    sample and returns GST_FLOW_OK when its buffer maps, and emits no sample
    and returns GST_FLOW_ERROR when the mapping fails. *)
Theorem codec_announced_once_per_session (HAVE_NVMM_SUPPORT : bool)
    (env : RerunEnv) (s0 : Sink) :
  rerun_initialized (priv s0) = false ->
  fst (gst_rerun_sink_start HAVE_NVMM_SUPPORT env s0) = true ->
  let s1 := snd (gst_rerun_sink_start HAVE_NVMM_SUPPORT env s0) in
  let reach := fun f : GstBuffer * GstCaps => reaches_emission (priv s1) (snd f) in
  rerun_initialized (priv s1) = true
  /\ codec_sent (priv s1) = false
  /\ (forall frames,
        count is_codec_descriptor (calls (snd (encoded_session frames s1)))
        = (count is_codec_descriptor (calls s1)
           + (if existsb reach frames then 1 else 0))%nat
        /\ count is_sample (calls (snd (encoded_session frames s1)))
           = (count is_sample (calls s1)
              + List.length (filter (fun f => reach f && mappable (fst f)) frames))%nat)
  /\ (forall pre f,
        existsb reach pre = false ->
        reach f = true ->
        let before := snd (encoded_session pre s1) in
        count is_codec_descriptor (calls before)
        = count is_codec_descriptor (calls s1)
        /\ count is_codec_descriptor
             (calls (snd (process_encoded_video (fst f) (snd f) before)))
           = (count is_codec_descriptor (calls s1) + 1)%nat)
  /\ (forall pre f,
        reach f = true ->
        let before := snd (encoded_session pre s1) in
        let r := process_encoded_video (fst f) (snd f) before in
        fst r = (if mappable (fst f) then GST_FLOW_OK else GST_FLOW_ERROR)
        /\ count is_sample (calls (snd r))
           = (count is_sample (calls before)
              + (if mappable (fst f) then 1 else 0))%nat).
Proof.
  intros Hinit Hok s1 reach.
  destruct (start_transition HAVE_NVMM_SUPPORT env s0 Hinit Hok)
    as (Hact & Hsent & _ & _).
  fold s1 in Hact, Hsent.
  assert (Hsame : same_session (priv s1) (priv s1))
    by (unfold same_session; auto).
  split; [exact Hact|]. split; [exact Hsent|].
  split; [|split].
  - intros frames. split.
    + rewrite (encoded_session_codec_count frames s1 (priv s1) Hsame).
      rewrite Hsent. reflexivity.
    + apply encoded_session_sample_count. exact Hsame.
  - intros pre f Hpre Hf before. subst before. split.
    + rewrite (encoded_session_codec_count pre s1 (priv s1) Hsame).
      rewrite Hsent. simpl. fold reach. rewrite Hpre. lia.
    + destruct (encoded_session_codec_sent pre s1 (priv s1) Hsame)
        as ((Hi & Hr & Hv) & Hc).
      rewrite process_encoded_video_codec_count.
      rewrite (reaches_emission_ext _ (priv s1) (snd f) Hi Hr Hv).
      rewrite Hc, Hsent. simpl. fold reach. rewrite Hpre.
      change (reaches_emission (priv s1) (snd f)) with (reach f). rewrite Hf.
      simpl.
      rewrite (encoded_session_codec_count pre s1 (priv s1) Hsame).
      rewrite Hsent. simpl. fold reach. rewrite Hpre. lia.
  - intros pre f Hf before r. subst r before.
    destruct (encoded_session_codec_sent pre s1 (priv s1) Hsame)
      as ((Hi & Hr & Hv) & _).
    assert (Hreach : reaches_emission (priv (snd (encoded_session pre s1))) (snd f)
                     = true).
    { rewrite (reaches_emission_ext _ (priv s1) (snd f) Hi Hr Hv). exact Hf. }
    split.
    + rewrite process_encoded_video_flow, Hreach.
      unfold reaches_emission in Hreach.
      destruct (encoded_guard (priv (snd (encoded_session pre s1))));
        [discriminate|reflexivity].
    + rewrite process_encoded_video_sample_count, Hreach. reflexivity.
Qed.

Lemma codec_announced_once_per_session_witness :
  count is_codec_descriptor
    (calls (snd (encoded_session
                   [h264_frame ["001"%byte]; h264_frame ["002"%byte];
                    h264_frame ["003"%byte]]
                   (snd (gst_rerun_sink_start false env_ok configured_sink)))))
  = 1%nat
  /\ count is_sample
       (calls (snd (encoded_session
                      [h264_frame ["001"%byte]; h264_frame ["002"%byte];
                       h264_frame ["003"%byte]]
                      (snd (gst_rerun_sink_start false env_ok configured_sink)))))
     = 3%nat
  /\ fst (process_encoded_video unmappable_buffer
            (encoded_caps "video/x-h264" dims_640x480)
            (snd (encoded_session [h264_frame ["001"%byte]]
                    (snd (gst_rerun_sink_start false env_ok configured_sink)))))
     = GST_FLOW_ERROR.
Proof.
  destruct (codec_announced_once_per_session false env_ok configured_sink
              eq_refl eq_refl) as (_ & _ & Hcount & _ & Hcall).
  destruct (Hcount [h264_frame ["001"%byte]; h264_frame ["002"%byte];
                    h264_frame ["003"%byte]]) as (Hcodec & Hsample).
  split; [|split].
  - rewrite Hcodec. reflexivity.
  - rewrite Hsample. reflexivity.
  - apply (proj1 (Hcall [h264_frame ["001"%byte]] h264_frame_unmappable eq_refl)).
Defined.

(** C5, as the specification words it, fails on the sample: a call that
    reaches the emission point with a buffer that cannot be mapped emits the
    codec descriptor and no sample, and returns GST_FLOW_ERROR. *)
Lemma announced_call_without_sample :
  reaches_emission (active_priv (Some "camera/video"))
    (encoded_caps "video/x-h264" dims_640x480) = true
  /\ process_encoded_video unmappable_buffer
       (encoded_caps "video/x-h264" dims_640x480)
       (sink_of (active_priv (Some "camera/video")))
     = (GST_FLOW_ERROR,
        {| priv := set_codec_sent true (active_priv (Some "camera/video"));
           calls := [RecordingStream_log_static "camera/video"
                       (VideoStream_with_codec (Some H264))] |})
  /\ count is_sample
       (calls (snd (process_encoded_video unmappable_buffer
                      (encoded_caps "video/x-h264" dims_640x480)
                      (sink_of (active_priv (Some "camera/video"))))))
     = 0%nat.
Proof.
  repeat split; reflexivity.
Qed.

(** ** The render function and its routes *)

Lemma process_encoded_video_no_extractor (buffer : GstBuffer) (caps : GstCaps)
    (s : Sink) :
  extractor_calls (calls (snd (process_encoded_video buffer caps s)))
  = extractor_calls (calls s).
Proof.
  unfold_encoded. split_paths; simpl; rewrite ?extractor_calls_app; simpl;
    rewrite ?app_nil_r; reflexivity.
Qed.

Lemma process_encoded_video_no_image (buffer : GstBuffer) (caps : GstCaps)
    (s : Sink) :
  count is_image_write (calls (snd (process_encoded_video buffer caps s)))
  = count is_image_write (calls s).
Proof.
  unfold_encoded. split_paths; simpl; count_events; lia.
Qed.

Lemma process_regular_buffer_calls (buffer : GstBuffer) (info : GstVideoInfo)
    (image : Image) (s : Sink) :
  calls (snd (process_regular_buffer buffer info image s))
  = calls s ++ (if mappable buffer
                then [gst_buffer_map_ok; gst_buffer_unmap] else []).
Proof.
  unfold process_regular_buffer, mappable. run_m.
  destruct (buffer_map buffer); simpl.
  - split_paths; simpl; rewrite <- app_assoc; reflexivity.
  - rewrite app_nil_r. reflexivity.
Qed.

Lemma process_regular_buffer_priv (buffer : GstBuffer) (info : GstVideoInfo)
    (image : Image) (s : Sink) :
  priv (snd (process_regular_buffer buffer info image s)) = priv s.
Proof.
  unfold process_regular_buffer. run_m.
  split_paths; reflexivity.
Qed.

Lemma process_nvmm_buffer_calls (buffer : GstBuffer) (info : GstVideoInfo)
    (image : Image) (s : Sink) :
  exists new,
    calls (snd (process_nvmm_buffer buffer info image s)) = calls s ++ new
    /\ In new nvmm_traces.
Proof.
  unfold process_nvmm_buffer, nvmm_traces. run_m.
  split_paths; simpl; rewrite <- ?app_assoc; simpl;
    eexists; (split; [try reflexivity; symmetry; apply app_nil_r|]);
    simpl; tauto.
Qed.

Lemma process_nvmm_buffer_priv (buffer : GstBuffer) (info : GstVideoInfo)
    (image : Image) (s : Sink) :
  priv (snd (process_nvmm_buffer buffer info image s)) = priv s.
Proof.
  unfold process_nvmm_buffer. run_m.
  split_paths; reflexivity.
Qed.

Lemma nvmm_traces_no_extractor (new : list Event) :
  In new nvmm_traces -> extractor_calls new = [].
Proof.
  unfold nvmm_traces. simpl.
  intros [<-|[<-|[<-|[<-|[]]]]]; reflexivity.
Qed.

Lemma nvmm_traces_count (kind : Event -> bool) (new : list Event) :
  kind gst_buffer_map_ok = false -> kind gst_buffer_unmap = false ->
  kind NvBufSurfaceMap_ok = false -> kind NvBufSurfaceSyncForCpu_ok = false ->
  kind NvBufSurfaceUnMap = false ->
  In new nvmm_traces -> count kind new = 0%nat.
Proof.
  intros H1 H2 H3 H4 H5. unfold nvmm_traces, count. simpl.
  intros [<-|[<-|[<-|[<-|[]]]]]; simpl; rewrite ?H1, ?H2, ?H3, ?H4, ?H5;
    reflexivity.
Qed.

Lemma flow_code_ok (r : GstFlowReturn) :
  GstFlowReturn_eqb r GST_FLOW_OK = true -> r = GST_FLOW_OK.
Proof.
  destruct r; simpl; intros H; try reflexivity; discriminate.
Qed.

(** An extractor makes the same calls and gives the same result whatever
    was called before it. *)
Lemma real_calls_app (t1 t2 : list Event) :
  real_calls (t1 ++ t2) = real_calls t1 ++ real_calls t2.
Proof.
  apply filter_app.
Qed.

Lemma process_encoded_video_uniform (buffer : GstBuffer) (caps : GstCaps)
    (s t : Sink) :
  priv s = priv t ->
  fst (process_encoded_video buffer caps s)
  = fst (process_encoded_video buffer caps t)
  /\ priv (snd (process_encoded_video buffer caps s))
     = priv (snd (process_encoded_video buffer caps t))
  /\ exists new,
       calls (snd (process_encoded_video buffer caps s)) = calls s ++ new
       /\ calls (snd (process_encoded_video buffer caps t)) = calls t ++ new.
Proof.
  intros Hpriv. unfold_encoded. rewrite Hpriv.
  split_paths; simpl; rewrite ?Hpriv, <- ?app_assoc;
    (split; [reflexivity|]); (split; [reflexivity|]);
    first [ eexists; split; reflexivity
          | exists []; rewrite !app_nil_r; split; reflexivity ].
Qed.

Lemma process_regular_buffer_uniform (buffer : GstBuffer) (info : GstVideoInfo)
    (image : Image) (s t : Sink) :
  fst (process_regular_buffer buffer info image s)
  = fst (process_regular_buffer buffer info image t)
  /\ exists new,
       calls (snd (process_regular_buffer buffer info image s)) = calls s ++ new
       /\ calls (snd (process_regular_buffer buffer info image t)) = calls t ++ new.
Proof.
  split.
  - unfold process_regular_buffer. run_m. split_paths; reflexivity.
  - eexists. split; apply process_regular_buffer_calls.
Qed.

Lemma process_nvmm_buffer_uniform (buffer : GstBuffer) (info : GstVideoInfo)
    (image : Image) (s t : Sink) :
  fst (process_nvmm_buffer buffer info image s)
  = fst (process_nvmm_buffer buffer info image t)
  /\ exists new,
       calls (snd (process_nvmm_buffer buffer info image s)) = calls s ++ new
       /\ calls (snd (process_nvmm_buffer buffer info image t)) = calls t ++ new.
Proof.
  unfold process_nvmm_buffer. run_m.
  split_paths; simpl; rewrite <- ?app_assoc;
    (split; [reflexivity|]);
    first [ eexists; split; reflexivity
          | exists []; rewrite !app_nil_r; split; reflexivity ].
Qed.

Section Render.

Variable HAVE_NVMM_SUPPORT : bool.
Variable gst_video_info_from_caps : GstCaps -> option GstVideoInfo.

Local Abbreviation render := (gst_rerun_sink_render HAVE_NVMM_SUPPORT gst_video_info_from_caps).

Lemma render_encoded (the_caps : GstCaps) (buffer : GstBuffer) (s : Sink) :
  is_encoded_format (Some the_caps) = true ->
  render (Some the_caps) buffer s
  = process_encoded_video buffer the_caps
      (snd (emit (Extractor_called EncodedRoute) s)).
Proof.
  intros Henc. unfold gst_rerun_sink_render. rewrite Henc.
  rewrite bind_run. reflexivity.
Qed.

(** The tail of the render function, after the extractor returned. *)
Lemma render_raw (the_caps : GstCaps) (info : GstVideoInfo) (buffer : GstBuffer)
    (s : Sink) :
  is_encoded_format (Some the_caps) = false ->
  gst_video_info_from_caps the_caps = Some info ->
  let device := HAVE_NVMM_SUPPORT && is_nvmm_memory buffer in
  let s1 := snd (emit (Extractor_called (if device then DeviceRoute else HostRoute)) s) in
  let r := if device then process_nvmm_buffer buffer info Image_default s1
           else process_regular_buffer buffer info Image_default s1 in
  render (Some the_caps) buffer s
  = if negb (GstFlowReturn_eqb (fst (fst r)) GST_FLOW_OK) then (fst (fst r), snd r)
    else if rerun_initialized (priv (snd r)) && negb (is_null (rec_stream (priv (snd r))))
            && negb (is_null (image_path (priv (snd r))))
         then (GST_FLOW_OK,
               snd (emit (RecordingStream_log (c_str (image_path (priv (snd r))))
                            (Image_archetype (snd (fst r)))) (snd r)))
         else (GST_FLOW_OK, snd r).
Proof.
  intros Henc Hinfo. unfold gst_rerun_sink_render. rewrite Henc, Hinfo.
  rewrite bind_run.
  destruct (HAVE_NVMM_SUPPORT && is_nvmm_memory buffer); simpl;
    rewrite bind_run; simpl;
    match goal with
    | |- context [negb (GstFlowReturn_eqb ?r GST_FLOW_OK)] =>
        destruct (negb (GstFlowReturn_eqb r GST_FLOW_OK))
    end; try reflexivity;
    rewrite bind_run; simpl;
    match goal with
    | |- context [if ?c then _ else _] => destruct c
    end; try reflexivity; rewrite bind_run; reflexivity.
Qed.

Lemma render_raw_extractor (the_caps : GstCaps) (info : GstVideoInfo)
    (buffer : GstBuffer) (s : Sink) :
  is_encoded_format (Some the_caps) = false ->
  gst_video_info_from_caps the_caps = Some info ->
  extractor_calls (calls (snd (render (Some the_caps) buffer s)))
  = extractor_calls (calls s)
    ++ [if HAVE_NVMM_SUPPORT && is_nvmm_memory buffer then DeviceRoute
        else HostRoute].
Proof.
  intros Henc Hinfo. rewrite (render_raw the_caps info buffer s Henc Hinfo).
  cbv zeta.
  destruct (HAVE_NVMM_SUPPORT && is_nvmm_memory buffer).
  - remember (snd (emit (Extractor_called DeviceRoute) s)) as s1 eqn:Es1.
    assert (Hs1 : extractor_calls (calls s1)
                  = extractor_calls (calls s) ++ [DeviceRoute])
      by (subst s1; simpl; rewrite extractor_calls_app; reflexivity).
    destruct (process_nvmm_buffer_calls buffer info Image_default s1)
      as (new & Hcalls & Hin).
    remember (process_nvmm_buffer buffer info Image_default s1) as r eqn:Er.
    split_paths; simpl; rewrite ?extractor_calls_app, Hcalls,
      extractor_calls_app, Hs1, (nvmm_traces_no_extractor new Hin); simpl;
      rewrite ?app_nil_r; reflexivity.
  - remember (snd (emit (Extractor_called HostRoute) s)) as s1 eqn:Es1.
    assert (Hs1 : extractor_calls (calls s1)
                  = extractor_calls (calls s) ++ [HostRoute])
      by (subst s1; simpl; rewrite extractor_calls_app; reflexivity).
    pose proof (process_regular_buffer_calls buffer info Image_default s1)
      as Hcalls.
    remember (process_regular_buffer buffer info Image_default s1) as r eqn:Er.
    assert (Hnew : extractor_calls
                     (if mappable buffer
                      then [gst_buffer_map_ok; gst_buffer_unmap] else []) = [])
      by (destruct (mappable buffer); reflexivity).
    split_paths; simpl; rewrite ?extractor_calls_app, Hcalls,
      extractor_calls_app, Hs1, Hnew; simpl; rewrite ?app_nil_r; reflexivity.
Qed.

(** What the render function does on raw caps, against the extractor run
    on its own. *)
Lemma render_raw_behaviour (the_caps : GstCaps) (info : GstVideoInfo)
    (buffer : GstBuffer) (s : Sink)
    (extractor : M (GstFlowReturn * Image)) (route : Route) :
  is_encoded_format (Some the_caps) = false ->
  gst_video_info_from_caps the_caps = Some info ->
  extractor = (if HAVE_NVMM_SUPPORT && is_nvmm_memory buffer
               then process_nvmm_buffer buffer info Image_default
               else process_regular_buffer buffer info Image_default) ->
  route = (if HAVE_NVMM_SUPPORT && is_nvmm_memory buffer
           then DeviceRoute else HostRoute) ->
  (forall u, priv (snd (extractor u)) = priv u) ->
  (forall u v, fst (extractor u) = fst (extractor v)
               /\ exists new, calls (snd (extractor u)) = calls u ++ new
                              /\ calls (snd (extractor v)) = calls v ++ new) ->
  let r := render (Some the_caps) buffer s in
  let e := extractor s in
  fst r = fst (fst e)
  /\ priv (snd r) = priv (snd e)
  /\ real_calls (calls (snd r))
     = real_calls (calls (snd e))
       ++ (if GstFlowReturn_eqb (fst (fst e)) GST_FLOW_OK && image_guard (priv s)
           then [RecordingStream_log (c_str (image_path (priv s)))
                   (Image_archetype (snd (fst e)))]
           else []).
Proof.
  intros Henc Hinfo Hext Hroute Hpriv Huni r e. subst r e.
  rewrite (render_raw the_caps info buffer s Henc Hinfo). cbv zeta.
  rewrite <- Hroute.
  replace (if HAVE_NVMM_SUPPORT && is_nvmm_memory buffer
           then process_nvmm_buffer buffer info Image_default
                  (snd (emit (Extractor_called route) s))
           else process_regular_buffer buffer info Image_default
                  (snd (emit (Extractor_called route) s)))
    with (extractor (snd (emit (Extractor_called route) s)))
    by (rewrite Hext; destruct (HAVE_NVMM_SUPPORT && is_nvmm_memory buffer);
        reflexivity).
  remember (snd (emit (Extractor_called route) s)) as s1 eqn:Es1.
  assert (Hp1 : priv s1 = priv s) by (subst s1; reflexivity).
  assert (Hc1 : real_calls (calls s1) = real_calls (calls s)).
  { subst s1. simpl. rewrite real_calls_app. simpl. apply app_nil_r. }
  destruct (Huni s1 s) as (Hfst & new & Hcalls1 & Hcalls).
  pose proof (Hpriv s1) as Hq1. pose proof (Hpriv s) as Hq.
  unfold image_guard.
  remember (extractor s1) as e1 eqn:Ee1.
  remember (extractor s) as e eqn:Ee.
  rewrite Hq1, Hp1, Hq, Hfst.
  destruct (GstFlowReturn_eqb (fst (fst e)) GST_FLOW_OK) eqn:Hok; cbn [negb andb].
  - apply flow_code_ok in Hok.
    destruct (rerun_initialized (priv s) && negb (is_null (rec_stream (priv s)))
              && negb (is_null (image_path (priv s)))); cbn [fst snd].
    + split; [symmetry; exact Hok|]. split; [simpl; rewrite Hq1; exact Hp1|].
      simpl. rewrite real_calls_app, Hcalls1, Hcalls, !real_calls_app, Hc1.
      rewrite <- Hfst. reflexivity.
    + split; [symmetry; exact Hok|]. split; [rewrite Hq1; exact Hp1|].
      rewrite Hcalls1, Hcalls, !real_calls_app, Hc1, app_nil_r. reflexivity.
  - cbn [fst snd]. rewrite <- Hfst at 1.
    split; [rewrite Hfst; reflexivity|]. split; [rewrite Hq1; exact Hp1|].
    rewrite Hcalls1, Hcalls, !real_calls_app, Hc1, app_nil_r. reflexivity.
Qed.

(** C6 (as amended).  The render function routes by the caps name first
    and the allocator second, and calls one extractor, when the pad has caps
    and, for caps that are not encoded, the caps parse as raw video; it calls
    no extractor and returns GST_FLOW_ERROR when the pad has no caps or the
    raw caps do not parse.  That the one extractor is called and no other is
    stated on what the render function does: its result, the private
    structure it leaves and every call it makes are those of the selected
    extractor run alone on the same buffer, followed on the raw routes by the
    write of the extracted image when the extractor succeeded and the session
    has an image path. *)
Theorem render_routes_buffer (caps : option GstCaps) (buffer : GstBuffer)
    (s : Sink) :
  let routed := extractor_calls (calls (snd (render caps buffer s))) in
  (is_encoded_format caps = true ->
   routed = extractor_calls (calls s) ++ [EncodedRoute])
  /\ (forall the_caps info,
        caps = Some the_caps ->
        is_encoded_format caps = false ->
        gst_video_info_from_caps the_caps = Some info ->
        routed = extractor_calls (calls s)
                 ++ [if HAVE_NVMM_SUPPORT && is_nvmm_memory buffer
                     then DeviceRoute else HostRoute])
  /\ (caps = None
      \/ (exists the_caps, caps = Some the_caps
                           /\ is_encoded_format caps = false
                           /\ gst_video_info_from_caps the_caps = None) ->
      render caps buffer s = (GST_FLOW_ERROR, s))
  /\ (forall the_caps,
        caps = Some the_caps ->
        is_encoded_format caps = true ->
        let r := render caps buffer s in
        let e := process_encoded_video buffer the_caps s in
        fst r = fst e
        /\ priv (snd r) = priv (snd e)
        /\ real_calls (calls (snd r)) = real_calls (calls (snd e)))
  /\ (forall the_caps info,
        caps = Some the_caps ->
        is_encoded_format caps = false ->
        gst_video_info_from_caps the_caps = Some info ->
        let r := render caps buffer s in
        let e := if HAVE_NVMM_SUPPORT && is_nvmm_memory buffer
                 then process_nvmm_buffer buffer info Image_default s
                 else process_regular_buffer buffer info Image_default s in
        fst r = fst (fst e)
        /\ priv (snd r) = priv (snd e)
        /\ real_calls (calls (snd r))
           = real_calls (calls (snd e))
             ++ (if GstFlowReturn_eqb (fst (fst e)) GST_FLOW_OK
                    && image_guard (priv s)
                 then [RecordingStream_log (c_str (image_path (priv s)))
                         (Image_archetype (snd (fst e)))]
                 else [])).
Proof.
  intros routed. subst routed.
  split; [|split; [|split; [|split]]].
  - intros Henc. destruct caps as [the_caps|]; [|discriminate].
    rewrite (render_encoded the_caps buffer s Henc).
    rewrite process_encoded_video_no_extractor. simpl.
    rewrite extractor_calls_app. reflexivity.
  - intros the_caps info -> Henc Hinfo.
    apply (render_raw_extractor the_caps info buffer s Henc Hinfo).
  - intros [->|(the_caps & -> & Henc & Hinfo)].
    + reflexivity.
    + unfold gst_rerun_sink_render. rewrite Henc, Hinfo. reflexivity.
  - intros the_caps -> Henc. cbv zeta.
    rewrite (render_encoded the_caps buffer s Henc).
    destruct (process_encoded_video_uniform buffer the_caps
                (snd (emit (Extractor_called EncodedRoute) s)) s eq_refl)
      as (Hfst & Hpriv & new & Hc1 & Hc).
    split; [exact Hfst|]. split; [exact Hpriv|].
    rewrite Hc1, Hc. simpl. rewrite !real_calls_app. simpl.
    rewrite app_nil_r. reflexivity.
  - intros the_caps info -> Henc Hinfo.
    destruct (HAVE_NVMM_SUPPORT && is_nvmm_memory buffer) eqn:Hdev.
    + apply (render_raw_behaviour the_caps info buffer s
               (process_nvmm_buffer buffer info Image_default) DeviceRoute
               Henc Hinfo); rewrite ?Hdev; try reflexivity.
      * intros u. apply process_nvmm_buffer_priv.
      * intros u v. apply process_nvmm_buffer_uniform.
    + apply (render_raw_behaviour the_caps info buffer s
               (process_regular_buffer buffer info Image_default) HostRoute
               Henc Hinfo); rewrite ?Hdev; try reflexivity.
      * intros u. apply process_regular_buffer_priv.
      * intros u v. apply process_regular_buffer_uniform.
Qed.

End Render.

Lemma render_routes_buffer_witness :
  extractor_calls
    (calls (snd (gst_rerun_sink_render true sample_video_info_from_caps
                   (Some (encoded_caps "video/x-h265" dims_640x480))
                   (device_buffer surface_2x2)
                   (sink_of (active_priv None)))))
  = [EncodedRoute]
  /\ extractor_calls
       (calls (snd (gst_rerun_sink_render true sample_video_info_from_caps
                      (Some (raw_caps "NV12" 2 2))
                      (device_buffer surface_2x2)
                      (sink_of (active_priv None)))))
     = [DeviceRoute]
  /\ extractor_calls
       (calls (snd (gst_rerun_sink_render true sample_video_info_from_caps
                      (Some (raw_caps "RGB" 1 1))
                      (host_buffer ["001"%byte; "002"%byte; "003"%byte])
                      (sink_of (active_priv None)))))
     = [HostRoute]
  /\ gst_rerun_sink_render true sample_video_info_from_caps None
       (host_buffer []) (sink_of (active_priv None))
     = (GST_FLOW_ERROR, sink_of (active_priv None))
  /\ real_calls
       (calls (snd (gst_rerun_sink_render true sample_video_info_from_caps
                      (Some (encoded_caps "video/x-h265" dims_640x480))
                      (device_buffer surface_2x2)
                      (sink_of (active_priv (Some "camera/video"))))))
     = [RecordingStream_log_static "camera/video"
          (VideoStream_with_codec (Some H265));
        gst_buffer_map_ok;
        RecordingStream_set_time_timestamp "time" 0;
        RecordingStream_log "camera/video" (VideoStream_with_sample []);
        gst_buffer_unmap]
  /\ real_calls
       (calls (snd (gst_rerun_sink_render true sample_video_info_from_caps
                      (Some (raw_caps "NV12" 2 2))
                      (device_buffer surface_2x2)
                      (sink_of (active_priv None)))))
     = [gst_buffer_map_ok; NvBufSurfaceMap_ok; NvBufSurfaceSyncForCpu_ok;
        NvBufSurfaceUnMap; gst_buffer_unmap;
        RecordingStream_log "camera/image"
          (Image_archetype
             (Image_from ["011"%byte; "012"%byte; "021"%byte; "022"%byte;
                          "081"%byte; "082"%byte] 2 2 PixelFormat_NV12))]
  /\ real_calls
       (calls (snd (gst_rerun_sink_render true sample_video_info_from_caps
                      (Some (raw_caps "RGB" 1 1))
                      (host_buffer ["001"%byte; "002"%byte; "003"%byte])
                      (sink_of (active_priv None)))))
     = [gst_buffer_map_ok; gst_buffer_unmap;
        RecordingStream_log "camera/image"
          (Image_archetype
             (Image_from ["001"%byte; "002"%byte; "003"%byte] 1 1
                ColorModel_RGB))].
Proof.
  split; [|split; [|split; [|split; [|split; [|split]]]]].
  - apply (proj1 (render_routes_buffer true sample_video_info_from_caps
                    (Some (encoded_caps "video/x-h265" dims_640x480))
                    (device_buffer surface_2x2) (sink_of (active_priv None)))).
    reflexivity.
  - apply (proj1 (proj2 (render_routes_buffer true sample_video_info_from_caps
                           (Some (raw_caps "NV12" 2 2))
                           (device_buffer surface_2x2)
                           (sink_of (active_priv None))))
             (raw_caps "NV12" 2 2) (nv12_info 2 2));
      reflexivity.
  - apply (proj1 (proj2 (render_routes_buffer true sample_video_info_from_caps
                           (Some (raw_caps "RGB" 1 1))
                           (host_buffer ["001"%byte; "002"%byte; "003"%byte])
                           (sink_of (active_priv None))))
             (raw_caps "RGB" 1 1)
             {| finfo_format := GST_VIDEO_FORMAT_RGB;
                GST_VIDEO_INFO_WIDTH := 1; GST_VIDEO_INFO_HEIGHT := 1 |});
      reflexivity.
  - apply (proj1 (proj2 (proj2 (render_routes_buffer true
                                  sample_video_info_from_caps
                                  None (host_buffer [])
                                  (sink_of (active_priv None)))))).
    left. reflexivity.
  - destruct (render_routes_buffer true sample_video_info_from_caps
                (Some (encoded_caps "video/x-h265" dims_640x480))
                (device_buffer surface_2x2)
                (sink_of (active_priv (Some "camera/video"))))
      as (_ & _ & _ & Henc & _).
    destruct (Henc (encoded_caps "video/x-h265" dims_640x480) eq_refl eq_refl)
      as (_ & _ & Hcalls).
    exact Hcalls.
  - destruct (render_routes_buffer true sample_video_info_from_caps
                (Some (raw_caps "NV12" 2 2)) (device_buffer surface_2x2)
                (sink_of (active_priv None)))
      as (_ & _ & _ & _ & Hraw).
    destruct (Hraw (raw_caps "NV12" 2 2) (nv12_info 2 2) eq_refl eq_refl eq_refl)
      as (_ & _ & Hcalls).
    exact Hcalls.
  - destruct (render_routes_buffer true sample_video_info_from_caps
                (Some (raw_caps "RGB" 1 1))
                (host_buffer ["001"%byte; "002"%byte; "003"%byte])
                (sink_of (active_priv None)))
      as (_ & _ & _ & _ & Hraw).
    destruct (Hraw (raw_caps "RGB" 1 1)
                {| finfo_format := GST_VIDEO_FORMAT_RGB;
                   GST_VIDEO_INFO_WIDTH := 1; GST_VIDEO_INFO_HEIGHT := 1 |}
                eq_refl eq_refl eq_refl)
      as (_ & _ & Hcalls).
    exact Hcalls.
Defined.

(** C6, as the specification words it, fails on exhaustiveness: a buffer
    rendered while the pad has no caps, or with raw caps that do not parse,
    reaches no extractor; the render function returns GST_FLOW_ERROR and
    makes no call at all. *)
Lemma render_without_extractor :
  gst_rerun_sink_render true sample_video_info_from_caps None
    (host_buffer []) (sink_of (active_priv None))
  = (GST_FLOW_ERROR, sink_of (active_priv None))
  /\ extractor_calls
       (calls (snd (gst_rerun_sink_render true sample_video_info_from_caps None
                      (host_buffer []) (sink_of (active_priv None)))))
     = []
  /\ is_encoded_format (Some (encoded_caps "video/x-raw" dims_640x480)) = false
  /\ extractor_calls
       (calls (snd (gst_rerun_sink_render true sample_video_info_from_caps
                      (Some (encoded_caps "video/x-raw" dims_640x480))
                      (host_buffer []) (sink_of (active_priv None)))))
     = []
  /\ gst_rerun_sink_render true sample_video_info_from_caps
       (Some (encoded_caps "video/x-raw" dims_640x480))
       (host_buffer []) (sink_of (active_priv None))
     = (GST_FLOW_ERROR, sink_of (active_priv None)).
Proof.
  repeat split; reflexivity.
Qed.

(** A caps that [is_encoded_format] accepts names one of the two codecs. *)
Lemma is_encoded_format_name (caps : GstCaps) :
  is_encoded_format (Some caps) = true ->
  gst_structure_get_name (gst_caps_get_structure caps 0) = Some "video/x-h264"
  \/ gst_structure_get_name (gst_caps_get_structure caps 0) = Some "video/x-h265".
Proof.
  unfold is_encoded_format.
  destruct (gst_caps_get_structure caps 0) as [structure|]; [|discriminate].
  simpl. intros H. apply orb_true_iff in H.
  destruct H as [H|H]; apply g_strcmp0_eq in H; rewrite H; auto.
Qed.

Lemma process_encoded_video_codec_assigned (buffer : GstBuffer) (caps : GstCaps)
    (s : Sink) :
  is_encoded_format (Some caps) = true ->
  count is_unassigned_codec_read (calls (snd (process_encoded_video buffer caps s)))
  = count is_unassigned_codec_read (calls s).
Proof.
  intros Henc. unfold process_encoded_video. run_m.
  destruct (is_encoded_format_name caps Henc) as [-> | ->]; simpl;
    split_paths; simpl; count_events; lia.
Qed.

Lemma render_raw_count (HAVE_NVMM_SUPPORT : bool)
    (gst_video_info_from_caps : GstCaps -> option GstVideoInfo)
    (kind : Event -> bool) (the_caps : GstCaps) (info : GstVideoInfo)
    (buffer : GstBuffer) (s : Sink) :
  kind gst_buffer_map_ok = false -> kind gst_buffer_unmap = false ->
  kind NvBufSurfaceMap_ok = false -> kind NvBufSurfaceSyncForCpu_ok = false ->
  kind NvBufSurfaceUnMap = false ->
  (forall r, kind (Extractor_called r) = false) ->
  is_encoded_format (Some the_caps) = false ->
  gst_video_info_from_caps the_caps = Some info ->
  let r := gst_rerun_sink_render HAVE_NVMM_SUPPORT gst_video_info_from_caps
             (Some the_caps) buffer s in
  count kind (calls (snd r)) = count kind (calls s)
  \/ (fst r = GST_FLOW_OK
      /\ exists path image,
           count kind (calls (snd r))
           = (count kind (calls s)
              + count kind [RecordingStream_log path (Image_archetype image)])%nat).
Proof.
  intros K1 K2 K3 K4 K5 K6 Henc Hinfo.
  rewrite (render_raw HAVE_NVMM_SUPPORT gst_video_info_from_caps
             the_caps info buffer s Henc Hinfo).
  cbv zeta.
  remember (snd (emit (Extractor_called
                         (if HAVE_NVMM_SUPPORT && is_nvmm_memory buffer
                          then DeviceRoute else HostRoute)) s)) as s1 eqn:Es1.
  assert (Hs1 : count kind (calls s1) = count kind (calls s)).
  { subst s1. simpl. rewrite count_app. unfold count. simpl.
    rewrite K6. simpl. lia. }
  assert (Hr : count kind
                 (calls (snd (if HAVE_NVMM_SUPPORT && is_nvmm_memory buffer
                              then process_nvmm_buffer buffer info Image_default s1
                              else process_regular_buffer buffer info Image_default s1)))
               = count kind (calls s)).
  { destruct (HAVE_NVMM_SUPPORT && is_nvmm_memory buffer).
    - destruct (process_nvmm_buffer_calls buffer info Image_default s1)
        as (new & -> & Hin).
      rewrite count_app, (nvmm_traces_count kind new K1 K2 K3 K4 K5 Hin). lia.
    - rewrite process_regular_buffer_calls, count_app.
      destruct (mappable buffer); unfold count at 2; simpl;
        rewrite ?K1, ?K2; simpl; lia. }
  remember (if HAVE_NVMM_SUPPORT && is_nvmm_memory buffer
            then process_nvmm_buffer buffer info Image_default s1
            else process_regular_buffer buffer info Image_default s1) as r eqn:Er.
  split_paths; simpl.
  - left. exact Hr.
  - right. split; [reflexivity|].
    eexists; eexists. rewrite count_app, Hr. reflexivity.
  - left. exact Hr.
Qed.

(** C10.  No buffer makes the render function read the local codec
    variable unassigned: the encoded route is entered only behind
    [is_encoded_format], which leaves the two names that assign it. *)
Theorem render_codec_assigned (HAVE_NVMM_SUPPORT : bool)
    (gst_video_info_from_caps : GstCaps -> option GstVideoInfo)
    (caps : option GstCaps) (buffer : GstBuffer) (s : Sink) :
  count is_unassigned_codec_read
    (calls (snd (gst_rerun_sink_render HAVE_NVMM_SUPPORT gst_video_info_from_caps
                   caps buffer s)))
  = count is_unassigned_codec_read (calls s).
Proof.
  destruct caps as [the_caps|]; [|reflexivity].
  destruct (is_encoded_format (Some the_caps)) eqn:Henc.
  - rewrite (render_encoded HAVE_NVMM_SUPPORT gst_video_info_from_caps
               the_caps buffer s Henc).
    rewrite (process_encoded_video_codec_assigned buffer the_caps _ Henc).
    simpl. rewrite count_app. unfold count at 2. simpl. lia.
  - destruct (gst_video_info_from_caps the_caps) as [info|] eqn:Hinfo.
    + destruct (render_raw_count HAVE_NVMM_SUPPORT gst_video_info_from_caps
                  is_unassigned_codec_read the_caps info buffer s
                  eq_refl eq_refl eq_refl eq_refl eq_refl
                  (fun _ => eq_refl) Henc Hinfo)
        as [H | (_ & path & image & H)]; rewrite H; [reflexivity|].
      unfold count at 2. simpl. lia.
    + unfold gst_rerun_sink_render. rewrite Henc, Hinfo. reflexivity.
Qed.

(** The precondition matters: called on its own with another caps name,
    [process_encoded_video] logs a codec it never assigned. *)
Lemma process_encoded_video_unassigned_codec :
  calls (snd (process_encoded_video (host_buffer [])
                (encoded_caps "video/x-vp9" dims_640x480)
                (sink_of (active_priv (Some "camera/video")))))
  = [RecordingStream_log_static "camera/video" (VideoStream_with_codec None);
     gst_buffer_map_ok;
     RecordingStream_set_time_timestamp "time" 0;
     RecordingStream_log "camera/video" (VideoStream_with_sample []);
     gst_buffer_unmap].
Proof.
  reflexivity.
Qed.

(** ** The host route *)

Lemma process_regular_buffer_flow (buffer : GstBuffer) (info : GstVideoInfo)
    (image : Image) (s : Sink) :
  fst (fst (process_regular_buffer buffer info image s))
  = if mappable buffer
    then if supported_format (finfo_format info)
         then GST_FLOW_OK else GST_FLOW_NOT_NEGOTIATED
    else GST_FLOW_ERROR.
Proof.
  unfold process_regular_buffer, mappable. run_m.
  destruct (buffer_map buffer); [|reflexivity].
  destruct (finfo_format info); reflexivity.
Qed.

(** For a supported raw format and a buffer that maps, the host route
    succeeds and the bytes of the image are the whole mapped view, [map.size]
    bytes, whatever the format and the dimensions. *)
Lemma host_route_copies_mapped_view (buffer : GstBuffer) (info : GstVideoInfo)
    (image : Image) (s : Sink) (map : GstMapInfo) :
  supported_format (finfo_format info) = true ->
  buffer_map buffer = Some map ->
  let r := process_regular_buffer buffer info image s in
  fst (fst r) = GST_FLOW_OK
  /\ image_bytes (snd (fst r)) = map_data map.
Proof.
  intros Hsup Hmap r. split.
  - subst r. rewrite process_regular_buffer_flow. unfold mappable.
    rewrite Hmap, Hsup. reflexivity.
  - subst r. unfold process_regular_buffer. run_m. rewrite Hmap.
    destruct (finfo_format info); try discriminate; reflexivity.
Qed.

(** C2, at the failing input.  A 1x2 RGB frame laid out as GStreamer
    does, each 3-byte row padded to the 4-byte stride, maps to 8 bytes.  The
    host route returns GST_FLOW_OK with an image declared 1x2 RGB that
    carries all 8 bytes, padding included, where the expected size is 6.  The
    same happens for NV12: a 2x2 frame with a stride of 4 gives 12 bytes for
    an expected size of 6, while the device route, given the same rows at the
    same pitch, strips the padding and gives the 6 bytes. *)
Theorem host_route_keeps_stride_padding :
  process_regular_buffer (host_buffer rgb_1x2_stride4) rgb_1x2_info
    Image_default (sink_of (active_priv None))
  = (GST_FLOW_OK, Image_from rgb_1x2_stride4 1 2 ColorModel_RGB,
     {| priv := active_priv None;
        calls := [gst_buffer_map_ok; gst_buffer_unmap] |})
  /\ List.length rgb_1x2_stride4 = 8%nat
  /\ expected_size GST_VIDEO_FORMAT_RGB 1 2 = 6
  /\ List.length
       (image_bytes
          (snd (fst (process_regular_buffer
                       (host_buffer (padded_plane luma_2x2
                                     ++ padded_plane chroma_2x2))
                       (nv12_info 2 2) Image_default
                       (sink_of (active_priv None))))))
     = 12%nat
  /\ List.length
       (image_bytes
          (snd (fst (process_nvmm_buffer (device_buffer surface_2x2)
                       (nv12_info 2 2) Image_default
                       (sink_of (active_priv None))))))
     = 6%nat
  /\ expected_size GST_VIDEO_FORMAT_NV12 2 2 = 6.
Proof.
  repeat split; reflexivity.
Qed.

(** C7 (as amended).  On the host route a pixel format outside the
    supported set gives GST_FLOW_NOT_NEGOTIATED when the buffer maps, and
    GST_FLOW_ERROR, a different code, when it does not; either way the render
    function writes no image for the buffer. *)
Theorem unsupported_format_not_negotiated (HAVE_NVMM_SUPPORT : bool)
    (gst_video_info_from_caps : GstCaps -> option GstVideoInfo)
    (the_caps : GstCaps) (info : GstVideoInfo) (buffer : GstBuffer) (s : Sink) :
  is_encoded_format (Some the_caps) = false ->
  gst_video_info_from_caps the_caps = Some info ->
  HAVE_NVMM_SUPPORT && is_nvmm_memory buffer = false ->
  supported_format (finfo_format info) = false ->
  let r := gst_rerun_sink_render HAVE_NVMM_SUPPORT gst_video_info_from_caps
             (Some the_caps) buffer s in
  fst (fst (process_regular_buffer buffer info Image_default s))
  = (if mappable buffer then GST_FLOW_NOT_NEGOTIATED else GST_FLOW_ERROR)
  /\ fst r = (if mappable buffer then GST_FLOW_NOT_NEGOTIATED else GST_FLOW_ERROR)
  /\ flow_code GST_FLOW_NOT_NEGOTIATED <> flow_code GST_FLOW_ERROR
  /\ count is_image_write (calls (snd r)) = count is_image_write (calls s).
Proof.
  intros Henc Hinfo Hhost Hsup r.
  assert (Hflow : fst r
                  = if mappable buffer then GST_FLOW_NOT_NEGOTIATED
                    else GST_FLOW_ERROR).
  { subst r.
    rewrite (render_raw HAVE_NVMM_SUPPORT gst_video_info_from_caps
               the_caps info buffer s Henc Hinfo).
    cbv zeta. rewrite Hhost, process_regular_buffer_flow, Hsup.
    destruct (mappable buffer); reflexivity. }
  split; [|split; [|split]].
  - rewrite process_regular_buffer_flow, Hsup. reflexivity.
  - exact Hflow.
  - simpl. lia.
  - destruct (render_raw_count HAVE_NVMM_SUPPORT gst_video_info_from_caps
                is_image_write the_caps info buffer s
                eq_refl eq_refl eq_refl eq_refl eq_refl
                (fun _ => eq_refl) Henc Hinfo)
      as [H | (Hok & _)]; [exact H|].
    fold r in Hok. rewrite Hflow in Hok.
    destruct (mappable buffer); discriminate.
Qed.

Lemma unsupported_format_not_negotiated_witness :
  fst (gst_rerun_sink_render false sample_video_info_from_caps
         (Some (raw_caps "YUY2" 640 480)) (host_buffer ["001"%byte])
         (sink_of (active_priv None)))
  = GST_FLOW_NOT_NEGOTIATED.
Proof.
  apply (proj1 (proj2 (unsupported_format_not_negotiated false
                         sample_video_info_from_caps
                         (raw_caps "YUY2" 640 480) yuy2_info
                         (host_buffer ["001"%byte]) (sink_of (active_priv None))
                         eq_refl eq_refl eq_refl eq_refl))).
Defined.

(** C7, as the specification words it, fails when the buffer does not
    map: the host route then returns GST_FLOW_ERROR, the generic error code,
    also for a format outside the supported set. *)
Lemma unsupported_format_unmappable_buffer :
  supported_format (finfo_format yuy2_info) = false
  /\ fst (fst (process_regular_buffer unmappable_buffer yuy2_info Image_default
                 (sink_of (active_priv None)))) = GST_FLOW_ERROR
  /\ fst (gst_rerun_sink_render false sample_video_info_from_caps
            (Some (raw_caps "YUY2" 640 480)) unmappable_buffer
            (sink_of (active_priv None))) = GST_FLOW_ERROR.
Proof.
  repeat split; reflexivity.
Qed.

(** ** Starting a session *)

Lemma custom_grpc_address (address : string) :
  address <> DEFAULT_GRPC_ADDRESS ->
  (g_strcmp0 (Some address) (Some DEFAULT_GRPC_ADDRESS) =? 0) = false.
Proof.
  intros Hne.
  destruct (g_strcmp0 (Some address) (Some DEFAULT_GRPC_ADDRESS) =? 0) eqn:E;
    [|reflexivity].
  apply g_strcmp0_eq in E. contradiction.
Qed.

(** C4.  With both an output file and a custom gRPC address configured,
    starting a session that is not active returns FALSE: the session stays
    inactive, the recording stream that was just created is deleted and the
    handle reset to null, and no target is opened (no save, connect or spawn
    call). *)
Theorem conflicting_targets_abort_start (HAVE_NVMM_SUPPORT : bool)
    (env : RerunEnv) (s : Sink) (file address : string) :
  rerun_initialized (priv s) = false ->
  output_file (priv s) = Some file ->
  grpc_address (priv s) = Some address ->
  address <> DEFAULT_GRPC_ADDRESS ->
  let r := gst_rerun_sink_start HAVE_NVMM_SUPPORT env s in
  fst r = false
  /\ rerun_initialized (priv (snd r)) = false
  /\ rec_stream (priv (snd r)) = None
  /\ calls (snd r)
     = calls s ++ [RecordingStream_new (match recording_id (priv s) with
                                        | Some id => id
                                        | None => "gst-rerun"
                                        end);
                   RecordingStream_delete]
  /\ count is_target_open (calls (snd r)) = count is_target_open (calls s).
Proof.
  intros Hinit Hfile Hgrpc Hne.
  assert (Hrun : gst_rerun_sink_start HAVE_NVMM_SUPPORT env s
                 = (false,
                    {| priv := set_rec_stream None
                                 (set_rec_stream
                                    (Some {| stream_id :=
                                               match recording_id (priv s) with
                                               | Some id => id
                                               | None => "gst-rerun"
                                               end |}) (priv s));
                       calls := (calls s
                                 ++ [RecordingStream_new
                                       (match recording_id (priv s) with
                                        | Some id => id
                                        | None => "gst-rerun"
                                        end)])
                                ++ [RecordingStream_delete] |})).
  { unfold_start. rewrite Hinit, Hfile, Hgrpc.
    rewrite (custom_grpc_address address Hne). reflexivity. }
  cbv zeta. rewrite Hrun. simpl.
  split; [reflexivity|]. split; [exact Hinit|]. split; [reflexivity|].
  split.
  - rewrite <- app_assoc. reflexivity.
  - count_events. lia.
Qed.

Lemma conflicting_targets_abort_start_witness :
  let r := gst_rerun_sink_start true env_ok conflicting_sink in
  fst r = false
  /\ rerun_initialized (priv (snd r)) = false
  /\ rec_stream (priv (snd r)) = None
  /\ calls (snd r) = [RecordingStream_new "gst-rerun"; RecordingStream_delete]
  /\ count is_target_open (calls (snd r)) = 0%nat.
Proof.
  apply (conflicting_targets_abort_start true env_ok conflicting_sink
           "out.rrd" "10.0.0.7:9876").
  - reflexivity.
  - reflexivity.
  - reflexivity.
  - discriminate.
Defined.

(** When saving to disk or connecting over gRPC fails, the start returns
    FALSE with the stream deleted and the handle null. *)
Lemma start_save_failure_releases (HAVE_NVMM_SUPPORT : bool) (env : RerunEnv)
    (s : Sink) (file : string) :
  rerun_initialized (priv s) = false ->
  output_file (priv s) = Some file ->
  (is_null (grpc_address (priv s))
   || (g_strcmp0 (grpc_address (priv s)) (Some DEFAULT_GRPC_ADDRESS) =? 0)) = true ->
  save_is_err env file = true ->
  let r := gst_rerun_sink_start HAVE_NVMM_SUPPORT env s in
  fst r = false
  /\ rerun_initialized (priv (snd r)) = false
  /\ rec_stream (priv (snd r)) = None
  /\ count is_delete (calls (snd r)) = (count is_delete (calls s) + 1)%nat.
Proof.
  intros Hinit Hfile Hgrpc Herr. unfold_start.
  rewrite Hinit, Hfile. simpl.
  destruct (grpc_address (priv s)) as [address|]; simpl in *.
  - rewrite Hgrpc. simpl. rewrite Herr. simpl.
    repeat split; auto. count_events. lia.
  - rewrite Herr. simpl. repeat split; auto. count_events. lia.
Qed.

Lemma start_connect_failure_releases (HAVE_NVMM_SUPPORT : bool) (env : RerunEnv)
    (s : Sink) (address : string) :
  rerun_initialized (priv s) = false ->
  output_file (priv s) = None ->
  grpc_address (priv s) = Some address ->
  address <> DEFAULT_GRPC_ADDRESS ->
  connect_grpc_is_err env address = true ->
  let r := gst_rerun_sink_start HAVE_NVMM_SUPPORT env s in
  fst r = false
  /\ rerun_initialized (priv (snd r)) = false
  /\ rec_stream (priv (snd r)) = None
  /\ count is_delete (calls (snd r)) = (count is_delete (calls s) + 1)%nat.
Proof.
  intros Hinit Hfile Hgrpc Hne Herr. unfold_start.
  rewrite Hinit, Hfile, Hgrpc.
  rewrite (custom_grpc_address address Hne). simpl. rewrite Herr. simpl.
  repeat split; auto. count_events. lia.
Qed.

(** When spawning the viewer fails, the start returns FALSE too, but the
    stream is not deleted and the handle keeps pointing to it. *)
Lemma start_spawn_failure_keeps_stream (HAVE_NVMM_SUPPORT : bool)
    (env : RerunEnv) (s : Sink) :
  rerun_initialized (priv s) = false ->
  output_file (priv s) = None ->
  (is_null (grpc_address (priv s))
   || (g_strcmp0 (grpc_address (priv s)) (Some DEFAULT_GRPC_ADDRESS) =? 0)) = true ->
  spawn_viewer (priv s) = true ->
  spawn_is_err env = true ->
  let r := gst_rerun_sink_start HAVE_NVMM_SUPPORT env s in
  fst r = false
  /\ rerun_initialized (priv (snd r)) = false
  /\ rec_stream (priv (snd r))
     = Some {| stream_id := match recording_id (priv s) with
                            | Some id => id
                            | None => "gst-rerun"
                            end |}
  /\ count is_delete (calls (snd r)) = count is_delete (calls s).
Proof.
  intros Hinit Hfile Hgrpc Hspawn Herr. unfold_start.
  rewrite Hinit, Hfile, Hspawn. simpl.
  destruct (grpc_address (priv s)) as [address|]; simpl in *.
  - rewrite Hgrpc. simpl. rewrite Herr. simpl.
    repeat split; auto. count_events. lia.
  - rewrite Herr. simpl. repeat split; auto. count_events. lia.
Qed.

(** C8, at the failing input: the element as constructed (spawn-viewer
    on, no output file, default gRPC address) and a viewer that fails to
    spawn.  The start returns FALSE and the session stays inactive, but the
    recording stream created at the top of the function is neither deleted
    nor is the handle reset, unlike in the disk and gRPC branches. *)
Theorem start_spawn_failure_leaks_stream :
  gst_rerun_sink_start false env_spawn_fails (sink_of gst_rerun_sink_init)
  = (false,
     {| priv := set_rec_stream (Some {| stream_id := "gst-rerun" |})
                  gst_rerun_sink_init;
        calls := [RecordingStream_new "gst-rerun"; RecordingStream_spawn] |})
  /\ rec_stream (priv (snd (gst_rerun_sink_start false env_spawn_fails
                              (sink_of gst_rerun_sink_init)))) <> None
  /\ count is_delete
       (calls (snd (gst_rerun_sink_start false env_spawn_fails
                      (sink_of gst_rerun_sink_init)))) = 0%nat.
Proof.
  split; [reflexivity|]. split; [discriminate|reflexivity].
Qed.

(** ** The device route *)

(** C9.  Whatever the buffer, the surface and the format, the calls of
    [process_nvmm_buffer] are one of four sequences in which every mapping
    acquired is released before the return, the surface mapping first and the
    buffer mapping after it; nothing is held when the function returns. *)
Theorem nvmm_mappings_scoped (buffer : GstBuffer) (info : GstVideoInfo)
    (image : Image) (s : Sink) :
  exists new,
    calls (snd (process_nvmm_buffer buffer info image s)) = calls s ++ new
    /\ In new nvmm_traces
    /\ held_after [] new = Some [].
Proof.
  destruct (process_nvmm_buffer_calls buffer info image s) as (new & Hcalls & Hin).
  exists new. split; [exact Hcalls|]. split; [exact Hin|].
  unfold nvmm_traces in Hin. simpl in Hin.
  destruct Hin as [<-|[<-|[<-|[<-|[]]]]]; reflexivity.
Qed.

Lemma to_gint_in_range (x : Z) : gint_range x = true -> to_gint x = x.
Proof.
  unfold gint_range, to_gint. intros H.
  apply andb_true_iff in H. destruct H as [H1 H2].
  apply Z.leb_le in H1. apply Z.ltb_lt in H2.
  rewrite Z.mod_small; lia.
Qed.

Lemma to_uint32_in_range (x : Z) : gint_range x = true -> to_uint32 x = x.
Proof.
  unfold gint_range, to_uint32. intros H.
  apply andb_true_iff in H. destruct H as [H1 H2].
  apply Z.leb_le in H1. apply Z.ltb_lt in H2.
  apply Z.mod_small. lia.
Qed.

Lemma to_uint32_to_gint (x : Z) : to_uint32 (to_gint x) = x mod 2 ^ 32.
Proof.
  unfold to_uint32, to_gint.
  rewrite Zminus_mod_idemp_l. f_equal. lia.
Qed.

Lemma plane_range_row (pre row rest : list byte) (off len : Z) :
  Z.of_nat (List.length pre) = off ->
  Z.of_nat (List.length row) = len ->
  plane_range (pre ++ row ++ rest) off len = row.
Proof.
  intros Hoff Hlen. unfold plane_range.
  rewrite <- Hoff, <- Hlen, !Nat2Z.id.
  rewrite skipn_app, skipn_all, Nat.sub_diag. simpl.
  rewrite firstn_app, firstn_all, Nat.sub_diag. simpl.
  apply app_nil_r.
Qed.

(** The copy loop on a pitched plane gives the rows without their padding. *)
Lemma copy_rows_padded (width pitch : Z) (rows : PlaneRows) :
  forall (raw_data pre tail : list byte) (i : Z),
    Z.of_nat (List.length pre) = i * pitch ->
    forallb (fun rp => (Z.of_nat (List.length (fst rp)) =? width)
                       && (Z.of_nat (List.length (snd rp)) =? pitch - width)) rows
    = true ->
    copy_rows raw_data (pre ++ padded_plane rows ++ tail) pitch width i
      (List.length rows)
    = raw_data ++ logical_plane rows.
Proof.
  induction rows as [|[row pad] rows IH]; intros raw_data pre tail i Hpre Hrows.
  - simpl. rewrite app_nil_r. reflexivity.
  - simpl in Hrows. apply andb_true_iff in Hrows. destruct Hrows as [Hrow Hrest].
    apply andb_true_iff in Hrow. destruct Hrow as [Hw Hp].
    apply Z.eqb_eq in Hw. apply Z.eqb_eq in Hp.
    cbn [List.length copy_rows padded_plane logical_plane flat_map fst snd].
    fold (padded_plane rows). fold (logical_plane rows).
    replace (pre ++ ((row ++ pad) ++ padded_plane rows) ++ tail)
      with (pre ++ row ++ (pad ++ padded_plane rows ++ tail))
      by (rewrite <- !app_assoc; reflexivity).
    rewrite (plane_range_row pre row _ (i * pitch) width Hpre Hw).
    replace (pre ++ row ++ pad ++ padded_plane rows ++ tail)
      with ((pre ++ row ++ pad) ++ padded_plane rows ++ tail)
      by (rewrite <- !app_assoc; reflexivity).
    rewrite IH.
    + rewrite <- app_assoc. reflexivity.
    + rewrite !length_app, !Nat2Z.inj_add. lia.
    + exact Hrest.
Qed.

Lemma logical_plane_length (width pitch nrows : Z) (rows : PlaneRows) :
  plane_layout width pitch nrows rows = true ->
  Z.of_nat (List.length (logical_plane rows)) = nrows * width.
Proof.
  unfold plane_layout. intros H. apply andb_true_iff in H.
  destruct H as [Hn Hrows]. apply Z.eqb_eq in Hn. subst nrows.
  induction rows as [|[row pad] rows IH].
  - reflexivity.
  - simpl in Hrows. apply andb_true_iff in Hrows. destruct Hrows as [Hrow Hrest].
    apply andb_true_iff in Hrow. destruct Hrow as [Hw _]. apply Z.eqb_eq in Hw.
    cbn [logical_plane flat_map fst List.length].
    fold (logical_plane rows).
    rewrite length_app, Nat2Z.inj_add, (IH Hrest), Nat2Z.inj_succ. simpl in Hw. lia.
Qed.

Lemma nvmm_raw_data_depadded (width height y_pitch uv_pitch : Z)
    (luma chroma : PlaneRows) (y_tail uv_tail y_plane uv_plane : list byte) :
  gint_range width = true -> gint_range height = true ->
  gint_range y_pitch = true -> gint_range uv_pitch = true ->
  plane_layout width y_pitch height luma = true ->
  plane_layout width uv_pitch (height / 2) chroma = true ->
  nvmm_raw_data (surface_of width height y_pitch uv_pitch y_plane uv_plane)
    (padded_plane luma ++ y_tail) (padded_plane chroma ++ uv_tail)
  = logical_plane luma ++ logical_plane chroma.
Proof.
  intros Rw Rh Ry Ruv Hluma Hchroma.
  unfold nvmm_raw_data, surface_of. simpl.
  rewrite (to_gint_in_range width Rw), (to_gint_in_range height Rh),
    (to_gint_in_range y_pitch Ry), (to_gint_in_range uv_pitch Ruv).
  unfold plane_layout in Hluma, Hchroma.
  apply andb_true_iff in Hluma. destruct Hluma as [Hln Hlrows].
  apply andb_true_iff in Hchroma. destruct Hchroma as [Hcn Hcrows].
  apply Z.eqb_eq in Hln. apply Z.eqb_eq in Hcn.
  assert (Hh : 0 <= height).
  { unfold gint_range in Rh. apply andb_true_iff in Rh.
    destruct Rh as [Rh _]. apply Z.leb_le in Rh. exact Rh. }
  rewrite Z.quot_div_nonneg by lia.
  rewrite <- Hcn, <- Hln, !Nat2Z.id.
  pose proof (copy_rows_padded width y_pitch luma [] [] y_tail 0 eq_refl Hlrows)
    as Hy.
  cbn [app] in Hy. rewrite Hy.
  pose proof (copy_rows_padded width uv_pitch chroma (logical_plane luma)
                [] uv_tail 0 eq_refl Hcrows) as Huv.
  cbn [app] in Huv. exact Huv.
Qed.

(** C3.  For an NV12 surface that maps and synchronises,
    whose planes hold [height] luma rows and [height / 2] chroma rows of
    [width] bytes, each padded to a pitch not below the width, the device
    route returns an image whose bytes are the luma rows followed by the
    chroma rows, all without padding: the very image the host NV12 route
    returns for the same rows stored without padding.  The bytes number
    [width * height + width * (height / 2)], which is
    [width * height * 3 / 2] when the height is even. *)
Theorem nvmm_depadding_exact (width height y_pitch uv_pitch : Z)
    (luma chroma : PlaneRows) (y_tail uv_tail : list byte)
    (buffer host : GstBuffer) (map hmap : GstMapInfo)
    (info : GstVideoInfo) (image : Image) (s : Sink) :
  gint_range width = true -> gint_range height = true ->
  gint_range y_pitch = true -> gint_range uv_pitch = true ->
  width <= y_pitch -> width <= uv_pitch ->
  plane_layout width y_pitch height luma = true ->
  plane_layout width uv_pitch (height / 2) chroma = true ->
  buffer_map buffer = Some map ->
  map_surface map
  = Some (surface_of width height y_pitch uv_pitch
            (padded_plane luma ++ y_tail) (padded_plane chroma ++ uv_tail)) ->
  buffer_map host = Some hmap ->
  map_data hmap = logical_plane luma ++ logical_plane chroma ->
  info = nv12_info width height ->
  let bytes := logical_plane luma ++ logical_plane chroma in
  fst (process_nvmm_buffer buffer info image s)
  = (GST_FLOW_OK, Image_from bytes width height PixelFormat_NV12)
  /\ fst (process_regular_buffer host info image s)
     = fst (process_nvmm_buffer buffer info image s)
  /\ Z.of_nat (List.length bytes) = width * height + width * (height / 2)
  /\ (Z.even height = true ->
      Z.of_nat (List.length bytes) = width * height * 3 / 2).
Proof.
  intros Rw Rh Ry Ruv _ _ Hluma Hchroma Hmap Hsurf Hhost Hdata -> bytes.
  assert (Hdev : fst (process_nvmm_buffer buffer (nv12_info width height) image s)
                 = (GST_FLOW_OK, Image_from bytes width height PixelFormat_NV12)).
  { unfold process_nvmm_buffer. run_m. rewrite Hmap, Hsurf.
    cbn [surface_of NvBufSurfaceMap_code NvBufSurfaceSyncForCpu_code
         mappedAddr_addr0 mappedAddr_addr1 surface_width surface_height
         Z.eqb negb nv12_info finfo_format GstVideoFormat_eqb fst].
    match goal with
    | |- context [nvmm_raw_data ?surf _ _] =>
        change surf with (surface_of width height y_pitch uv_pitch
                            (padded_plane luma ++ y_tail)
                            (padded_plane chroma ++ uv_tail))
    end.
    rewrite (nvmm_raw_data_depadded width height y_pitch uv_pitch luma chroma
               y_tail uv_tail _ _ Rw Rh Ry Ruv Hluma Hchroma).
    rewrite (to_gint_in_range width Rw), (to_gint_in_range height Rh).
    rewrite (to_uint32_in_range width Rw), (to_uint32_in_range height Rh).
    reflexivity. }
  assert (Hlen : Z.of_nat (List.length bytes)
                 = width * height + width * (height / 2)).
  { subst bytes. rewrite length_app, Nat2Z.inj_add.
    rewrite (logical_plane_length width y_pitch height luma Hluma).
    rewrite (logical_plane_length width uv_pitch (height / 2) chroma Hchroma).
    lia. }
  split; [exact Hdev|]. split; [|split].
  - rewrite Hdev. unfold process_regular_buffer. run_m.
    rewrite Hhost, Hdata. reflexivity.
  - exact Hlen.
  - intros Heven. rewrite Hlen.
    apply Z.even_spec in Heven. destruct Heven as [k ->].
    replace (2 * k / 2) with k by (rewrite Z.mul_comm, Z.div_mul; lia).
    replace (width * (2 * k) * 3) with (3 * width * k * 2) by lia.
    rewrite Z.div_mul; lia.
Qed.

Lemma nvmm_depadding_exact_witness :
  fst (process_nvmm_buffer (device_buffer surface_2x2) (nv12_info 2 2)
         Image_default (sink_of (active_priv None)))
  = (GST_FLOW_OK,
     Image_from ["011"%byte; "012"%byte; "021"%byte; "022"%byte;
                 "081"%byte; "082"%byte] 2 2 PixelFormat_NV12)
  /\ fst (process_regular_buffer
            (host_buffer ["011"%byte; "012"%byte; "021"%byte; "022"%byte;
                          "081"%byte; "082"%byte])
            (nv12_info 2 2) Image_default (sink_of (active_priv None)))
     = fst (process_nvmm_buffer (device_buffer surface_2x2) (nv12_info 2 2)
              Image_default (sink_of (active_priv None)))
  /\ Z.of_nat (List.length (logical_plane luma_2x2 ++ logical_plane chroma_2x2))
     = 2 * 2 * 3 / 2.
Proof.
  destruct (nvmm_depadding_exact 2 2 4 4 luma_2x2 chroma_2x2 [] []
              (device_buffer surface_2x2)
              (host_buffer ["011"%byte; "012"%byte; "021"%byte; "022"%byte;
                            "081"%byte; "082"%byte])
              {| map_data := []; map_surface := Some surface_2x2 |}
              {| map_data := ["011"%byte; "012"%byte; "021"%byte; "022"%byte;
                              "081"%byte; "082"%byte];
                 map_surface := None |}
              (nv12_info 2 2) Image_default (sink_of (active_priv None))
              eq_refl eq_refl eq_refl eq_refl)
    as (Hdev & Hhost & _ & Heven); try reflexivity; try lia.
  split; [exact Hdev|]. split; [exact Hhost|].
  apply Heven. reflexivity.
Defined.

(** Outside the even heights that 4:2:0 subsampling assumes the chroma
    loop runs [height / 2] times rounded down: a 2x1 surface yields its one
    luma row and no chroma row. *)
Example nvmm_odd_height_length :
  fst (process_nvmm_buffer (device_buffer surface_2x1) (nv12_info 2 1)
         Image_default (sink_of (active_priv None)))
  = (GST_FLOW_OK, Image_from ["011"%byte; "012"%byte] 2 1 PixelFormat_NV12)
  /\ 2 * 1 * 3 / 2 = 3.
Proof.
  split; reflexivity.
Qed.

(** Runs of the device route on its exit paths. *)
Example nvmm_run_success :
  calls (snd (process_nvmm_buffer (device_buffer surface_2x2) (nv12_info 2 2)
                Image_default (sink_of (active_priv None))))
  = [gst_buffer_map_ok; NvBufSurfaceMap_ok; NvBufSurfaceSyncForCpu_ok;
     NvBufSurfaceUnMap; gst_buffer_unmap].
Proof.
  reflexivity.
Qed.

Example nvmm_run_unsupported_format :
  process_nvmm_buffer (device_buffer surface_2x2) rgb_1x2_info
    Image_default (sink_of (active_priv None))
  = (GST_FLOW_NOT_NEGOTIATED, Image_default,
     {| priv := active_priv None;
        calls := [gst_buffer_map_ok; NvBufSurfaceMap_ok;
                  NvBufSurfaceSyncForCpu_ok; NvBufSurfaceUnMap;
                  gst_buffer_unmap] |}).
Proof.
  reflexivity.
Qed.

Example nvmm_run_unmappable :
  process_nvmm_buffer unmappable_buffer (nv12_info 2 2)
    Image_default (sink_of (active_priv None))
  = (GST_FLOW_ERROR, Image_default, sink_of (active_priv None)).
Proof.
  reflexivity.
Qed.

Example nvmm_run_surface_map_failure :
  process_nvmm_buffer
    (device_buffer (surface_failing (-1) 0 None None)) (nv12_info 2 2)
    Image_default (sink_of (active_priv None))
  = (GST_FLOW_ERROR, Image_default,
     {| priv := active_priv None;
        calls := [gst_buffer_map_ok; gst_buffer_unmap] |}).
Proof.
  reflexivity.
Qed.

Example nvmm_run_sync_failure :
  process_nvmm_buffer
    (device_buffer (surface_failing 0 (-1) None None)) (nv12_info 2 2)
    Image_default (sink_of (active_priv None))
  = (GST_FLOW_ERROR, Image_default,
     {| priv := active_priv None;
        calls := [gst_buffer_map_ok; NvBufSurfaceMap_ok; NvBufSurfaceUnMap;
                  gst_buffer_unmap] |}).
Proof.
  reflexivity.
Qed.

Example nvmm_run_null_chroma_pointer :
  process_nvmm_buffer
    (device_buffer (surface_failing 0 0 (Some (padded_plane luma_2x2)) None))
    (nv12_info 2 2) Image_default (sink_of (active_priv None))
  = (GST_FLOW_ERROR, Image_default,
     {| priv := active_priv None;
        calls := [gst_buffer_map_ok; NvBufSurfaceMap_ok;
                  NvBufSurfaceSyncForCpu_ok; NvBufSurfaceUnMap;
                  gst_buffer_unmap] |}).
Proof.
  reflexivity.
Qed.

(** ** The session over the life of the element *)

Section LifecycleInvariant.

Variable HAVE_NVMM_SUPPORT : bool.
Variable gst_video_info_from_caps : GstCaps -> option GstVideoInfo.

Lemma render_keeps_session (caps : option GstCaps) (buffer : GstBuffer) (s : Sink) :
  let s' := snd (gst_rerun_sink_render HAVE_NVMM_SUPPORT gst_video_info_from_caps
                   caps buffer s) in
  rerun_initialized (priv s') = rerun_initialized (priv s)
  /\ rec_stream (priv s') = rec_stream (priv s).
Proof.
  destruct caps as [the_caps|]; [|split; reflexivity].
  destruct (is_encoded_format (Some the_caps)) eqn:Henc.
  - rewrite (render_encoded HAVE_NVMM_SUPPORT gst_video_info_from_caps
               the_caps buffer s Henc).
    destruct (process_encoded_video_priv buffer the_caps
                (snd (emit (Extractor_called EncodedRoute) s)))
      as (Hi & Hr & _).
    cbv zeta. rewrite Hi, Hr. split; reflexivity.
  - destruct (gst_video_info_from_caps the_caps) as [info|] eqn:Hinfo.
    + rewrite (render_raw HAVE_NVMM_SUPPORT gst_video_info_from_caps
                 the_caps info buffer s Henc Hinfo).
      cbv zeta.
      destruct (HAVE_NVMM_SUPPORT && is_nvmm_memory buffer);
        split_paths; simpl;
        rewrite ?process_nvmm_buffer_priv, ?process_regular_buffer_priv;
        split; reflexivity.
    + unfold gst_rerun_sink_render. rewrite Henc, Hinfo. split; reflexivity.
Qed.

(** Under the calling discipline of GstBaseSink the invariant holds after
    every operation; in particular [gst_rerun_sink_start] is only ever
    entered with [rerun_initialized] FALSE. *)
Lemma run_ops_session_inv (ops : list Op) :
  forall (started : bool) (s : Sink) (started' : bool) (s' : Sink),
    session_inv started s ->
    run_ops HAVE_NVMM_SUPPORT gst_video_info_from_caps started ops s
    = Some (started', s') ->
    session_inv started' s'.
Proof.
  induction ops as [|op ops IH]; intros started s started' s' Hinv Hrun.
  - simpl in Hrun. inversion Hrun; subst. exact Hinv.
  - destruct op as [prop|env| |caps buffer]; cbn [run_ops] in Hrun.
    + eapply IH; [|exact Hrun].
      unfold session_inv in *. destruct started; simpl; exact Hinv.
    + destruct started; [discriminate|].
      eapply IH; [|exact Hrun].
      unfold session_inv in Hinv.
      destruct (fst (gst_rerun_sink_start HAVE_NVMM_SUPPORT env s)) eqn:Hok.
      * destruct (start_transition HAVE_NVMM_SUPPORT env s Hinv Hok)
          as (Ha & _ & Hr & _).
        split; assumption.
      * apply start_failure_inactive; assumption.
    + destruct started; [|discriminate].
      eapply IH; [|exact Hrun].
      destruct Hinv as (_ & Hrec).
      destruct (stop_resets s Hrec) as (Hi & _). exact Hi.
    + destruct started; [|discriminate].
      eapply IH; [|exact Hrun].
      destruct (render_keeps_session caps buffer s) as (Hi & Hr).
      destruct Hinv as (Ha & Hrec).
      split; [rewrite Hi; exact Ha | rewrite Hr; exact Hrec].
Qed.

(** From the element as constructed, every state in which GstBaseSink may
    call [gst_rerun_sink_start] has [rerun_initialized] FALSE. *)
Corollary start_entered_inactive (ops : list Op) (s : Sink) :
  run_ops HAVE_NVMM_SUPPORT gst_video_info_from_caps false ops
    (sink_of gst_rerun_sink_init)
  = Some (false, s) ->
  rerun_initialized (priv s) = false.
Proof.
  intros Hrun.
  apply (run_ops_session_inv ops false (sink_of gst_rerun_sink_init) false s);
    [reflexivity | exact Hrun].
Qed.

End LifecycleInvariant.

(** ** Properties, start, stop and dispose *)

Lemma image_writes_app (t1 t2 : list Event) :
  image_writes (t1 ++ t2) = image_writes t1 ++ image_writes t2.
Proof.
  induction t1 as [|e t1 IH]; simpl; [reflexivity|].
  destruct e as [| | | | |path a| | | | | | | | |]; simpl; rewrite ?IH;
    try reflexivity.
  destruct a; simpl; rewrite ?IH; reflexivity.
Qed.

Lemma sample_writes_app (t1 t2 : list Event) :
  sample_writes (t1 ++ t2) = sample_writes t1 ++ sample_writes t2.
Proof.
  induction t1 as [|e t1 IH]; simpl; [reflexivity|].
  destruct e as [| | | | |path a| | | | | | | | |]; simpl; rewrite ?IH;
    try reflexivity.
  destruct a; simpl; rewrite ?IH; reflexivity.
Qed.

Lemma timestamps_app (t1 t2 : list Event) :
  timestamps (t1 ++ t2) = timestamps t1 ++ timestamps t2.
Proof.
  induction t1 as [|e t1 IH]; simpl; [reflexivity|].
  destruct e; simpl; rewrite ?IH; reflexivity.
Qed.

(** X1.  A property reads back as it was set; setting it leaves every
    other property, the session and the calls as they were. *)
Theorem property_round_trip (prop : Property) (id : Z) (s : Sink) :
  let s' := snd (gst_rerun_sink_set_property prop s) in
  fst (gst_rerun_sink_get_property id s')
  = (if id =? prop_id prop then Some prop
     else fst (gst_rerun_sink_get_property id s))
  /\ rec_stream (priv s') = rec_stream (priv s)
  /\ rerun_initialized (priv s') = rerun_initialized (priv s)
  /\ codec_sent (priv s') = codec_sent (priv s)
  /\ calls s' = calls s.
Proof.
  split; [|repeat split].
  unfold gst_rerun_sink_get_property, gst_rerun_sink_set_property. run_m.
  destruct prop; cbn [prop_id fst snd priv recording_id image_path video_path
                      spawn_viewer output_file grpc_address];
    repeat match goal with
      | |- context [?a =? ?b] => destruct (Z.eqb_spec a b)
      end; subst; try reflexivity; try lia.
Qed.

Lemma stop_calls (s : Sink) :
  calls (snd (gst_rerun_sink_stop s))
  = calls s ++ (if is_null (rec_stream (priv s)) then []
                else [RecordingStream_delete]).
Proof.
  unfold gst_rerun_sink_stop. run_m.
  destruct (rec_stream (priv s)); simpl; [reflexivity|].
  rewrite app_nil_r. reflexivity.
Qed.

(** X2.  Stopping always returns TRUE, deletes the stream at most once,
    does nothing when there is no stream, and does nothing the second
    time. *)
Theorem stop_idempotent (s : Sink) :
  let s1 := snd (gst_rerun_sink_stop s) in
  fst (gst_rerun_sink_stop s) = true
  /\ rec_stream (priv s1) = None
  /\ gst_rerun_sink_stop s1 = (true, s1)
  /\ calls s1 = calls s ++ (if is_null (rec_stream (priv s)) then []
                            else [RecordingStream_delete])
  /\ (if is_null (rec_stream (priv s)) then s1 = s
      else rerun_initialized (priv s1) = false /\ codec_sent (priv s1) = false).
Proof.
  unfold gst_rerun_sink_stop. run_m.
  destruct (rec_stream (priv s)) eqn:Hrec; simpl.
  - repeat split; reflexivity.
  - rewrite Hrec. simpl. rewrite app_nil_r. repeat split; reflexivity.
Qed.

(** X3.  Disposing twice is disposing once: the recording id, the image
    path, the output file and the gRPC address are NULL afterwards, while the
    video path, the stream and the calls are left as they were. *)
Theorem dispose_idempotent (s : Sink) :
  let s1 := snd (gst_rerun_sink_dispose s) in
  gst_rerun_sink_dispose s1 = (tt, s1)
  /\ recording_id (priv s1) = None /\ image_path (priv s1) = None
  /\ output_file (priv s1) = None /\ grpc_address (priv s1) = None
  /\ video_path (priv s1) = video_path (priv s)
  /\ rec_stream (priv s1) = rec_stream (priv s)
  /\ calls s1 = calls s.
Proof.
  unfold gst_rerun_sink_dispose. run_m. simpl. repeat split; reflexivity.
Qed.

Lemma start_target_calls (HAVE_NVMM_SUPPORT : bool) (env : RerunEnv)
    (s : Sink) :
  rerun_initialized (priv s) = false ->
  let s' := snd (gst_rerun_sink_start HAVE_NVMM_SUPPORT env s) in
  filter is_new (calls s')
  = filter is_new (calls s) ++ [RecordingStream_new (rec_id_of (priv s))]
  /\ filter is_target_open (calls s')
     = filter is_target_open (calls s)
       ++ (if has_output_file (priv s)
           then if has_custom_grpc (priv s) then []
                else [RecordingStream_save (c_str (output_file (priv s)))]
           else if has_custom_grpc (priv s)
                then [RecordingStream_connect_grpc (c_str (grpc_address (priv s)))]
                else if spawn_viewer (priv s) then [RecordingStream_spawn]
                     else []).
Proof.
  intros Hinit. unfold has_output_file, has_custom_grpc, rec_id_of.
  unfold_start. rewrite Hinit.
  cbn [negb].
  destruct (negb (is_null (output_file (priv s))));
    destruct (negb (is_null (grpc_address (priv s)))
              && negb (g_strcmp0 (grpc_address (priv s))
                         (Some DEFAULT_GRPC_ADDRESS) =? 0));
    cbn -[filter]; split_paths; cbn -[filter];
    rewrite ?filter_app; simpl; rewrite ?app_nil_r, <- ?app_assoc;
    split; reflexivity.
Qed.

(** X4.  Which target a start opens: the file when only an output file is
    set and the address when only a custom gRPC address is set, whatever
    spawn-viewer says; the viewer when neither is set and spawn-viewer is on;
    nothing otherwise.  The stream is created first, under the recording id
    or "gst-rerun". *)
Theorem start_target_selection (HAVE_NVMM_SUPPORT : bool) (env : RerunEnv)
    (s : Sink) :
  rerun_initialized (priv s) = false ->
  let s' := snd (gst_rerun_sink_start HAVE_NVMM_SUPPORT env s) in
  filter is_new (calls s')
  = filter is_new (calls s) ++ [RecordingStream_new (rec_id_of (priv s))]
  /\ filter is_target_open (calls s')
     = filter is_target_open (calls s)
       ++ (if has_output_file (priv s)
           then if has_custom_grpc (priv s) then []
                else [RecordingStream_save (c_str (output_file (priv s)))]
           else if has_custom_grpc (priv s)
                then [RecordingStream_connect_grpc (c_str (grpc_address (priv s)))]
                else if spawn_viewer (priv s) then [RecordingStream_spawn]
                     else []).
Proof.
  exact (start_target_calls HAVE_NVMM_SUPPORT env s).
Qed.

Lemma start_target_selection_witness :
  filter is_target_open
    (calls (snd (gst_rerun_sink_start false env_ok
                   (snd (gst_rerun_sink_set_property
                           (PROP_OUTPUT_FILE (Some "out.rrd"))
                           (sink_of gst_rerun_sink_init))))))
  = [RecordingStream_save "out.rrd"].
Proof.
  apply (proj2 (start_target_selection false env_ok
                  (snd (gst_rerun_sink_set_property
                          (PROP_OUTPUT_FILE (Some "out.rrd"))
                          (sink_of gst_rerun_sink_init)))
                  eq_refl)).
Defined.

(** X5.  When the rerun library opens every target without error, a start
    of an inactive session fails exactly on the conflict of an output file
    with a custom gRPC address, and otherwise leaves the session active with
    a stream and the codec flag down. *)
Theorem start_succeeds_unless_conflict (HAVE_NVMM_SUPPORT : bool)
    (env : RerunEnv) (s : Sink) :
  rerun_initialized (priv s) = false ->
  (forall path, save_is_err env path = false) ->
  (forall address, connect_grpc_is_err env address = false) ->
  spawn_is_err env = false ->
  let r := gst_rerun_sink_start HAVE_NVMM_SUPPORT env s in
  fst r = negb (has_output_file (priv s) && has_custom_grpc (priv s))
  /\ rerun_initialized (priv (snd r)) = fst r
  /\ is_null (rec_stream (priv (snd r))) = negb (fst r)
  /\ codec_sent (priv (snd r)) = (if fst r then false else codec_sent (priv s)).
Proof.
  intros Hinit Hsave Hgrpc Hspawn. unfold has_output_file, has_custom_grpc.
  unfold_start. rewrite Hinit, Hspawn.
  cbn [negb].
  destruct (negb (is_null (output_file (priv s))));
    destruct (negb (is_null (grpc_address (priv s)))
              && negb (g_strcmp0 (grpc_address (priv s))
                         (Some DEFAULT_GRPC_ADDRESS) =? 0));
    destruct HAVE_NVMM_SUPPORT, (recording_id (priv s)),
      (spawn_viewer (priv s));
    simpl; rewrite ?Hsave, ?Hgrpc; simpl;
    repeat split; try reflexivity; assumption.
Qed.

Lemma start_succeeds_unless_conflict_witness :
  fst (gst_rerun_sink_start true env_ok conflicting_sink) = false
  /\ fst (gst_rerun_sink_start true env_ok configured_sink) = true.
Proof.
  split.
  - apply (proj1 (start_succeeds_unless_conflict true env_ok conflicting_sink
                    eq_refl (fun _ => eq_refl) (fun _ => eq_refl) eq_refl)).
  - apply (proj1 (start_succeeds_unless_conflict true env_ok configured_sink
                    eq_refl (fun _ => eq_refl) (fun _ => eq_refl) eq_refl)).
Defined.

Lemma start_keeps_config (HAVE_NVMM_SUPPORT : bool) (env : RerunEnv) (s : Sink) :
  same_config (priv (snd (gst_rerun_sink_start HAVE_NVMM_SUPPORT env s))) (priv s).
Proof.
  unfold same_config. unfold_start.
  split_paths; simpl; repeat split; try reflexivity; assumption.
Qed.

Lemma stop_keeps_config (s : Sink) :
  same_config (priv (snd (gst_rerun_sink_stop s))) (priv s).
Proof.
  unfold same_config, gst_rerun_sink_stop. run_m.
  split_paths; simpl; repeat split; reflexivity.
Qed.

(** The outcome of a start of an inactive session depends on the
    properties only. *)
Lemma start_outcome_by_config (HAVE_NVMM_SUPPORT : bool) (env : RerunEnv)
    (s t : Sink) :
  rerun_initialized (priv s) = false ->
  rerun_initialized (priv t) = false ->
  same_config (priv s) (priv t) ->
  fst (gst_rerun_sink_start HAVE_NVMM_SUPPORT env s)
  = fst (gst_rerun_sink_start HAVE_NVMM_SUPPORT env t).
Proof.
  intros Hs Ht (Hid & _ & _ & Hsv & Hof & Hga).
  unfold_start. rewrite Hs, Ht, Hid, Hsv, Hof, Hga. cbn [negb].
  destruct HAVE_NVMM_SUPPORT, (recording_id (priv t)), (output_file (priv t)),
    (negb (is_null (grpc_address (priv t)))
     && negb (g_strcmp0 (grpc_address (priv t)) (Some DEFAULT_GRPC_ADDRESS) =? 0)),
    (spawn_viewer (priv t));
    simpl; split_paths; reflexivity.
Qed.

(** What a successful start of an inactive session leaves behind. *)
Lemma start_success_state (HAVE_NVMM_SUPPORT : bool) (env : RerunEnv) (s : Sink) :
  rerun_initialized (priv s) = false ->
  fst (gst_rerun_sink_start HAVE_NVMM_SUPPORT env s) = true ->
  let s' := snd (gst_rerun_sink_start HAVE_NVMM_SUPPORT env s) in
  rec_stream (priv s') = Some {| stream_id := rec_id_of (priv s) |}
  /\ rerun_initialized (priv s') = true
  /\ codec_sent (priv s') = false
  /\ count is_new (calls s') = (count is_new (calls s) + 1)%nat
  /\ count is_delete (calls s') = count is_delete (calls s).
Proof.
  intros Hinit. unfold rec_id_of. unfold_start. rewrite Hinit. cbn [negb].
  destruct HAVE_NVMM_SUPPORT, (recording_id (priv s)), (output_file (priv s)),
    (negb (is_null (grpc_address (priv s)))
     && negb (g_strcmp0 (grpc_address (priv s)) (Some DEFAULT_GRPC_ADDRESS) =? 0)),
    (spawn_viewer (priv s));
    simpl; split_paths; simpl; intros; try discriminate;
    repeat (split; [reflexivity|]);
    rewrite ?count_app; unfold count; simpl; lia.
Qed.

Lemma private_ext (p q : GstRerunSinkPrivate) :
  rec_stream p = rec_stream q ->
  rerun_initialized p = rerun_initialized q ->
  codec_sent p = codec_sent q ->
  same_config p q ->
  p = q.
Proof.
  destruct p, q. unfold same_config. simpl.
  intros -> -> -> (-> & -> & -> & -> & -> & ->). reflexivity.
Qed.

(** X6.  Stop and start again: after a start that succeeded, a stop
    followed by a start against the same library outcome succeeds again and
    gives the same private structure; one stream is deleted and a second one
    created. *)
Theorem restart_reproduces_session (HAVE_NVMM_SUPPORT : bool) (env : RerunEnv)
    (s : Sink) :
  rerun_initialized (priv s) = false ->
  fst (gst_rerun_sink_start HAVE_NVMM_SUPPORT env s) = true ->
  let s1 := snd (gst_rerun_sink_start HAVE_NVMM_SUPPORT env s) in
  let s2 := snd (gst_rerun_sink_stop s1) in
  let r3 := gst_rerun_sink_start HAVE_NVMM_SUPPORT env s2 in
  fst r3 = true
  /\ priv (snd r3) = priv s1
  /\ count is_new (calls (snd r3)) = (count is_new (calls s) + 2)%nat
  /\ count is_delete (calls (snd r3)) = (count is_delete (calls s) + 1)%nat.
Proof.
  intros Hinit Hok s1 s2 r3.
  destruct (start_success_state HAVE_NVMM_SUPPORT env s Hinit Hok)
    as (Hrec1 & Hact1 & Hsent1 & Hnew1 & Hdel1).
  fold s1 in Hrec1, Hact1, Hsent1, Hnew1, Hdel1.
  assert (Hnonnull : rec_stream (priv s1) <> None) by (rewrite Hrec1; discriminate).
  destruct (stop_resets s1 Hnonnull) as (Hinit2 & _ & _).
  fold s2 in Hinit2.
  pose proof (start_keeps_config HAVE_NVMM_SUPPORT env s) as Hc1. fold s1 in Hc1.
  pose proof (stop_keeps_config s1) as Hc2. fold s2 in Hc2.
  assert (Hc : same_config (priv s2) (priv s)).
  { unfold same_config in *.
    destruct Hc1 as (A1 & A2 & A3 & A4 & A5 & A6).
    destruct Hc2 as (B1 & B2 & B3 & B4 & B5 & B6).
    rewrite B1, B2, B3, B4, B5, B6. repeat split; assumption. }
  assert (Hok3 : fst r3 = true).
  { subst r3. rewrite (start_outcome_by_config HAVE_NVMM_SUPPORT env s2 s Hinit2 Hinit Hc).
    exact Hok. }
  destruct (start_success_state HAVE_NVMM_SUPPORT env s2 Hinit2 Hok3)
    as (Hrec3 & Hact3 & Hsent3 & Hnew3 & Hdel3).
  fold r3 in Hrec3, Hact3, Hsent3, Hnew3, Hdel3.
  assert (Hcalls2 : calls s2 = calls s1 ++ [RecordingStream_delete]).
  { subst s2. rewrite stop_calls.
    destruct (rec_stream (priv s1)); [reflexivity|contradiction]. }
  split; [exact Hok3|]. split; [|split].
  - apply private_ext.
    + rewrite Hrec3, Hrec1. unfold rec_id_of.
      destruct Hc as (-> & _). reflexivity.
    + rewrite Hact3, Hact1. reflexivity.
    + rewrite Hsent3, Hsent1. reflexivity.
    + pose proof (start_keeps_config HAVE_NVMM_SUPPORT env s2) as Hc3.
      fold r3 in Hc3. unfold same_config in *.
      destruct Hc1 as (A1 & A2 & A3 & A4 & A5 & A6).
      destruct Hc as (B1 & B2 & B3 & B4 & B5 & B6).
      destruct Hc3 as (C1 & C2 & C3 & C4 & C5 & C6).
      rewrite C1, C2, C3, C4, C5, C6, B1, B2, B3, B4, B5, B6,
        A1, A2, A3, A4, A5, A6. repeat split; reflexivity.
  - rewrite Hnew3, Hcalls2, count_app, Hnew1. unfold count at 2. simpl. lia.
  - rewrite Hdel3, Hcalls2, count_app, Hdel1. unfold count at 2. simpl. lia.
Qed.

Lemma restart_reproduces_session_witness :
  fst (gst_rerun_sink_start false env_ok
         (snd (gst_rerun_sink_stop
                 (snd (gst_rerun_sink_start false env_ok configured_sink)))))
  = true.
Proof.
  apply (proj1 (restart_reproduces_session false env_ok configured_sink
                  eq_refl eq_refl)).
Defined.

(** ** More on the render function *)

(** A kind of event the streaming path never produces stays as it was
    across a render call. *)
Lemma process_encoded_video_count_other (kind : Event -> bool)
    (buffer : GstBuffer) (caps : GstCaps) (s : Sink) :
  (forall path a, kind (RecordingStream_log path a) = false) ->
  (forall path a, kind (RecordingStream_log_static path a) = false) ->
  (forall timeline nanos, kind (RecordingStream_set_time_timestamp timeline nanos) = false) ->
  kind gst_buffer_map_ok = false -> kind gst_buffer_unmap = false ->
  count kind (calls (snd (process_encoded_video buffer caps s)))
  = count kind (calls s).
Proof.
  intros K1 K2 K3 K4 K5. unfold_encoded.
  split_paths; simpl; rewrite ?count_app; unfold count; simpl;
    rewrite ?K1, ?K2, ?K3, ?K4, ?K5; simpl; lia.
Qed.

Lemma render_count_other (HAVE_NVMM_SUPPORT : bool)
    (gst_video_info_from_caps : GstCaps -> option GstVideoInfo)
    (kind : Event -> bool) (caps : option GstCaps) (buffer : GstBuffer) (s : Sink) :
  (forall path a, kind (RecordingStream_log path a) = false) ->
  (forall path a, kind (RecordingStream_log_static path a) = false) ->
  (forall timeline nanos, kind (RecordingStream_set_time_timestamp timeline nanos) = false) ->
  kind gst_buffer_map_ok = false -> kind gst_buffer_unmap = false ->
  kind NvBufSurfaceMap_ok = false -> kind NvBufSurfaceSyncForCpu_ok = false ->
  kind NvBufSurfaceUnMap = false ->
  (forall r, kind (Extractor_called r) = false) ->
  count kind (calls (snd (gst_rerun_sink_render HAVE_NVMM_SUPPORT
                            gst_video_info_from_caps caps buffer s)))
  = count kind (calls s).
Proof.
  intros K1 K2 K3 K4 K5 K6 K7 K8 K9.
  destruct caps as [the_caps|]; [|reflexivity].
  destruct (is_encoded_format (Some the_caps)) eqn:Henc.
  - rewrite (render_encoded HAVE_NVMM_SUPPORT gst_video_info_from_caps
               the_caps buffer s Henc).
    rewrite (process_encoded_video_count_other kind buffer the_caps _ K1 K2 K3 K4 K5).
    simpl. rewrite count_app. unfold count at 2. simpl. rewrite K9. simpl. lia.
  - destruct (gst_video_info_from_caps the_caps) as [info|] eqn:Hinfo.
    + destruct (render_raw_count HAVE_NVMM_SUPPORT gst_video_info_from_caps
                  kind the_caps info buffer s K4 K5 K6 K7 K8 K9 Henc Hinfo)
        as [H | (_ & path & image & H)]; rewrite H; [reflexivity|].
      unfold count at 2. simpl. rewrite K1. simpl. lia.
    + unfold gst_rerun_sink_render. rewrite Henc, Hinfo. reflexivity.
Qed.

Lemma GstVideoFormat_eqb_eq (a b : GstVideoFormat) :
  GstVideoFormat_eqb a b = true <-> a = b.
Proof.
  destruct a, b; simpl; split; intros H; try reflexivity; try discriminate.
  - apply Z.eqb_eq in H. subst. reflexivity.
  - inversion H. apply Z.eqb_refl.
Qed.

(** The private structure after a render call. *)
Lemma render_priv (HAVE_NVMM_SUPPORT : bool)
    (gst_video_info_from_caps : GstCaps -> option GstVideoInfo)
    (caps : option GstCaps) (buffer : GstBuffer) (s : Sink) :
  let s' := snd (gst_rerun_sink_render HAVE_NVMM_SUPPORT
                   gst_video_info_from_caps caps buffer s) in
  (is_encoded_format caps = false -> priv s' = priv s)
  /\ (priv s' = priv s \/ priv s' = set_codec_sent true (priv s)).
Proof.
  destruct caps as [the_caps|]; [|split; auto].
  destruct (is_encoded_format (Some the_caps)) eqn:Henc.
  - split; [discriminate|].
    rewrite (render_encoded HAVE_NVMM_SUPPORT gst_video_info_from_caps
               the_caps buffer s Henc).
    unfold_encoded. split_paths; simpl; auto.
  - assert (H : priv (snd (gst_rerun_sink_render HAVE_NVMM_SUPPORT
                             gst_video_info_from_caps (Some the_caps) buffer s))
                = priv s).
    { destruct (gst_video_info_from_caps the_caps) as [info|] eqn:Hinfo.
      - rewrite (render_raw HAVE_NVMM_SUPPORT gst_video_info_from_caps
                   the_caps info buffer s Henc Hinfo).
        cbv zeta.
        destruct (HAVE_NVMM_SUPPORT && is_nvmm_memory buffer);
          split_paths; simpl;
          rewrite ?process_nvmm_buffer_priv, ?process_regular_buffer_priv;
          reflexivity.
      - unfold gst_rerun_sink_render. rewrite Henc, Hinfo. reflexivity. }
    cbv zeta. rewrite H. auto.
Qed.

(** X7.  The render function never touches a property or the stream: it
    leaves the private structure as it is on caps that are not encoded, and
    on encoded caps changes at most the codec flag, from FALSE to TRUE; it
    never creates, deletes or opens a stream. *)
Theorem render_keeps_private (HAVE_NVMM_SUPPORT : bool)
    (gst_video_info_from_caps : GstCaps -> option GstVideoInfo)
    (caps : option GstCaps) (buffer : GstBuffer) (s : Sink) :
  let s' := snd (gst_rerun_sink_render HAVE_NVMM_SUPPORT
                   gst_video_info_from_caps caps buffer s) in
  (is_encoded_format caps = false -> priv s' = priv s)
  /\ (priv s' = priv s \/ priv s' = set_codec_sent true (priv s))
  /\ count is_new (calls s') = count is_new (calls s)
  /\ count is_delete (calls s') = count is_delete (calls s)
  /\ count is_target_open (calls s') = count is_target_open (calls s).
Proof.
  destruct (render_priv HAVE_NVMM_SUPPORT gst_video_info_from_caps caps buffer s)
    as (H1 & H2).
  split; [exact H1|]. split; [exact H2|].
  split; [|split];
    apply render_count_other; intros; reflexivity.
Qed.

Lemma render_keeps_private_witness :
  priv (snd (gst_rerun_sink_render false sample_video_info_from_caps
               (Some (raw_caps "RGB" 1 2)) (host_buffer rgb_1x2_stride4)
               (sink_of (active_priv None))))
  = active_priv None.
Proof.
  apply (proj1 (render_keeps_private false sample_video_info_from_caps
                  (Some (raw_caps "RGB" 1 2)) (host_buffer rgb_1x2_stride4)
                  (sink_of (active_priv None)))).
  reflexivity.
Defined.

(** X8.  The routes do not mix: a buffer with encoded caps never writes an
    image, and a buffer with other caps never announces a codec, writes a
    sample or sets a timestamp. *)
Theorem render_routes_do_not_mix (HAVE_NVMM_SUPPORT : bool)
    (gst_video_info_from_caps : GstCaps -> option GstVideoInfo)
    (caps : option GstCaps) (buffer : GstBuffer) (s : Sink) :
  let s' := snd (gst_rerun_sink_render HAVE_NVMM_SUPPORT
                   gst_video_info_from_caps caps buffer s) in
  (is_encoded_format caps = true ->
   count is_image_write (calls s') = count is_image_write (calls s))
  /\ (is_encoded_format caps = false ->
      count is_codec_descriptor (calls s') = count is_codec_descriptor (calls s)
      /\ count is_sample (calls s') = count is_sample (calls s)
      /\ timestamps (calls s') = timestamps (calls s)).
Proof.
  split.
  - intros Henc. destruct caps as [the_caps|]; [|discriminate].
    rewrite (render_encoded HAVE_NVMM_SUPPORT gst_video_info_from_caps
               the_caps buffer s Henc).
    rewrite process_encoded_video_no_image.
    simpl. rewrite count_app. unfold count at 2. simpl. lia.
  - intros Henc. destruct caps as [the_caps|]; [|repeat split; reflexivity].
    destruct (gst_video_info_from_caps the_caps) as [info|] eqn:Hinfo.
    + split; [|split].
      * destruct (render_raw_count HAVE_NVMM_SUPPORT gst_video_info_from_caps
                    is_codec_descriptor the_caps info buffer s
                    eq_refl eq_refl eq_refl eq_refl eq_refl
                    (fun _ => eq_refl) Henc Hinfo)
          as [H | (_ & path & image & H)]; rewrite H; [reflexivity|].
        unfold count at 2. simpl. lia.
      * destruct (render_raw_count HAVE_NVMM_SUPPORT gst_video_info_from_caps
                    is_sample the_caps info buffer s
                    eq_refl eq_refl eq_refl eq_refl eq_refl
                    (fun _ => eq_refl) Henc Hinfo)
          as [H | (_ & path & image & H)]; rewrite H; [reflexivity|].
        unfold count at 2. simpl. lia.
      * rewrite (render_raw HAVE_NVMM_SUPPORT gst_video_info_from_caps
                   the_caps info buffer s Henc Hinfo).
        cbv zeta.
        destruct (HAVE_NVMM_SUPPORT && is_nvmm_memory buffer).
        -- destruct (process_nvmm_buffer_calls buffer info Image_default
                       (snd (emit (Extractor_called DeviceRoute) s)))
             as (new & Hcalls & Hin).
           remember (process_nvmm_buffer buffer info Image_default
                       (snd (emit (Extractor_called DeviceRoute) s))) as r.
           assert (Hnew : timestamps new = []).
           { unfold nvmm_traces in Hin. simpl in Hin.
             destruct Hin as [<-|[<-|[<-|[<-|[]]]]]; reflexivity. }
           split_paths; simpl; rewrite ?timestamps_app, Hcalls, timestamps_app,
             Hnew; simpl; rewrite ?timestamps_app; simpl;
             rewrite ?app_nil_r; reflexivity.
        -- pose proof (process_regular_buffer_calls buffer info Image_default
                         (snd (emit (Extractor_called HostRoute) s))) as Hcalls.
           remember (process_regular_buffer buffer info Image_default
                       (snd (emit (Extractor_called HostRoute) s))) as r.
           assert (Hnew : timestamps (if mappable buffer
                                      then [gst_buffer_map_ok; gst_buffer_unmap]
                                      else []) = [])
             by (destruct (mappable buffer); reflexivity).
           split_paths; simpl; rewrite ?timestamps_app, Hcalls, timestamps_app,
             Hnew; simpl; rewrite ?timestamps_app; simpl;
             rewrite ?app_nil_r; reflexivity.
    + unfold gst_rerun_sink_render. rewrite Henc, Hinfo.
      repeat split; reflexivity.
Qed.

Lemma render_routes_do_not_mix_witness :
  count is_image_write
    (calls (snd (gst_rerun_sink_render false sample_video_info_from_caps
                   (Some (encoded_caps "video/x-h264" dims_640x480))
                   (host_buffer ["001"%byte])
                   (sink_of (active_priv (Some "camera/video"))))))
  = 0%nat
  /\ count is_sample
       (calls (snd (gst_rerun_sink_render false sample_video_info_from_caps
                      (Some (raw_caps "RGB" 1 2)) (host_buffer rgb_1x2_stride4)
                      (sink_of (active_priv (Some "camera/video"))))))
     = 0%nat.
Proof.
  split.
  - apply (proj1 (render_routes_do_not_mix false sample_video_info_from_caps
                    (Some (encoded_caps "video/x-h264" dims_640x480))
                    (host_buffer ["001"%byte])
                    (sink_of (active_priv (Some "camera/video"))))).
    reflexivity.
  - apply (proj2 (render_routes_do_not_mix false sample_video_info_from_caps
                    (Some (raw_caps "RGB" 1 2)) (host_buffer rgb_1x2_stride4)
                    (sink_of (active_priv (Some "camera/video"))))).
    reflexivity.
Defined.

(** ** Streams created and deleted *)

Lemma start_balance (HAVE_NVMM_SUPPORT : bool) (env : RerunEnv) (s : Sink) :
  stream_balance s ->
  rerun_initialized (priv s) = false ->
  spawn_is_err env = false ->
  stream_balance (snd (gst_rerun_sink_start HAVE_NVMM_SUPPORT env s))
  /\ rerun_initialized (priv (snd (gst_rerun_sink_start HAVE_NVMM_SUPPORT env s)))
     = fst (gst_rerun_sink_start HAVE_NVMM_SUPPORT env s).
Proof.
  intros (Hnull & Hcount) Hinit Hspawn. rewrite Hinit in Hcount.
  unfold stream_balance. unfold_start. rewrite Hinit, Hspawn. cbn [negb].
  destruct HAVE_NVMM_SUPPORT, (recording_id (priv s)), (output_file (priv s)),
    (negb (is_null (grpc_address (priv s)))
     && negb (g_strcmp0 (grpc_address (priv s)) (Some DEFAULT_GRPC_ADDRESS) =? 0)),
    (spawn_viewer (priv s));
    simpl; rewrite ?Hinit;
    repeat match goal with
      | |- context [save_is_err env ?f] => destruct (save_is_err env f); simpl
      | |- context [connect_grpc_is_err env ?a] =>
          destruct (connect_grpc_is_err env a); simpl
      end;
    rewrite ?Hinit; simpl;
    (split; [split; [reflexivity|] | reflexivity]);
    rewrite ?count_app; unfold count in *; simpl; lia.
Qed.

Lemma stop_balance (s : Sink) :
  stream_balance s ->
  stream_balance (snd (gst_rerun_sink_stop s))
  /\ rerun_initialized (priv (snd (gst_rerun_sink_stop s))) = false.
Proof.
  intros (Hnull & Hcount). unfold stream_balance, gst_rerun_sink_stop. run_m.
  destruct (rec_stream (priv s)) eqn:Hrec; simpl in *.
  - destruct (rerun_initialized (priv s)); [|discriminate].
    split; [split; [reflexivity|]|reflexivity].
    rewrite !count_app. unfold count in *. simpl. lia.
  - rewrite Hrec. destruct (rerun_initialized (priv s)); [discriminate|].
    split; [split; [reflexivity|exact Hcount]|reflexivity].
Qed.

(** X9.  Under the calling discipline of GstBaseSink, and as long as no
    viewer spawn fails, the element holds a stream exactly while it is active
    and every stream it created is either deleted or the one it holds: once
    stopped, as many streams were deleted as were created. *)
Theorem streams_balanced (HAVE_NVMM_SUPPORT : bool)
    (gst_video_info_from_caps : GstCaps -> option GstVideoInfo)
    (ops : list Op) :
  forall (started : bool) (s : Sink) (started' : bool) (s' : Sink),
    spawn_never_fails ops = true ->
    stream_balance s ->
    rerun_initialized (priv s) = started ->
    run_ops HAVE_NVMM_SUPPORT gst_video_info_from_caps started ops s
    = Some (started', s') ->
    stream_balance s'
    /\ rerun_initialized (priv s') = started'
    /\ (started' = false ->
        count is_new (calls s') = count is_delete (calls s')).
Proof.
  induction ops as [|op ops IH]; intros started s started' s' Hsp Hbal Hst Hrun.
  - simpl in Hrun. inversion Hrun; subst.
    split; [exact Hbal|]. split; [reflexivity|].
    intros Hinit. destruct Hbal as (_ & Hcount). rewrite Hinit in Hcount. lia.
  - destruct op as [prop|env| |caps buffer]; cbn [run_ops] in Hrun;
      cbn [spawn_never_fails] in Hsp.
    + apply (IH started (snd (gst_rerun_sink_set_property prop s)) started' s'
               Hsp); [exact Hbal|exact Hst|exact Hrun].
    + destruct started; [discriminate|].
      apply andb_true_iff in Hsp. destruct Hsp as [Hspawn Hsp].
      apply negb_true_iff in Hspawn.
      destruct (start_balance HAVE_NVMM_SUPPORT env s Hbal Hst Hspawn) as (Hb & Hi).
      eapply IH; [exact Hsp|exact Hb|exact Hi|exact Hrun].
    + destruct started; [|discriminate].
      destruct (stop_balance s Hbal) as (Hb & Hi).
      eapply IH; [exact Hsp|exact Hb|exact Hi|exact Hrun].
    + destruct started; [|discriminate].
      destruct (render_priv HAVE_NVMM_SUPPORT gst_video_info_from_caps
                  caps buffer s) as (_ & Hpriv).
      assert (Hnew : count is_new
                       (calls (snd (gst_rerun_sink_render HAVE_NVMM_SUPPORT
                                      gst_video_info_from_caps caps buffer s)))
                     = count is_new (calls s))
        by (apply render_count_other; intros; reflexivity).
      assert (Hdel : count is_delete
                       (calls (snd (gst_rerun_sink_render HAVE_NVMM_SUPPORT
                                      gst_video_info_from_caps caps buffer s)))
                     = count is_delete (calls s))
        by (apply render_count_other; intros; reflexivity).
      eapply IH; [exact Hsp| | |exact Hrun].
      * destruct Hbal as (Hnull & Hcount). unfold stream_balance.
        rewrite Hnew, Hdel.
        destruct Hpriv as [-> | ->]; simpl; split; assumption.
      * destruct Hpriv as [-> | ->]; simpl; exact Hst.
Qed.

Lemma streams_balanced_witness :
  let s' := snd (gst_rerun_sink_stop
                   (snd (gst_rerun_sink_render false sample_video_info_from_caps
                           (Some (raw_caps "RGB" 1 2))
                           (host_buffer rgb_1x2_stride4)
                           (snd (gst_rerun_sink_start false env_ok
                                   (sink_of gst_rerun_sink_init)))))) in
  count is_new (calls s') = count is_delete (calls s').
Proof.
  intros s'.
  apply (proj2 (proj2 (streams_balanced false sample_video_info_from_caps
                         [Op_start env_ok;
                          Op_render (Some (raw_caps "RGB" 1 2))
                            (host_buffer rgb_1x2_stride4);
                          Op_stop]
                         false (sink_of gst_rerun_sink_init) false s'
                         eq_refl (conj eq_refl eq_refl) eq_refl eq_refl))).
  reflexivity.
Defined.

(** With a spawn that fails the balance is lost: the stream of the failed
    start is overwritten by the next start and never deleted. *)
Example stream_leaked_after_spawn_failure :
  run_ops false sample_video_info_from_caps false
    [Op_start env_spawn_fails; Op_start env_ok; Op_stop]
    (sink_of gst_rerun_sink_init)
  = Some (false,
          {| priv := gst_rerun_sink_init;
             calls := [RecordingStream_new "gst-rerun"; RecordingStream_spawn;
                       RecordingStream_new "gst-rerun"; RecordingStream_spawn;
                       RecordingStream_delete] |}).
Proof.
  reflexivity.
Qed.

(** ** Frames and samples in arrival order *)

Lemma render_host_ok (HAVE_NVMM_SUPPORT : bool)
    (gst_video_info_from_caps : GstCaps -> option GstVideoInfo)
    (the_caps : GstCaps) (info : GstVideoInfo) (buffer : GstBuffer) (s : Sink) :
  is_encoded_format (Some the_caps) = false ->
  gst_video_info_from_caps the_caps = Some info ->
  supported_format (finfo_format info) = true ->
  mappable buffer && negb (HAVE_NVMM_SUPPORT && is_nvmm_memory buffer) = true ->
  let r := gst_rerun_sink_render HAVE_NVMM_SUPPORT gst_video_info_from_caps
             (Some the_caps) buffer s in
  fst r = GST_FLOW_OK
  /\ priv (snd r) = priv s
  /\ image_writes (calls (snd r))
     = image_writes (calls s)
       ++ (if image_guard (priv s)
           then [(c_str (image_path (priv s)),
                  create_image_from_format (buffer_data buffer)
                    (finfo_format info) (GST_VIDEO_INFO_WIDTH info)
                    (GST_VIDEO_INFO_HEIGHT info))]
           else []).
Proof.
  intros Henc Hinfo Hsup Hbuf r. subst r.
  apply andb_true_iff in Hbuf. destruct Hbuf as [Hmap Hhost].
  apply negb_true_iff in Hhost.
  rewrite (render_raw HAVE_NVMM_SUPPORT gst_video_info_from_caps
             the_caps info buffer s Henc Hinfo).
  cbv zeta. rewrite Hhost.
  unfold mappable in Hmap. unfold buffer_data, image_guard.
  unfold process_regular_buffer. run_m.
  destruct (buffer_map buffer) as [map|]; [|discriminate].
  destruct (finfo_format info); try discriminate; simpl;
    destruct (rerun_initialized (priv s) && negb (is_null (rec_stream (priv s)))
              && negb (is_null (image_path (priv s))));
    simpl; rewrite ?image_writes_app; simpl; rewrite ?app_nil_r;
    repeat split; reflexivity.
Qed.

Lemma render_session_cons (HAVE_NVMM_SUPPORT : bool)
    (gst_video_info_from_caps : GstCaps -> option GstVideoInfo)
    (caps : option GstCaps) (buffer : GstBuffer) (rest : list GstBuffer)
    (s : Sink) :
  let r1 := gst_rerun_sink_render HAVE_NVMM_SUPPORT gst_video_info_from_caps
              caps buffer s in
  let r2 := render_session HAVE_NVMM_SUPPORT gst_video_info_from_caps
              caps rest (snd r1) in
  render_session HAVE_NVMM_SUPPORT gst_video_info_from_caps caps
    (buffer :: rest) s
  = (fst r1 :: fst r2, snd r2).
Proof.
  simpl. rewrite bind_run, bind_run. reflexivity.
Qed.

(** X10.  On the host route, with caps of a supported raw format, the
    buffers of a stream that map are all accepted, and when the session is
    active with an image path each is written as one image, in arrival order,
    holding the bytes of its buffer and the negotiated size; with no image
    path (or no active session) the buffers are still accepted and nothing is
    written.  The private structure is not changed. *)
Theorem host_frames_written_in_order (HAVE_NVMM_SUPPORT : bool)
    (gst_video_info_from_caps : GstCaps -> option GstVideoInfo)
    (the_caps : GstCaps) (info : GstVideoInfo) (buffers : list GstBuffer) :
  is_encoded_format (Some the_caps) = false ->
  gst_video_info_from_caps the_caps = Some info ->
  supported_format (finfo_format info) = true ->
  forallb (fun buffer =>
             mappable buffer
             && negb (HAVE_NVMM_SUPPORT && is_nvmm_memory buffer)) buffers
  = true ->
  forall s : Sink,
    let r := render_session HAVE_NVMM_SUPPORT gst_video_info_from_caps
               (Some the_caps) buffers s in
    fst r = map (fun _ => GST_FLOW_OK) buffers
    /\ priv (snd r) = priv s
    /\ image_writes (calls (snd r))
       = image_writes (calls s)
         ++ (if image_guard (priv s)
             then map (fun buffer =>
                         (c_str (image_path (priv s)),
                          create_image_from_format (buffer_data buffer)
                            (finfo_format info) (GST_VIDEO_INFO_WIDTH info)
                            (GST_VIDEO_INFO_HEIGHT info))) buffers
             else []).
Proof.
  intros Henc Hinfo Hsup.
  induction buffers as [|buffer rest IH]; intros Hall s.
  - simpl. destruct (image_guard (priv s)); rewrite app_nil_r; auto.
  - simpl in Hall. apply andb_true_iff in Hall. destruct Hall as [Hbuf Hrest].
    cbv zeta. rewrite render_session_cons. cbv zeta.
    destruct (render_host_ok HAVE_NVMM_SUPPORT gst_video_info_from_caps
                the_caps info buffer s Henc Hinfo Hsup Hbuf) as (Hok & Hpriv & Himg).
    destruct (IH Hrest (snd (gst_rerun_sink_render HAVE_NVMM_SUPPORT
                               gst_video_info_from_caps (Some the_caps) buffer s)))
      as (Hoks & Hprivs & Himgs).
    cbn [fst snd]. rewrite Hok, Hoks, Hprivs, Hpriv, Himgs, Himg, Hpriv.
    split; [reflexivity|]. split; [reflexivity|].
    rewrite <- app_assoc. destruct (image_guard (priv s)); reflexivity.
Qed.

Lemma host_frames_written_in_order_witness :
  image_writes
    (calls (snd (render_session false sample_video_info_from_caps
                   (Some (raw_caps "GRAY8" 1 1))
                   [host_buffer ["001"%byte]; host_buffer ["002"%byte]]
                   (sink_of (active_priv None)))))
  = [("camera/image", Image_from ["001"%byte] 1 1 ColorModel_L);
     ("camera/image", Image_from ["002"%byte] 1 1 ColorModel_L)].
Proof.
  apply (proj2 (proj2 (host_frames_written_in_order false
                         sample_video_info_from_caps (raw_caps "GRAY8" 1 1)
                         {| finfo_format := GST_VIDEO_FORMAT_GRAY8;
                            GST_VIDEO_INFO_WIDTH := 1;
                            GST_VIDEO_INFO_HEIGHT := 1 |}
                         [host_buffer ["001"%byte]; host_buffer ["002"%byte]]
                         eq_refl eq_refl eq_refl eq_refl
                         (sink_of (active_priv None))))).
Defined.

Lemma time_settings_app (t1 t2 : list Event) :
  time_settings (t1 ++ t2) = time_settings t1 ++ time_settings t2.
Proof.
  induction t1 as [|e t1 IH]; simpl; [reflexivity|].
  destruct e; simpl; rewrite ?IH; reflexivity.
Qed.

Lemma process_encoded_video_samples (buffer : GstBuffer) (caps : GstCaps)
    (s : Sink) :
  let s' := snd (process_encoded_video buffer caps s) in
  sample_writes (calls s')
  = sample_writes (calls s)
    ++ (if reaches_emission (priv s) caps && mappable buffer
        then [(c_str (video_path (priv s)), buffer_data buffer)] else [])
  /\ time_settings (calls s')
     = time_settings (calls s)
       ++ (if reaches_emission (priv s) caps && mappable buffer
           then [("time", to_int64 (GST_BUFFER_DTS buffer))] else []).
Proof.
  unfold_encoded. unfold buffer_data.
  split_paths; simpl in *; try discriminate;
    rewrite ?sample_writes_app, ?time_settings_app; simpl;
    rewrite ?app_nil_r; split; reflexivity.
Qed.

Lemma encoded_session_samples (frames : list (GstBuffer * GstCaps)) :
  forall (s : Sink) (p0 : GstRerunSinkPrivate),
    same_session (priv s) p0 ->
    let sent := filter (fun f => reaches_emission p0 (snd f) && mappable (fst f))
                  frames in
    sample_writes (calls (snd (encoded_session frames s)))
    = sample_writes (calls s)
      ++ map (fun f => (c_str (video_path p0), buffer_data (fst f))) sent
    /\ time_settings (calls (snd (encoded_session frames s)))
       = time_settings (calls s)
         ++ map (fun f => ("time", to_int64 (GST_BUFFER_DTS (fst f)))) sent.
Proof.
  induction frames as [|[buffer caps] rest IH]; intros s p0 (Hi & Hr & Hv).
  - simpl. rewrite !app_nil_r. split; reflexivity.
  - cbv zeta. rewrite encoded_session_cons.
    destruct (process_encoded_video_priv buffer caps s) as (Ei & Er & Ev & _).
    destruct (IH (snd (process_encoded_video buffer caps s)) p0) as (Hs & Ht).
    { unfold same_session. rewrite Ei, Er, Ev. auto. }
    destruct (process_encoded_video_samples buffer caps s) as (Hs1 & Ht1).
    rewrite Hs, Ht, Hs1, Ht1.
    rewrite (reaches_emission_ext (priv s) p0 caps Hi Hr Hv), Hv.
    cbn [filter fst snd].
    destruct (reaches_emission p0 caps && mappable buffer);
      rewrite <- !app_assoc; split; reflexivity.
Qed.

Lemma to_int64_in_range (x : Z) : 0 <= x < 2 ^ 63 -> to_int64 x = x.
Proof.
  intros H. unfold to_int64. rewrite Z.mod_small; lia.
Qed.

(** X11.  Over the buffers of an encoded stream, the samples written are
    the mapped bytes of the buffers that reach the emission and map, in
    arrival order and under the video path, and the timestamps set are, in
    the same order and all on the "time" timeline, their decode timestamps
    converted to signed 64-bit nanoseconds: the decode timestamps themselves
    when these are below 2^63. *)
Theorem encoded_samples_in_order (frames : list (GstBuffer * GstCaps)) (s : Sink) :
  let sent := filter (fun f => reaches_emission (priv s) (snd f)
                               && mappable (fst f)) frames in
  let s' := snd (encoded_session frames s) in
  sample_writes (calls s')
  = sample_writes (calls s)
    ++ map (fun f => (c_str (video_path (priv s)), buffer_data (fst f))) sent
  /\ time_settings (calls s')
     = time_settings (calls s)
       ++ map (fun f => ("time", to_int64 (GST_BUFFER_DTS (fst f)))) sent
  /\ (forallb (fun f => dts_in_range (fst f)) frames = true ->
      time_settings (calls s')
      = time_settings (calls s)
        ++ map (fun f => ("time", GST_BUFFER_DTS (fst f))) sent).
Proof.
  intros sent s'.
  assert (Hsame : same_session (priv s) (priv s)) by (unfold same_session; auto).
  destruct (encoded_session_samples frames s (priv s) Hsame) as (Hs & Ht).
  split; [exact Hs|]. split; [exact Ht|].
  intros Hrange. subst s'. rewrite Ht. f_equal.
  apply map_ext_in. intros f Hin.
  apply filter_In in Hin. destruct Hin as [Hin _].
  rewrite forallb_forall in Hrange. specialize (Hrange f Hin).
  unfold dts_in_range in Hrange. apply andb_true_iff in Hrange.
  destruct Hrange as [H0 H1]. apply Z.leb_le in H0. apply Z.ltb_lt in H1.
  f_equal. apply to_int64_in_range. lia.
Qed.

Lemma encoded_samples_in_order_witness :
  time_settings
    (calls (snd (encoded_session
                   [h264_frame_at 1000 ["001"%byte]; h264_frame_unmappable;
                    h264_frame_at 2000 ["002"%byte];
                    h264_frame_at 3000 ["003"%byte]]
                   (sink_of (active_priv (Some "camera/video"))))))
  = [("time", 1000); ("time", 2000); ("time", 3000)]
  /\ sample_writes
       (calls (snd (encoded_session
                      [h264_frame_at 1000 ["001"%byte]; h264_frame_unmappable;
                       h264_frame_at 2000 ["002"%byte];
                       h264_frame_at 3000 ["003"%byte]]
                      (sink_of (active_priv (Some "camera/video"))))))
     = [("camera/video", ["001"%byte]); ("camera/video", ["002"%byte]);
        ("camera/video", ["003"%byte])]
  /\ time_settings
       (calls (snd (encoded_session
                      [h264_frame_at (2 ^ 64 - 1) ["001"%byte]]
                      (sink_of (active_priv (Some "camera/video"))))))
     = [("time", -1)].
Proof.
  split; [|split].
  - apply (proj2 (proj2 (encoded_samples_in_order
                           [h264_frame_at 1000 ["001"%byte]; h264_frame_unmappable;
                            h264_frame_at 2000 ["002"%byte];
                            h264_frame_at 3000 ["003"%byte]]
                           (sink_of (active_priv (Some "camera/video")))))).
    reflexivity.
  - apply (proj1 (encoded_samples_in_order
                    [h264_frame_at 1000 ["001"%byte]; h264_frame_unmappable;
                     h264_frame_at 2000 ["002"%byte];
                     h264_frame_at 3000 ["003"%byte]]
                    (sink_of (active_priv (Some "camera/video"))))).
  - apply (proj1 (proj2 (encoded_samples_in_order
                           [h264_frame_at (2 ^ 64 - 1) ["001"%byte]]
                           (sink_of (active_priv (Some "camera/video")))))).
Defined.

(** A buffer without a decode timestamp (GST_CLOCK_TIME_NONE, all bits
    set) is logged at -1 ns. *)
Example timestamp_of_clock_time_none : to_int64 (2 ^ 64 - 1) = -1.
Proof.
  reflexivity.
Qed.

(** ** More on the device route *)

Lemma process_nvmm_buffer_flow (buffer : GstBuffer) (info : GstVideoInfo)
    (image : Image) (s : Sink) :
  fst (fst (process_nvmm_buffer buffer info image s))
  = (if nvmm_ready buffer
     then if GstVideoFormat_eqb (finfo_format info) GST_VIDEO_FORMAT_NV12
          then GST_FLOW_OK else GST_FLOW_NOT_NEGOTIATED
     else GST_FLOW_ERROR).
Proof.
  unfold process_nvmm_buffer, nvmm_ready. run_m.
  destruct (buffer_map buffer) as [map|]; [|reflexivity].
  destruct (map_surface map) as [surface|]; [|reflexivity].
  destruct (NvBufSurfaceMap_code surface =? 0); [|reflexivity].
  destruct (NvBufSurfaceSyncForCpu_code surface =? 0); [|reflexivity].
  destruct (mappedAddr_addr0 surface); [|reflexivity].
  destruct (mappedAddr_addr1 surface); [|reflexivity].
  simpl.
  destruct (GstVideoFormat_eqb (finfo_format info) GST_VIDEO_FORMAT_NV12);
    reflexivity.
Qed.

(** X12.  The device route succeeds exactly when the buffer maps to a
    surface that maps and synchronises with both plane pointers set and the
    format is NV12; it answers GST_FLOW_NOT_NEGOTIATED exactly when all of
    that holds but the format, after the same five mapping calls as a
    success, and GST_FLOW_ERROR otherwise.  Unless it succeeds, the image of
    the caller is left as it was; when it succeeds the image is NV12 with the
    width and height of the surface as the unsigned 32-bit values they are
    (they pass through a gint and back to [uint32_t]), not those of the caps.
    The private structure is never changed. *)
Theorem nvmm_outcome (buffer : GstBuffer) (info : GstVideoInfo) (image : Image)
    (s : Sink) :
  let r := process_nvmm_buffer buffer info image s in
  fst (fst r)
  = (if nvmm_ready buffer
     then if GstVideoFormat_eqb (finfo_format info) GST_VIDEO_FORMAT_NV12
          then GST_FLOW_OK else GST_FLOW_NOT_NEGOTIATED
     else GST_FLOW_ERROR)
  /\ (if GstFlowReturn_eqb (fst (fst r)) GST_FLOW_OK
      then exists bytes surface map,
             buffer_map buffer = Some map
             /\ map_surface map = Some surface
             /\ snd (fst r)
                = Image_from bytes (surface_width surface mod 2 ^ 32)
                    (surface_height surface mod 2 ^ 32) PixelFormat_NV12
      else snd (fst r) = image)
  /\ (if nvmm_ready buffer
      then calls (snd r)
           = calls s ++ [gst_buffer_map_ok; NvBufSurfaceMap_ok;
                         NvBufSurfaceSyncForCpu_ok; NvBufSurfaceUnMap;
                         gst_buffer_unmap]
      else True)
  /\ priv (snd r) = priv s.
Proof.
  cbv zeta. split; [apply process_nvmm_buffer_flow|]. split; [|split].
  - unfold process_nvmm_buffer. run_m.
    destruct (buffer_map buffer) as [map|] eqn:Hmap; [|reflexivity].
    destruct (map_surface map) as [surface|] eqn:Hsurf; [|reflexivity].
    destruct (NvBufSurfaceMap_code surface =? 0); [|reflexivity].
    destruct (NvBufSurfaceSyncForCpu_code surface =? 0); [|reflexivity].
    destruct (mappedAddr_addr0 surface); [|reflexivity].
    destruct (mappedAddr_addr1 surface); [|reflexivity].
    cbn [negb].
    destruct (GstVideoFormat_eqb (finfo_format info) GST_VIDEO_FORMAT_NV12);
      [|reflexivity].
    cbn [fst snd GstFlowReturn_eqb flow_code Z.eqb].
    eexists; exists surface, map.
    split; [reflexivity|]. split; [exact Hsurf|].
    rewrite <- (to_uint32_to_gint (surface_width surface)),
      <- (to_uint32_to_gint (surface_height surface)).
    reflexivity.
  - unfold process_nvmm_buffer, nvmm_ready. run_m.
    destruct (buffer_map buffer) as [map|]; [|exact I].
    destruct (map_surface map) as [surface|]; [|exact I].
    destruct (NvBufSurfaceMap_code surface =? 0); [|exact I].
    destruct (NvBufSurfaceSyncForCpu_code surface =? 0); [|exact I].
    destruct (mappedAddr_addr0 surface); [|exact I].
    destruct (mappedAddr_addr1 surface); [|exact I].
    simpl.
    destruct (GstVideoFormat_eqb (finfo_format info) GST_VIDEO_FORMAT_NV12);
      simpl; rewrite <- !app_assoc; reflexivity.
  - apply process_nvmm_buffer_priv.
Qed.

(** X15.  The host route succeeds exactly when the buffer maps and the
    format is supported, answers GST_FLOW_NOT_NEGOTIATED when the buffer maps
    and the format is not supported, and GST_FLOW_ERROR when the buffer does
    not map.  The image of the caller is left as it was only when the buffer
    does not map: for an unsupported format it is replaced by the empty
    image.  The private structure is never changed. *)
Theorem host_outcome (buffer : GstBuffer) (info : GstVideoInfo) (image : Image)
    (s : Sink) :
  let r := process_regular_buffer buffer info image s in
  fst (fst r)
  = (if mappable buffer
     then if supported_format (finfo_format info)
          then GST_FLOW_OK else GST_FLOW_NOT_NEGOTIATED
     else GST_FLOW_ERROR)
  /\ snd (fst r)
     = (if mappable buffer
        then if supported_format (finfo_format info)
             then create_image_from_format (buffer_data buffer)
                    (finfo_format info) (GST_VIDEO_INFO_WIDTH info)
                    (GST_VIDEO_INFO_HEIGHT info)
             else Image_default
        else image)
  /\ priv (snd r) = priv s.
Proof.
  cbv zeta. split; [apply process_regular_buffer_flow|].
  split; [|apply process_regular_buffer_priv].
  unfold process_regular_buffer, mappable, buffer_data. run_m.
  destruct (buffer_map buffer); [|reflexivity].
  destruct (finfo_format info); reflexivity.
Qed.

(** X16.  On caps that are not encoded the result of the render function
    does not depend on the state of the element: a buffer is answered the
    same whether or not a session is active and an image path is set. *)
Theorem render_result_independent_of_session (HAVE_NVMM_SUPPORT : bool)
    (gst_video_info_from_caps : GstCaps -> option GstVideoInfo)
    (caps : option GstCaps) (buffer : GstBuffer) (s t : Sink) :
  is_encoded_format caps = false ->
  fst (gst_rerun_sink_render HAVE_NVMM_SUPPORT gst_video_info_from_caps
         caps buffer s)
  = fst (gst_rerun_sink_render HAVE_NVMM_SUPPORT gst_video_info_from_caps
           caps buffer t).
Proof.
  intros Henc. destruct caps as [the_caps|]; [|reflexivity].
  destruct (gst_video_info_from_caps the_caps) as [info|] eqn:Hinfo.
  - assert (Hflow : forall u,
               fst (gst_rerun_sink_render HAVE_NVMM_SUPPORT
                      gst_video_info_from_caps (Some the_caps) buffer u)
               = if HAVE_NVMM_SUPPORT && is_nvmm_memory buffer
                 then if nvmm_ready buffer
                      then if GstVideoFormat_eqb (finfo_format info)
                                GST_VIDEO_FORMAT_NV12
                           then GST_FLOW_OK else GST_FLOW_NOT_NEGOTIATED
                      else GST_FLOW_ERROR
                 else if mappable buffer
                      then if supported_format (finfo_format info)
                           then GST_FLOW_OK else GST_FLOW_NOT_NEGOTIATED
                      else GST_FLOW_ERROR).
    { intros u.
      rewrite (render_raw HAVE_NVMM_SUPPORT gst_video_info_from_caps
                 the_caps info buffer u Henc Hinfo).
      cbv zeta.
      destruct (HAVE_NVMM_SUPPORT && is_nvmm_memory buffer).
      - rewrite process_nvmm_buffer_flow.
        destruct (nvmm_ready buffer); [|reflexivity].
        destruct (GstVideoFormat_eqb (finfo_format info) GST_VIDEO_FORMAT_NV12);
          [|reflexivity].
        simpl. split_paths; reflexivity.
      - rewrite process_regular_buffer_flow.
        destruct (mappable buffer); [|reflexivity].
        destruct (supported_format (finfo_format info)); [|reflexivity].
        simpl. split_paths; reflexivity. }
    rewrite (Hflow s), (Hflow t). reflexivity.
  - unfold gst_rerun_sink_render. rewrite Henc, Hinfo. reflexivity.
Qed.

Lemma render_result_independent_of_session_witness :
  fst (gst_rerun_sink_render false sample_video_info_from_caps
         (Some (raw_caps "RGB" 1 2)) (host_buffer rgb_1x2_stride4)
         (sink_of gst_rerun_sink_init))
  = fst (gst_rerun_sink_render false sample_video_info_from_caps
           (Some (raw_caps "RGB" 1 2)) (host_buffer rgb_1x2_stride4)
           (sink_of (active_priv None))).
Proof.
  apply (render_result_independent_of_session false sample_video_info_from_caps
           (Some (raw_caps "RGB" 1 2)) (host_buffer rgb_1x2_stride4)
           (sink_of gst_rerun_sink_init) (sink_of (active_priv None))).
  reflexivity.
Defined.

(** X17.  [is_encoded_format] looks at the first structure of the caps
    only and accepts exactly the two names, compared byte for byte. *)
Theorem is_encoded_format_exact (caps : option GstCaps) :
  is_encoded_format caps = true
  <-> exists structure rest,
        caps = Some (structure :: rest)
        /\ (structure_name structure = "video/x-h264"
            \/ structure_name structure = "video/x-h265").
Proof.
  unfold is_encoded_format, gst_caps_get_structure, gst_structure_get_name.
  destruct caps as [[|structure rest]|]; cbn [nth_error option_map].
  - split; [discriminate|]. intros (st & r & H & _). discriminate.
  - rewrite orb_true_iff, !g_strcmp0_eq. split.
    + intros H. exists structure, rest. split; [reflexivity|exact H].
    + intros (st & r & Heq & H). inversion Heq; subst. exact H.
  - split; [discriminate|]. intros (st & r & H & _). discriminate.
Qed.

Lemma copy_rows_flat_map (ptr : list byte) (pitch width : Z) (iters : nat) :
  forall (raw_data : list byte) (i : Z),
    copy_rows raw_data ptr pitch width i iters
    = raw_data
      ++ flat_map (fun k => plane_range ptr ((i + Z.of_nat k) * pitch) width)
           (seq 0 iters).
Proof.
  induction iters as [|iters IH]; intros raw_data i.
  - simpl. rewrite app_nil_r. reflexivity.
  - cbn [copy_rows]. rewrite IH. rewrite <- app_assoc. f_equal.
    cbn [seq flat_map]. rewrite Z.add_0_r. f_equal.
    rewrite <- seq_shift. rewrite !flat_map_concat_map, map_map. f_equal.
    apply map_ext. intros k. f_equal. rewrite Nat2Z.inj_succ. lia.
Qed.

Lemma plane_range_in_bounds (ptr : list byte) (off width : nat) :
  (off + width <= List.length ptr)%nat ->
  List.length (plane_range ptr (Z.of_nat off) (Z.of_nat width)) = width
  /\ forall c, (c < width)%nat ->
       nth_error (plane_range ptr (Z.of_nat off) (Z.of_nat width)) c
       = nth_error ptr (off + c).
Proof.
  intros Hin. unfold plane_range. rewrite !Nat2Z.id. split.
  - rewrite length_firstn, length_skipn. lia.
  - intros c Hc. rewrite nth_error_firstn.
    destruct (Nat.ltb_spec c width); [|lia].
    apply nth_error_skipn.
Qed.

Lemma flat_map_rows (f : nat -> list byte) (width : nat) (n : nat) :
  (forall k, (k < n)%nat -> List.length (f k) = width) ->
  List.length (flat_map f (seq 0 n)) = (n * width)%nat
  /\ forall r c, (r < n)%nat -> (c < width)%nat ->
       nth_error (flat_map f (seq 0 n)) (r * width + c) = nth_error (f r) c.
Proof.
  induction n as [|n IH]; intros Hlen.
  - split; [reflexivity|]. intros r c Hr. lia.
  - destruct IH as (IHlen & IHnth); [intros k Hk; apply Hlen; lia|].
    rewrite seq_S, flat_map_app. cbn [flat_map Nat.add]. rewrite app_nil_r.
    split.
    + rewrite length_app, IHlen, (Hlen n) by lia. lia.
    + intros r c Hr Hc.
      destruct (Nat.eq_dec r n) as [->|Hne].
      * rewrite nth_error_app2 by (rewrite IHlen; lia).
        rewrite IHlen. f_equal. lia.
      * rewrite nth_error_app1 by (rewrite IHlen; nia).
        apply IHnth; lia.
Qed.

Lemma copy_rows_addressing (ptr raw_data : list byte) (pitch width n : nat) :
  rows_in_plane n pitch width (List.length ptr) = true ->
  let out := copy_rows raw_data ptr (Z.of_nat pitch) (Z.of_nat width) 0 n in
  List.length out = (List.length raw_data + n * width)%nat
  /\ forall r c, (r < n)%nat -> (c < width)%nat ->
       nth_error out (List.length raw_data + (r * width + c))
       = nth_error ptr (r * pitch + c).
Proof.
  intros Hin out. subst out. rewrite copy_rows_flat_map.
  unfold rows_in_plane in Hin. apply orb_true_iff in Hin.
  assert (Hrow : forall k, (k < n)%nat ->
                   (k * pitch + width <= List.length ptr)%nat).
  { intros k Hk. destruct Hin as [Hz|Hb].
    - apply Nat.eqb_eq in Hz. lia.
    - apply Nat.leb_le in Hb. nia. }
  assert (Hoff : forall k, (0 + Z.of_nat k) * Z.of_nat pitch
                           = Z.of_nat (k * pitch))
    by (intros k; rewrite Nat2Z.inj_mul; lia).
  destruct (flat_map_rows
              (fun k => plane_range ptr ((0 + Z.of_nat k) * Z.of_nat pitch)
                          (Z.of_nat width)) width n) as (Hlen & Hnth).
  { intros k Hk. rewrite Hoff.
    apply (plane_range_in_bounds ptr (k * pitch) width (Hrow k Hk)). }
  split.
  - rewrite length_app, Hlen. reflexivity.
  - intros r c Hr Hc.
    rewrite nth_error_app2 by lia.
    replace (List.length raw_data + (r * width + c) - List.length raw_data)%nat
      with (r * width + c)%nat by lia.
    rewrite (Hnth r c Hr Hc), Hoff.
    apply (plane_range_in_bounds ptr (r * pitch) width (Hrow r Hr)). exact Hc.
Qed.

(** X13.  Pixel addressing on the device route: for planes that hold the
    rows at their pitches, the extracted bytes number
    [height * width + (height / 2) * width]; the byte of luma row [r] and
    column [c] is the byte at [r * pitch0 + c] of the luma plane, and after
    the luma rows the byte of chroma row [r] and column [c] is the byte at
    [r * pitch1 + c] of the chroma plane.  Nothing is assumed on how the
    pitches compare with the width. *)
Theorem nvmm_pixel_addressing (width height y_pitch uv_pitch : nat)
    (surface : NvBufSurface) (cpu_y_ptr cpu_uv_ptr : list byte) :
  surface_width surface = Z.of_nat width ->
  surface_height surface = Z.of_nat height ->
  planeParams_pitch0 surface = Z.of_nat y_pitch ->
  planeParams_pitch1 surface = Z.of_nat uv_pitch ->
  gint_range (Z.of_nat width) = true -> gint_range (Z.of_nat height) = true ->
  gint_range (Z.of_nat y_pitch) = true -> gint_range (Z.of_nat uv_pitch) = true ->
  rows_in_plane height y_pitch width (List.length cpu_y_ptr) = true ->
  rows_in_plane (height / 2) uv_pitch width (List.length cpu_uv_ptr) = true ->
  let raw_data := nvmm_raw_data surface cpu_y_ptr cpu_uv_ptr in
  List.length raw_data = (height * width + height / 2 * width)%nat
  /\ (forall r c, (r < height)%nat -> (c < width)%nat ->
        nth_error raw_data (r * width + c)
        = nth_error cpu_y_ptr (r * y_pitch + c))
  /\ (forall r c, (r < height / 2)%nat -> (c < width)%nat ->
        nth_error raw_data (height * width + (r * width + c))
        = nth_error cpu_uv_ptr (r * uv_pitch + c)).
Proof.
  intros Hw Hh Hyp Huvp Rw Rh Ry Ruv Hy Huv raw_data. subst raw_data.
  unfold nvmm_raw_data. rewrite Hw, Hh, Hyp, Huvp.
  rewrite (to_gint_in_range _ Rw), (to_gint_in_range _ Rh),
    (to_gint_in_range _ Ry), (to_gint_in_range _ Ruv).
  rewrite Z.quot_div_nonneg by lia.
  change 2 with (Z.of_nat 2). rewrite <- Nat2Z.inj_div, !Nat2Z.id.
  destruct (copy_rows_addressing cpu_y_ptr [] y_pitch width height Hy)
    as (Hylen & Hynth).
  cbn [List.length Nat.add] in Hylen, Hynth.
  destruct (copy_rows_addressing cpu_uv_ptr
              (copy_rows [] cpu_y_ptr (Z.of_nat y_pitch) (Z.of_nat width) 0 height)
              uv_pitch width (height / 2) Huv) as (Hlen & Hnth).
  rewrite Hylen in Hlen, Hnth.
  split; [exact Hlen|]. split.
  - intros r c Hr Hc. rewrite <- (Hynth r c Hr Hc).
    rewrite copy_rows_flat_map.
    apply nth_error_app1. rewrite Hylen. nia.
  - exact Hnth.
Qed.

Lemma nvmm_pixel_addressing_witness :
  nth_error (nvmm_raw_data surface_2x2 (padded_plane luma_2x2)
               (padded_plane chroma_2x2)) (1 * 2 + 1)
  = nth_error (padded_plane luma_2x2) (1 * 4 + 1).
Proof.
  apply (proj1 (proj2 (nvmm_pixel_addressing 2 2 4 4 surface_2x2
                         (padded_plane luma_2x2) (padded_plane chroma_2x2)
                         eq_refl eq_refl eq_refl eq_refl
                         eq_refl eq_refl eq_refl eq_refl eq_refl eq_refl))
           1%nat 1%nat); lia.
Defined.

(** ** The example program *)

Lemma main_parse_args_modes (argv : list string) (mode : string) :
  main_parse_args argv = Run mode ->
  mode = "spawn" \/ mode = "disk" \/ mode = "grpc".
Proof.
  unfold main_parse_args.
  destruct argv as [|arg0 [|arg1 rest]];
    try (intros H; inversion H; auto; fail).
  destruct (String.eqb arg1 "-h" || String.eqb arg1 "--help"); [discriminate|].
  destruct (String.eqb_spec arg1 "spawn") as [->|_];
    [intros H; inversion H; auto|].
  destruct (String.eqb_spec arg1 "disk") as [->|_];
    [intros H; inversion H; auto|].
  destruct (String.eqb_spec arg1 "grpc") as [->|_];
    [intros H; inversion H; auto|].
  discriminate.
Qed.

(** X14.  Every mode the example program accepts configures the sink
    without conflict, sets the image path, and makes the start open the one
    target the mode names: the file example.rrd for "disk", the address
    127.0.0.1:9090 for "grpc", the viewer for "spawn", which is also the mode
    when no argument is given. *)
Theorem example_mode_opens_its_target (HAVE_NVMM_SUPPORT : bool)
    (env : RerunEnv) (argv : list string) (mode : string) :
  main_parse_args argv = Run mode ->
  let s := snd (main_configure_sink mode (sink_of gst_rerun_sink_init)) in
  let s' := snd (gst_rerun_sink_start HAVE_NVMM_SUPPORT env s) in
  has_output_file (priv s) && has_custom_grpc (priv s) = false
  /\ image_path (priv s) = Some "camera/test_pattern"
  /\ filter is_target_open (calls s')
     = [if String.eqb mode "disk" then RecordingStream_save "example.rrd"
        else if String.eqb mode "grpc"
             then RecordingStream_connect_grpc "127.0.0.1:9090"
             else RecordingStream_spawn].
Proof.
  intros Hparse.
  destruct (main_parse_args_modes argv mode Hparse) as [-> | [-> | ->]];
    cbv zeta; (split; [reflexivity|]); (split; [reflexivity|]).
  - destruct (start_target_calls HAVE_NVMM_SUPPORT env
                (snd (main_configure_sink "spawn" (sink_of gst_rerun_sink_init)))
                eq_refl) as (_ & H).
    rewrite H. reflexivity.
  - destruct (start_target_calls HAVE_NVMM_SUPPORT env
                (snd (main_configure_sink "disk" (sink_of gst_rerun_sink_init)))
                eq_refl) as (_ & H).
    rewrite H. reflexivity.
  - destruct (start_target_calls HAVE_NVMM_SUPPORT env
                (snd (main_configure_sink "grpc" (sink_of gst_rerun_sink_init)))
                eq_refl) as (_ & H).
    rewrite H. reflexivity.
Qed.

Lemma example_mode_opens_its_target_witness :
  filter is_target_open
    (calls (snd (gst_rerun_sink_start false env_ok
                   (snd (main_configure_sink "disk"
                           (sink_of gst_rerun_sink_init))))))
  = [RecordingStream_save "example.rrd"].
Proof.
  apply (proj2 (proj2 (example_mode_opens_its_target false env_ok
                         ["simple_pipeline"; "disk"] "disk" eq_refl))).
Defined.

Lemma is_encoded_format_exact_witness :
  is_encoded_format (Some (encoded_caps "video/x-h265" dims_640x480)) = true.
Proof.
  apply (proj2 (is_encoded_format_exact
                  (Some (encoded_caps "video/x-h265" dims_640x480)))).
  eexists; eexists. split; [reflexivity|]. right. reflexivity.
Defined.
